(** * Role management of the shoe shop backend (users/views.py)

    A shallow embedding of [CustomUserViewSet]: the nested
    [RoleAssignmentAndDismissalHandler] (batch assignment and dismissal of
    role flags), the role endpoints built on it, and the paginated staff
    directory.  The user table and the StoreOwner table are an explicit
    state, threaded through a state-and-exception monad; every ORM call
    leaves an entry in a trace, so that "no store access" is a statement
    about the trace. *)

From Stdlib Require Import ZArith Ascii String List Bool Lia.
From stdpp Require Import base option list gmap strings pretty fin_maps.

Local Open Scope string_scope.
Local Open Scope list_scope.
Local Open Scope Z_scope.

Set Warnings "-register-all".

(** ** Python strings and the builtins [int] and [str] *)

Module Py.

(** A Python [str] is held as its UTF-8 text: a character of a string
    here is one byte of it, and a character of the [str] is a code
    point, one to four bytes. *)
Definition byte (c : ascii) : Z := Z.of_nat (nat_of_ascii c).
Definition of_byte (b : Z) : ascii := ascii_of_nat (Z.to_nat b).

Definition continuation (b : Z) : option Z :=
  if (128 <=? b) && (b <? 192) then Some (b - 128) else None.

(** The code points of a UTF-8 text; [None] for bytes that are the text
    of no [str] (a stray continuation byte, an overlong form, a
    surrogate, a value above U+10FFFF). *)
Fixpoint code_points (s : list Z) : option (list Z) :=
  match s with
  | [] => Some []
  | b0 :: s1 =>
      if b0 <? 128 then cons b0 <$> code_points s1
      else if b0 <? 194 then None
      else if b0 <? 224 then
        match s1 with
        | b1 :: s2 =>
            match continuation b1 with
            | Some c1 => cons ((b0 - 192) * 64 + c1) <$> code_points s2
            | None => None
            end
        | _ => None
        end
      else if b0 <? 240 then
        match s1 with
        | b1 :: b2 :: s3 =>
            match continuation b1, continuation b2 with
            | Some c1, Some c2 =>
                let c := ((b0 - 224) * 64 + c1) * 64 + c2 in
                if (c <? 2048) || ((55296 <=? c) && (c <=? 57343)) then None
                else cons c <$> code_points s3
            | _, _ => None
            end
        | _ => None
        end
      else if b0 <? 245 then
        match s1 with
        | b1 :: b2 :: b3 :: s4 =>
            match continuation b1, continuation b2, continuation b3 with
            | Some c1, Some c2, Some c3 =>
                let c := (((b0 - 240) * 64 + c1) * 64 + c2) * 64 + c3 in
                if (c <? 65536) || (1114111 <? c) then None
                else cons c <$> code_points s4
            | _, _, _ => None
            end
        | _ => None
        end
      else None
  end.

(** The UTF-8 bytes of a code point. *)
Definition utf8 (c : Z) : list Z :=
  if c <? 128 then [c]
  else if c <? 2048 then [192 + c / 64; 128 + c mod 64]
  else if c <? 65536 then
    [224 + c / 4096; 128 + (c / 64) mod 64; 128 + c mod 64]
  else [240 + c / 262144; 128 + (c / 4096) mod 64; 128 + (c / 64) mod 64;
        128 + c mod 64].

(** [Py_ISSPACE], the blanks that the parser of [int] skips at both ends:
    tab to carriage return, and the blank. *)
Definition is_space (c : Z) : bool :=
  ((9 <=? c) && (c <=? 13)) || (c =? 32).

(** [Py_UNICODE_ISSPACE], the white space of [str.isspace] and
    [str.strip]: with the four separators 28 to 31 and the white space
    beyond ASCII. *)
Definition isspace (c : Z) : bool :=
  ((9 <=? c) && (c <=? 13)) || ((28 <=? c) && (c <=? 32))
  || (c =? 133) || (c =? 160) || (c =? 5760)
  || ((8192 <=? c) && (c <=? 8202))
  || (c =? 8232) || (c =? 8233) || (c =? 8239) || (c =? 8287) || (c =? 12288).

(** The decimal digits of the Unicode database (version 14.0, the one of
    CPython 3.11) come in runs of ten, zero to nine; these are the
    zeros. *)
Definition decimal_zeros : list Z :=
  [ 48; 1632; 1776; 1984; 2406; 2534; 2662; 2790; 2918; 3046; 3174; 3302;
    3430; 3558; 3664; 3792; 3872; 4160; 4240; 6112; 6160; 6470; 6608; 6784;
    6800; 6992; 7088; 7232; 7248; 42528; 43216; 43264; 43472; 43504; 43600;
    44016; 65296; 66720; 68912; 69734; 69872; 69942; 70096; 70384; 70736;
    70864; 71248; 71360; 71472; 71904; 72016; 72784; 73040; 73120; 92768;
    92864; 93008; 120782; 120792; 120802; 120812; 120822; 123200; 123632;
    125264; 130032 ].

(** [Py_UNICODE_TODECIMAL]. *)
Definition decimal (c : Z) : option Z :=
  (λ z, c - z) <$> List.find (λ z, (z <=? c) && (c <? z + 10)) decimal_zeros.

(** [_PyUnicode_TransformDecimalAndSpaceToASCII]: a [str] of ASCII
    characters is taken as it is; in another one every white space
    beyond ASCII becomes a blank, every decimal digit its ASCII digit and
    any other character beyond ASCII a question mark. *)
Definition to_ascii (c : Z) : Z :=
  if c <? 127 then c
  else if isspace c then 32
  else match decimal c with Some d => 48 + d | None => 63 end.

Definition transform (s : list Z) : list Z :=
  if forallb (λ c, c <? 128) s then s else to_ascii <$> s.

Definition digit (c : Z) : option Z :=
  if (48 <=? c) && (c <=? 57) then Some (c - 48) else None.

Fixpoint lstrip (space : Z → bool) (s : list Z) : list Z :=
  match s with
  | c :: s' => if space c then lstrip space s' else s
  | [] => []
  end.

Definition strip_with (space : Z → bool) (s : list Z) : list Z :=
  rev (lstrip space (rev (lstrip space s))).

(** [s.strip()] on the UTF-8 text of [s]. *)
Definition strip (s : list ascii) : list ascii :=
  match code_points (byte <$> s) with
  | Some l => of_byte <$> concat (utf8 <$> strip_with isspace l)
  | None => s
  end.

(** Decimal digits, a single underscore allowed between two digits.
    [seen] tells whether the previous character was a digit; [n] counts
    the digits read. *)
Fixpoint digits (acc : Z) (n : nat) (seen : bool) (s : list Z)
  : option (Z * nat) :=
  match s with
  | [] => if seen then Some (acc, n) else None
  | c :: s' =>
      match digit c with
      | Some d => digits (acc * 10 + d) (S n) true s'
      | None =>
          if (c =? 95) && seen then digits acc n false s' else None
      end
  end.

(** [sys.get_int_max_str_digits()], the default. *)
Definition max_str_digits : nat := 4300.

Definition unsigned (s : list Z) : option Z :=
  match digits 0 0 false s with
  | Some (v, n) => if (n <=? max_str_digits)%nat then Some v else None
  | None => None
  end.

(** [int(s)] for a [str]; [None] is ValueError.  The text is made ASCII
    ([transform]), the blanks at both ends are skipped, then come an
    optional sign (43 is the plus, 45 the minus) and the digits. *)
Definition int (s : string) : option Z :=
  match code_points (byte <$> list_ascii_of_string s) with
  | Some l =>
      match strip_with is_space (transform l) with
      | c :: r =>
          if c =? 43 then unsigned r
          else if c =? 45 then Z.opp <$> unsigned r
          else unsigned (c :: r)
      | [] => None
      end
  | None => None
  end.

(** [str(n)] for an integer. *)
Definition str (n : Z) : string := pretty n.

(** [sep.join(l)]. *)
Definition join (sep : string) (l : list string) : string :=
  String.concat sep l.

Definition lower_char (c : ascii) : ascii :=
  let n := nat_of_ascii c in
  if ((65 <=? n) && (n <=? 90))%nat then ascii_of_nat (n + 32) else c.

(** [s.lower()] on the letters A to Z; the views apply it to the role
    values only, which have no other letters. *)
Fixpoint lower (s : string) : string :=
  match s with
  | EmptyString => EmptyString
  | String c s' => String (lower_char c) (lower s')
  end.

(** Truth value of a string: the empty string is false. *)
Definition truthy (s : string) : bool := negb (String.eqb s "").

(** JSON-like values carried by responses. *)
Inductive val :=
| VNone
| VInt (n : Z)
| VStr (s : string)
| VStrs (l : list string)
| VDict (d : list (string * val))
| VList (l : list val).

Inductive exn :=
| ValueError
| KeyError (key : string)
| AttributeError (name : string)
| NameError (name : string)
| IntegrityError
| DatabaseError
| DoesNotExist
| MultipleObjectsReturned
| NotFound (detail : string).

End Py.

(** ** The data model: users, StoreOwner entries, the two tables *)

(** A row of the user table (the fields the serializers expose).  The
    primary key is the key of the table, see [State]. *)
Record CustomUser := {
  username : string;
  email : string;
  first_name : string;
  last_name : string;
  phone_number : string;
  sex : string;
  is_store_owner : bool;
  is_store_manager : bool;
  is_inventory_manager : bool;
  is_sales_associate : bool;
  is_customer_service : bool;
  is_cashier : bool
}.

Global Instance CustomUser_eq_dec : EqDecision CustomUser.
Proof. solve_decision. Defined.

(** [getattr(user, name)] on the boolean role fields; [None] is
    AttributeError, and [hasattr] is [is_Some] of it. *)
Definition getattr (u : CustomUser) (name : string) : option bool :=
  if String.eqb name "is_store_owner" then Some (is_store_owner u)
  else if String.eqb name "is_store_manager" then Some (is_store_manager u)
  else if String.eqb name "is_inventory_manager" then Some (is_inventory_manager u)
  else if String.eqb name "is_sales_associate" then Some (is_sales_associate u)
  else if String.eqb name "is_customer_service" then Some (is_customer_service u)
  else if String.eqb name "is_cashier" then Some (is_cashier u)
  else None.

(** [setattr(user, name, v)] on the same fields (on another name no
    column of the row changes). *)
Definition setattr (u : CustomUser) (name : string) (v : bool) : CustomUser :=
  let mk o m i s c k :=
    {| username := username u; email := email u; first_name := first_name u;
       last_name := last_name u; phone_number := phone_number u; sex := sex u;
       is_store_owner := o; is_store_manager := m; is_inventory_manager := i;
       is_sales_associate := s; is_customer_service := c; is_cashier := k |} in
  let o := is_store_owner u in let m := is_store_manager u in
  let i := is_inventory_manager u in let s := is_sales_associate u in
  let c := is_customer_service u in let k := is_cashier u in
  if String.eqb name "is_store_owner" then mk v m i s c k
  else if String.eqb name "is_store_manager" then mk o v i s c k
  else if String.eqb name "is_inventory_manager" then mk o m v s c k
  else if String.eqb name "is_sales_associate" then mk o m i v c k
  else if String.eqb name "is_customer_service" then mk o m i s v k
  else if String.eqb name "is_cashier" then mk o m i s c v
  else u.

(** A row of the StoreOwner table (migration 0002): an automatic primary
    key and the one-to-one link to the user.  The creation time stamp is
    left out. *)
Record StoreOwner := { so_id : Z; so_user : Z }.

(** The ORM calls of the views, as they appear in the trace. *)
Inductive db_op :=
| SO_exists
| SO_create (uid : Z)
| SO_related (uid : Z)
| SO_delete (uid : Z)
| U_filter_id_in (ids : list Z)
| U_get_username (name : string)
| U_save (uid : Z) (update_fields : option (list string))
| U_staff (role_type : option string).

Record State := {
  users : gmap Z CustomUser;
  store_owners : list StoreOwner;
  so_seq : Z;
  trace : list db_op
}.

Definition set_users (f : gmap Z CustomUser → gmap Z CustomUser) (s : State) : State :=
  {| users := f (users s); store_owners := store_owners s;
     so_seq := so_seq s; trace := trace s |}.

Definition set_store_owners (l : list StoreOwner) (q : Z) (s : State) : State :=
  {| users := users s; store_owners := l; so_seq := q; trace := trace s |}.

Definition add_trace (op : db_op) (s : State) : State :=
  {| users := users s; store_owners := store_owners s;
     so_seq := so_seq s; trace := trace s ++ [op] |}.

(** ** The monad: state and exceptions *)

Definition M (A : Type) : Type := State → State * (Py.exn + A).

Definition ret {A} (a : A) : M A := λ s, (s, inr a).
Definition raise {A} (e : Py.exn) : M A := λ s, (s, inl e).
Definition bind {A B} (m : M A) (k : A → M B) : M B :=
  λ s, match m s with
       | (s', inr a) => k a s'
       | (s', inl e) => (s', inl e)
       end.
Definition lift {A} (r : Py.exn + A) : M A := λ s, (s, r).
Definition log (op : db_op) : M unit := λ s, (add_trace op s, inr tt).
Definition gets {A} (f : State → A) : M A := λ s, (s, inr (f s)).
Definition modify (f : State → State) : M unit := λ s, (f s, inr tt).

Notation "'do' x <- m ; k" := (bind m (λ x, k))
  (at level 10, x pattern, m at level 100, k at level 200,
   format "'[v' 'do'  x  <-  m ; '/' k ']'").
Notation "'do_' m ; k" := (bind m (λ _, k))
  (at level 10, m at level 100, k at level 200,
   format "'[v' 'do_'  m ; '/' k ']'").

(** [for x in l: s = body(s, x)]. *)
Fixpoint for_each {A S} (body : S → A → M S) (l : list A) (s : S) : M S :=
  match l with
  | [] => ret s
  | x :: l' => do s' <- body s x; for_each body l' s'
  end.

(** Truth value of a list. *)
Definition nonempty {A} (l : list A) : bool :=
  match l with [] => false | _ => true end.

(** ** The ORM calls *)

Module ORM.

(** [StoreOwner.objects.exists()]. *)
Definition store_owner_exists : M bool :=
  do_ log SO_exists;
  gets (λ s, nonempty (store_owners s)).

Definition owns (uid : Z) (r : StoreOwner) : bool := so_user r =? uid.

(** [StoreOwner.objects.create(user=user)]; the one-to-one link is
    unique, a second entry for a user is refused. *)
Definition store_owner_create (uid : Z) : M unit :=
  do_ log (SO_create uid);
  do taken <- gets (λ s, existsb (owns uid) (store_owners s));
  if taken : bool then raise Py.IntegrityError
  else modify (λ s, set_store_owners
                      (store_owners s ++ [{| so_id := so_seq s + 1; so_user := uid |}])
                      (so_seq s + 1) s).

(** [hasattr(user, 'store_owner_entry')]: the reverse side of the link. *)
Definition has_store_owner_entry (uid : Z) : M bool :=
  do_ log (SO_related uid);
  gets (λ s, existsb (owns uid) (store_owners s)).

(** [user.store_owner_entry.delete()]. *)
Definition store_owner_entry_delete (uid : Z) : M unit :=
  do_ log (SO_delete uid);
  modify (λ s, set_store_owners
                 (List.filter (λ r, negb (owns uid r)) (store_owners s))
                 (so_seq s) s).

(** [{user.id: user for user in CustomUser.objects.filter(id__in=ids)}]:
    one query, the rows found keyed by their id. *)
Definition users_by_id_in (ids : list Z) : M (gmap Z CustomUser) :=
  do_ log (U_filter_id_in ids);
  gets (λ s, filter (λ kv : Z * CustomUser, kv.1 ∈ ids) (users s)).

(** [CustomUser.objects.get(username=name)]. *)
Definition user_get_by_username (name : string) : M (Z * CustomUser) :=
  do_ log (U_get_username name);
  do found <- gets (λ s, List.filter (λ kv : Z * CustomUser, String.eqb (username kv.2) name)
                           (map_to_list (users s)));
  match found with
  | [] => raise Py.DoesNotExist
  | [kv] => ret kv
  | _ => raise Py.MultipleObjectsReturned
  end.

(** [user.save()]: every column of the row is written. *)
Definition user_save (uid : Z) (u : CustomUser) : M unit :=
  do_ log (U_save uid None);
  modify (set_users (λ m, <[uid := u]> m)).

(** [user.save(update_fields=[name])]: the one column is written to the
    row; a name that is no column is a ValueError, a row that is gone a
    DatabaseError. *)
Definition user_save_field (uid : Z) (u : CustomUser) (name : string) : M unit :=
  do_ log (U_save uid (Some [name]));
  match getattr u name with
  | None => raise Py.ValueError
  | Some v =>
      do row <- gets (λ s, users s !! uid);
      match row with
      | None => raise Py.DatabaseError
      | Some r => modify (set_users (λ m, <[uid := setattr r name v]> m))
      end
  end.

End ORM.

(** ** RoleAssignmentAndDismissalHandler *)

Definition dict := list (string * Py.val).

(** [d[key]] and [d.get(key)] on a dict kept as its items. *)
Fixpoint dict_get {V} (key : string) (d : list (string * V)) : option V :=
  match d with
  | [] => None
  | (k, v) :: d' => if String.eqb k key then Some v else dict_get key d'
  end.

Record RoleConfig := { field : string; display_name : string }.

Definition role_configs : list (string * RoleConfig) :=
  [ ("store_owner", {| field := "is_store_owner"; display_name := "store owner" |});
    ("store_manager", {| field := "is_store_manager"; display_name := "store manager" |});
    ("inventory_manager", {| field := "is_inventory_manager"; display_name := "inventory manager" |});
    ("customer_service", {| field := "is_customer_service"; display_name := "customer service" |});
    ("cashier", {| field := "is_cashier"; display_name := "cashier" |});
    ("sales_associate", {| field := "is_sales_associate"; display_name := "sales associate" |}) ].

(** A handler instance: [config] is an attribute only when a role type
    was given. *)
Record RoleAssignmentAndDismissalHandler := {
  role_type : option string;
  config : option RoleConfig
}.

(** [RoleAssignmentAndDismissalHandler.__init__]. *)
Definition __init__ (role_type : option string)
  : Py.exn + RoleAssignmentAndDismissalHandler :=
  match role_type with
  | Some r =>
      if Py.truthy r then
        match dict_get r role_configs with
        | Some c => inr {| role_type := Some r; config := Some c |}
        | None => inl (Py.KeyError r)
        end
      else inr {| role_type := Some r; config := None |}
  | None => inr {| role_type := None; config := None |}
  end.

(** [self.config]. *)
Definition self_config (self : RoleAssignmentAndDismissalHandler) : M RoleConfig :=
  match config self with
  | Some c => ret c
  | None => raise (Py.AttributeError "config")
  end.

Definition plural {A} (l : list A) : bool := (1 <? length l)%nat.

(** [l[0]] of a list known to be non-empty. *)
Definition first (l : list string) : string := hd "" l.

Definition optional_item (cond : bool) (item : M (string * Py.val)) : M dict :=
  if cond then do kv <- item; ret [kv] else ret [].

(** [_build_process_assignment_response__messages] (two underscores
    before [messages], as the source defines it). *)
Definition _build_process_assignment_response__messages
    (self : RoleAssignmentAndDismissalHandler)
    (assigned_users not_found_ids invalid_ids error_messages : list string) : M dict :=
  do m1 <- optional_item (nonempty assigned_users)
    (if plural assigned_users
     then do c <- self_config self;
          ret ("message", Py.VStr ("Users " +:+ Py.join ", " assigned_users
                 +:+ " have been assigned as " +:+ display_name c +:+ "s."))
     else do c <- self_config self;
          ret ("message", Py.VStr ("User " +:+ first assigned_users
                 +:+ " has been assigned as a " +:+ display_name c +:+ ".")));
  do m2 <- optional_item (nonempty not_found_ids)
    (ret ("not_found", Py.VStr
       (if plural not_found_ids
        then "Users with IDs " +:+ Py.join ", " not_found_ids +:+ " were not found."
        else "User with ID " +:+ first not_found_ids +:+ " was not found.")));
  do m3 <- optional_item (nonempty invalid_ids)
    (ret ("invalid", Py.VStr
       (if plural invalid_ids
        then "Invalid IDs: " +:+ Py.join ", " invalid_ids +:+ "."
        else "Invalid ID: " +:+ first invalid_ids +:+ ".")));
  do m4 <- optional_item (nonempty error_messages)
    (ret ("errors", Py.VStrs error_messages));
  ret (m1 ++ m2 ++ m3 ++ m4)%list.

(** [_build_process_dismissal_response_messages]. *)
Definition _build_process_dismissal_response_messages
    (self : RoleAssignmentAndDismissalHandler)
    (dismissed_users not_found_ids no_roles_ids error_messages : list string) : M dict :=
  do m1 <- optional_item (nonempty dismissed_users)
    (if plural dismissed_users
     then do c <- self_config self;
          ret ("message", Py.VStr ("Users " +:+ Py.join ", " dismissed_users
                 +:+ " have been dismissed as " +:+ display_name c +:+ "s."))
     else do c <- self_config self;
          ret ("message", Py.VStr ("User " +:+ first dismissed_users
                 +:+ " has been dismissed as a " +:+ display_name c +:+ ".")));
  do m2 <- optional_item (nonempty not_found_ids)
    (ret ("not_found", Py.VStr
       (if plural not_found_ids
        then "Users with IDs " +:+ Py.join ", " not_found_ids +:+ " were not found."
        else "User with ID " +:+ first not_found_ids +:+ " was not found.")));
  do m3 <- optional_item (nonempty no_roles_ids)
    (if plural no_roles_ids
     then do c <- self_config self;
          ret ("no_roles", Py.VStr ("Users with IDs " +:+ Py.join ", " no_roles_ids
                 +:+ " don't have the " +:+ display_name c +:+ " role."))
     else do c <- self_config self;
          ret ("no_roles", Py.VStr ("User with ID " +:+ first no_roles_ids
                 +:+ " doesn't have the " +:+ display_name c +:+ " role.")));
  do m4 <- optional_item (nonempty error_messages)
    (ret ("errors", Py.VStrs error_messages));
  ret (m1 ++ m2 ++ m3 ++ m4)%list.

(** The methods of the handler that take four lists, under the names the
    class body binds them to.  (The other attributes of a handler are
    [role_type], [role_configs], [config], [__init__],
    [process_assignments], [process_dismissals] and
    [_format_empty_response].) *)
Definition builder : Type :=
  RoleAssignmentAndDismissalHandler →
  list string → list string → list string → list string → M dict.

Definition Handler_builders : list (string * builder) :=
  [ ("_build_process_assignment_response__messages",
     _build_process_assignment_response__messages);
    ("_build_process_dismissal_response_messages",
     _build_process_dismissal_response_messages) ].

(** [self.<name>(a, b, c, d)]: the attribute is looked up by name. *)
Definition self_call (self : RoleAssignmentAndDismissalHandler) (name : string)
    (a b c d : list string) : M dict :=
  match dict_get name Handler_builders with
  | Some f => f self a b c d
  | None => raise (Py.AttributeError name)
  end.

(** *** process_assignments *)

Module Assign.

(** The local lists of [process_assignments]. *)
Record Vars := {
  assigned_users : list string;
  not_found_ids : list string;
  invalid_ids : list string;
  error_messages : list string;
  valid_ids : list Z
}.

Definition init : Vars :=
  {| assigned_users := []; not_found_ids := []; invalid_ids := [];
     error_messages := []; valid_ids := [] |}.

Definition add_assigned (x : string) (v : Vars) : Vars :=
  {| assigned_users := assigned_users v ++ [x]; not_found_ids := not_found_ids v;
     invalid_ids := invalid_ids v; error_messages := error_messages v;
     valid_ids := valid_ids v |}%list.
Definition add_not_found (x : string) (v : Vars) : Vars :=
  {| assigned_users := assigned_users v; not_found_ids := not_found_ids v ++ [x];
     invalid_ids := invalid_ids v; error_messages := error_messages v;
     valid_ids := valid_ids v |}%list.
Definition add_invalid (x : string) (v : Vars) : Vars :=
  {| assigned_users := assigned_users v; not_found_ids := not_found_ids v;
     invalid_ids := invalid_ids v ++ [x]; error_messages := error_messages v;
     valid_ids := valid_ids v |}%list.
Definition add_error (x : string) (v : Vars) : Vars :=
  {| assigned_users := assigned_users v; not_found_ids := not_found_ids v;
     invalid_ids := invalid_ids v; error_messages := error_messages v ++ [x];
     valid_ids := valid_ids v |}%list.
Definition add_valid (x : Z) (v : Vars) : Vars :=
  {| assigned_users := assigned_users v; not_found_ids := not_found_ids v;
     invalid_ids := invalid_ids v; error_messages := error_messages v;
     valid_ids := valid_ids v ++ [x] |}%list.

Definition self_message (c : RoleConfig) : string :=
  "Cannot assign " +:+ display_name c +:+ " role to yourself.".

Definition already_message (u : CustomUser) (c : RoleConfig) : string :=
  "User " +:+ username u +:+ " is already a " +:+ display_name c +:+ ".".

(** Body of the first loop: one token of [user_ids]. *)
Definition scan (self : RoleAssignmentAndDismissalHandler) (current_user_id : Z)
    (v : Vars) (user_id : string) : M Vars :=
  match Py.int user_id with
  | Some user_id_int =>
      if user_id_int =? current_user_id
      then do c <- self_config self; ret (add_error (self_message c) v)
      else ret (add_valid user_id_int v)
  | None => ret (add_invalid user_id v)
  end.

(** Body of the second loop: one id of [valid_ids].  [objs] is the
    dict [existing_user_ids]; its objects are shared by the iterations
    and updated in place. *)
Definition step (self : RoleAssignmentAndDismissalHandler)
    (st : gmap Z CustomUser * Vars) (user_id : Z) : M (gmap Z CustomUser * Vars) :=
  let '(objs, v) := st in
  match objs !! user_id with
  | None => ret (objs, add_not_found (Py.str user_id) v)
  | Some user =>
      do c <- self_config self;
      match getattr user (field c) with
      | None => raise (Py.AttributeError (field c))
      | Some true =>
          ret (objs, add_invalid (Py.str user_id)
                       (add_error (already_message user c) v))
      | Some false =>
          let user' := setattr user (field c) true in
          do_ ORM.user_save_field user_id user' (field c);
          ret (<[user_id := user']> objs, add_assigned (username user') v)
      end
  end.

(** [process_assignments] up to the line that builds the messages. *)
Definition batch (self : RoleAssignmentAndDismissalHandler) (current_user_id : Z)
    (user_ids : list string) : M Vars :=
  do v <- for_each (scan self current_user_id) user_ids init;
  if nonempty (valid_ids v) then
    do objs <- ORM.users_by_id_in (valid_ids v);
    do st <- for_each (step self) (valid_ids v) (objs, v);
    ret st.2
  else ret v.

Record Result := {
  r_assigned_users : list string;
  r_not_found_ids : list string;
  r_invalid_ids : list string;
  r_response_data : dict
}.

End Assign.

Definition process_assignments (self : RoleAssignmentAndDismissalHandler)
    (current_user_id : Z)
    (user_ids : list string) : M Assign.Result :=
  do v <- Assign.batch self current_user_id user_ids;
  do response_data <-
    self_call self "_build_process_assignment_response_messages"
      (Assign.assigned_users v) (Assign.not_found_ids v)
      (Assign.invalid_ids v) (Assign.error_messages v);
  ret {| Assign.r_assigned_users := Assign.assigned_users v;
         Assign.r_not_found_ids := Assign.not_found_ids v;
         Assign.r_invalid_ids := Assign.invalid_ids v;
         Assign.r_response_data := response_data |}.

(** *** The role of a user *)

Module UserRoles.
(** Modelled from the spec: [users.choices.UserRoles] is not among the
    sources.  The spec names the six roles by their role keys, in the
    order store owner, store manager, inventory manager, sales
    associate, customer service, cashier; the member values are taken to
    be these keys. *)
Definition STORE_OWNER : string := "store_owner".
Definition STORE_MANAGER : string := "store_manager".
Definition INVENTORY_MANAGER : string := "inventory_manager".
Definition SALES_ASSOCIATE : string := "sales_associate".
Definition CUSTOMER_SERVICE : string := "customer_service".
Definition CASHIER : string := "cashier".
End UserRoles.

(** Modelled from the spec: [CustomUser.get_role] (users/models.py) is not
    among the sources.  The spec: "first true flag encountered in the
    canonical six-role order, or none if no flag is set". *)
Definition get_role (u : CustomUser) : option string :=
  if is_store_owner u then Some UserRoles.STORE_OWNER
  else if is_store_manager u then Some UserRoles.STORE_MANAGER
  else if is_inventory_manager u then Some UserRoles.INVENTORY_MANAGER
  else if is_sales_associate u then Some UserRoles.SALES_ASSOCIATE
  else if is_customer_service u then Some UserRoles.CUSTOMER_SERVICE
  else if is_cashier u then Some UserRoles.CASHIER
  else None.

(** *** process_dismissals *)

Module Dismiss.

Record Vars := {
  dismissed_users : list string;
  not_found_ids : list string;
  no_roles_ids : list string;
  error_messages : list string;
  valid_ids : list Z
}.

Definition init : Vars :=
  {| dismissed_users := []; not_found_ids := []; no_roles_ids := [];
     error_messages := []; valid_ids := [] |}.

Definition add_dismissed (x : string) (v : Vars) : Vars :=
  {| dismissed_users := dismissed_users v ++ [x]; not_found_ids := not_found_ids v;
     no_roles_ids := no_roles_ids v; error_messages := error_messages v;
     valid_ids := valid_ids v |}%list.
Definition add_not_found (x : string) (v : Vars) : Vars :=
  {| dismissed_users := dismissed_users v; not_found_ids := not_found_ids v ++ [x];
     no_roles_ids := no_roles_ids v; error_messages := error_messages v;
     valid_ids := valid_ids v |}%list.
Definition add_no_roles (x : string) (v : Vars) : Vars :=
  {| dismissed_users := dismissed_users v; not_found_ids := not_found_ids v;
     no_roles_ids := no_roles_ids v ++ [x]; error_messages := error_messages v;
     valid_ids := valid_ids v |}%list.
Definition add_error (x : string) (v : Vars) : Vars :=
  {| dismissed_users := dismissed_users v; not_found_ids := not_found_ids v;
     no_roles_ids := no_roles_ids v; error_messages := error_messages v ++ [x];
     valid_ids := valid_ids v |}%list.
Definition add_valid (x : Z) (v : Vars) : Vars :=
  {| dismissed_users := dismissed_users v; not_found_ids := not_found_ids v;
     no_roles_ids := no_roles_ids v; error_messages := error_messages v;
     valid_ids := valid_ids v ++ [x] |}%list.

Definition self_message : string := "You cannot dismiss yourself.".

(** Body of the first loop. *)
Definition scan (current_user_id : Z) (v : Vars) (user_id : string) : M Vars :=
  match Py.int user_id with
  | Some user_id_int =>
      if user_id_int =? current_user_id
      then ret (add_error self_message v)
      else ret (add_valid user_id_int v)
  | None => ret (add_not_found user_id v)
  end.

(** Body of the second loop. *)
Definition step (st : gmap Z CustomUser * Vars) (user_id : Z)
  : M (gmap Z CustomUser * Vars) :=
  let '(objs, v) := st in
  match objs !! user_id with
  | None => ret (objs, add_not_found (Py.str user_id) v)
  | Some user =>
      match get_role user with
      | None => ret (objs, add_no_roles (Py.str user_id) v)
      | Some user_role =>
          do_ (if String.eqb user_role UserRoles.STORE_OWNER then
                 do entry <- ORM.has_store_owner_entry user_id;
                 if entry : bool then ORM.store_owner_entry_delete user_id
                 else ret tt
               else ret tt);
          let role_field := "is_" +:+ Py.lower user_role in
          if bool_decide (is_Some (getattr user role_field)) then
            let user' := setattr user role_field false in
            do_ ORM.user_save_field user_id user' role_field;
            ret (<[user_id := user']> objs, add_dismissed (username user') v)
          else ret (objs, v)
      end
  end.

(** [process_dismissals] up to the line that builds the messages. *)
Definition batch (current_user_id : Z) (user_ids : list string) : M Vars :=
  do v <- for_each (scan current_user_id) user_ids init;
  if nonempty (valid_ids v) then
    do objs <- ORM.users_by_id_in (valid_ids v);
    do st <- for_each step (valid_ids v) (objs, v);
    ret st.2
  else ret v.

Record Result := {
  r_dismissed_users : list string;
  r_not_found_ids : list string;
  r_no_roles_ids : list string;
  r_error_messages : list string;
  r_response_data : dict
}.

Definition to_val (r : Result) : Py.val :=
  Py.VDict [ ("dismissed_users", Py.VStrs (r_dismissed_users r));
             ("not_found_ids", Py.VStrs (r_not_found_ids r));
             ("no_roles_ids", Py.VStrs (r_no_roles_ids r));
             ("error_messages", Py.VStrs (r_error_messages r));
             ("response_data", Py.VDict (r_response_data r)) ].

End Dismiss.

Definition process_dismissals (self : RoleAssignmentAndDismissalHandler)
    (current_user_id : Z)
    (user_ids : list string) : M Dismiss.Result :=
  do v <- Dismiss.batch current_user_id user_ids;
  do response_data <-
    self_call self "_build_process_dismissal_response_messages"
      (Dismiss.dismissed_users v) (Dismiss.not_found_ids v)
      (Dismiss.no_roles_ids v) (Dismiss.error_messages v);
  ret {| Dismiss.r_dismissed_users := Dismiss.dismissed_users v;
         Dismiss.r_not_found_ids := Dismiss.not_found_ids v;
         Dismiss.r_no_roles_ids := Dismiss.no_roles_ids v;
         Dismiss.r_error_messages := Dismiss.error_messages v;
         Dismiss.r_response_data := response_data |}.

(** ** Requests and responses *)

(** A QueryDict: keys with their lists of values. *)
Definition QueryDict := list (string * list string).

(** [q.getlist(key, [])]. *)
Definition getlist (key : string) (q : QueryDict) : list string :=
  default [] (dict_get key q).

(** [q.get(key)]: the last value of the key. *)
Definition qget (key : string) (q : QueryDict) : option string :=
  dict_get key q ≫= last.

Record Request := {
  user_id : Z;              (* request.user.id *)
  user : CustomUser;              (* request.user *)
  data : QueryDict;         (* request.data *)
  query_params : QueryDict  (* request.query_params *)
}.

Record Response := { body : Py.val; status : Z }.

Definition HTTP_200_OK : Z := 200.
Definition HTTP_400_BAD_REQUEST : Z := 400.
Definition HTTP_403_FORBIDDEN : Z := 403.

Definition error_body (msg : string) : Py.val := Py.VDict [("error", Py.VStr msg)].
Definition message_body (msg : string) : Py.val := Py.VDict [("message", Py.VStr msg)].

(** The names bound at the top level of views.py: its imports and the
    view set.  A bare name in a method body is looked up here (no builtin
    has any of the names the views use bare).  The module is taken as
    loaded, with every imported name bound. *)
Definition module_globals : list string :=
  [ "status"; "viewsets"; "pagination"; "PageNumberPagination"; "action";
    "Response"; "UserRoles"; "CustomUser"; "StoreOwner"; "IsStoreOwner";
    "IsStoreManager"; "IsSelfProfile"; "IsInventoryManager";
    "CustomUserSerializer"; "CustomUserUpdateSerializer";
    "CustomUserCreateSerializer"; "CustomUserViewSet" ].

Definition global_name (name : string) : M unit :=
  if existsb (String.eqb name) module_globals then ret tt
  else raise (Py.NameError name).

(** ** The role endpoints of CustomUserViewSet *)

(** The five endpoints [assign_store_manager], [assign_inventory_manager],
    [assign_sales_associate], [assign_customer_service] and
    [assign_cashier] have one body, up to the role type given to the
    handler. *)
Definition assign_role (role : string) (request : Request) : M Response :=
  let user_ids := getlist "user_ids" (data request) in
  if negb (nonempty user_ids) then
    ret {| body := error_body "No user IDs provided."; status := HTTP_400_BAD_REQUEST |}
  else
    do handler <- lift (__init__ (Some role));
    do result <- process_assignments handler (user_id request) user_ids;
    if negb (nonempty (Assign.r_assigned_users result))
       && (nonempty (Assign.r_not_found_ids result)
           || nonempty (Assign.r_invalid_ids result))
    then ret {| body := Py.VDict (Assign.r_response_data result);
                status := HTTP_400_BAD_REQUEST |}
    else ret {| body := Py.VDict (Assign.r_response_data result);
                status := HTTP_200_OK |}.

Definition assign_store_manager := assign_role "store_manager".
Definition assign_inventory_manager := assign_role "inventory_manager".
Definition assign_sales_associate := assign_role "sales_associate".
Definition assign_customer_service := assign_role "customer_service".
Definition assign_cashier := assign_role "cashier".

(** The part of [assign_store_owner] after the first-owner case. *)
Definition assign_store_owner_batch (request : Request) : M Response :=
  let user_ids := getlist "user_ids" (data request) in
  if negb (nonempty user_ids) then
    ret {| body := error_body "No user IDs provided."; status := HTTP_400_BAD_REQUEST |}
  else
    do handler <- lift (__init__ (Some "store_owner"));
    do result <- process_assignments handler (user_id request) user_ids;
    if negb (nonempty (Assign.r_assigned_users result))
       && (nonempty (Assign.r_not_found_ids result)
           || nonempty (Assign.r_invalid_ids result))
    then ret {| body := Py.VDict (Assign.r_response_data result);
                status := HTTP_400_BAD_REQUEST |}
    else
      do_ for_each (λ (_ : unit) name,
                      do u <- ORM.user_get_by_username name;
                      ORM.store_owner_create u.1)
            (Assign.r_assigned_users result) tt;
      ret {| body := Py.VDict (Assign.r_response_data result);
             status := HTTP_200_OK |}.

Definition assign_store_owner (request : Request) : M Response :=
  do any_owner <- ORM.store_owner_exists;
  if negb any_owner then
    if negb (user_id request =? 1) then
      ret {| body := error_body
               "Only the first registered user (ID=1) can become the initial store owner.";
             status := HTTP_403_FORBIDDEN |}
    else
      do_ ORM.store_owner_create (user_id request);
      do_ ORM.user_save (user_id request) (setattr (user request) "is_store_owner" true);
      ret {| body := message_body "You have been assigned as the first store owner.";
             status := HTTP_200_OK |}
  else assign_store_owner_batch request.

Definition dismiss_role (request : Request) : M Response :=
  let user_ids := getlist "user_ids" (data request) in
  let current_user_id := user_id request in
  if negb (nonempty user_ids) then
    ret {| body := error_body "User IDs must be provided."; status := HTTP_400_BAD_REQUEST |}
  else
    (* the handler class is named bare here, not through [self] *)
    do_ global_name "RoleAssignmentAndDismissalHandler";
    do role_handler <- lift (__init__ None);
    do result <- process_dismissals role_handler current_user_id user_ids;
    ret {| body := Dismiss.to_val result; status := HTTP_200_OK |}.

(** ** The staff directory *)

(** [PageNumberPagination] of the REST framework with the three class
    attributes that [StaffMemberPagination] sets; the methods are the
    framework's ([get_page_size], [get_page_number], [paginate_queryset],
    [get_paginated_response]) over Django's [Paginator]. *)
Module StaffMemberPagination.

Definition page_size : Z := 10.
Definition page_size_query_param : string := "page_size".
Definition max_page_size : Z := 100.

(** Inherited defaults. *)
Definition page_query_param : string := "page".
Definition last_page_string : string := "last".
Definition invalid_page_message : string := "Invalid page.".

(** [_positive_int(s, strict=True, cutoff=c)]; [None] is ValueError. *)
Definition _positive_int (s : string) (cutoff : Z) : option Z :=
  match Py.int s with
  | Some n => if n <=? 0 then None else Some (Z.min n cutoff)
  | None => None
  end.

(** A missing or unusable [page_size] parameter gives the default. *)
Definition get_page_size (q : QueryDict) : Z :=
  match qget page_size_query_param q with
  | Some s => default page_size (_positive_int s max_page_size)
  | None => page_size
  end.

(** [Paginator.num_pages]: at least one page, also for no rows. *)
Definition num_pages (count per_page : Z) : Z :=
  (Z.max 1 count + per_page - 1) / per_page.

(** [get_page_number] followed by [Paginator.validate_number]; [None] is
    InvalidPage. *)
Definition page_number (q : QueryDict) (count per_page : Z) : option Z :=
  let requested :=
    match qget page_query_param q with
    | Some s =>
        if Py.truthy s then
          if String.eqb s last_page_string then Some (num_pages count per_page)
          else Py.int s
        else Some 1
    | None => Some 1
    end in
  match requested with
  | Some n =>
      if n <? 1 then None
      else if num_pages count per_page <? n then None
      else Some n
  | None => None
  end.

(** The rows of page [n]: [object_list[bottom:top]]. *)
Definition page_rows {A} (rows : list A) (n per_page : Z) : list A :=
  let count := Z.of_nat (length rows) in
  let bottom := (n - 1) * per_page in
  let top := Z.min (bottom + per_page) count in
  take (Z.to_nat (top - bottom)) (drop (Z.to_nat bottom) rows).

Record Page (A : Type) := {
  count : Z; number : Z; pages : Z; object_list : list A
}.
Arguments count {A}.
Arguments number {A}.
Arguments pages {A}.
Arguments object_list {A}.

(** [paginate_queryset]: an invalid page is the API exception NotFound. *)
Definition paginate_queryset {A} (rows : list A) (q : QueryDict)
  : Py.exn + Page A :=
  let per_page := get_page_size q in
  let total := Z.of_nat (length rows) in
  match page_number q total per_page with
  | Some n =>
      inr {| count := total; number := n; pages := num_pages total per_page;
             object_list := page_rows rows n per_page |}
  | None => inl (Py.NotFound invalid_page_message)
  end.

(** [get_paginated_response]; the two links are given by the number of
    the page they lead to. *)
Definition get_paginated_response {A} (p : Page A) (results : list Py.val)
  : Response :=
  {| body := Py.VDict
       [ ("count", Py.VInt (count p));
         ("next", if number p <? pages p then Py.VInt (number p + 1) else Py.VNone);
         ("previous", if 1 <? number p then Py.VInt (number p - 1) else Py.VNone);
         ("results", Py.VList results) ];
     status := HTTP_200_OK |}.

End StaffMemberPagination.

(** [user.get_full_name()] of Django's user model. *)
Definition get_full_name (u : CustomUser) : string :=
  string_of_list_ascii
    (Py.strip (list_ascii_of_string (first_name u +:+ " " +:+ last_name u))).

Definition has_any_role (u : CustomUser) : bool :=
  is_store_owner u || is_store_manager u || is_inventory_manager u
  || is_sales_associate u || is_customer_service u || is_cashier u.

(** The query set of [get_staff_members] before pagination: the base
    query (the six filters joined with [|], one SELECT with the six
    conditions or-ed) narrowed by [role_type]; [inl] is the response for
    an invalid role type. *)
Definition staff_members_query (role_type : option string) (m : gmap Z CustomUser)
  : Response + list (Z * CustomUser) :=
  let base := List.filter (λ kv : Z * CustomUser, has_any_role kv.2) (map_to_list m) in
  let narrow (f : CustomUser → bool) := inr (List.filter (λ kv : Z * CustomUser, f kv.2) base) in
  match role_type with
  | Some r =>
      if Py.truthy r then
        if String.eqb r "store_owner" then narrow is_store_owner
        else if String.eqb r "store_manager" then narrow is_store_manager
        else if String.eqb r "inventory_manager" then narrow is_inventory_manager
        else if String.eqb r "sales_associate" then narrow is_sales_associate
        else if String.eqb r "customer_service" then narrow is_customer_service
        else if String.eqb r "cashier" then narrow is_cashier
        else inl {| body := error_body
                      ("Invalid role type: " +:+ r +:+
                       ". Valid types are: store_owner, store_manager, inventory_manager, sales_associate, customer_service, cashier.");
                    status := HTTP_400_BAD_REQUEST |}
      else inr base
  | None => inr base
  end.

Definition staff_row (kv : Z * CustomUser) : Py.val :=
  Py.VDict [ ("id", Py.VInt kv.1);
             ("username", Py.VStr (username kv.2));
             ("full_name", Py.VStr (get_full_name kv.2));
             ("role", from_option Py.VStr Py.VNone (get_role kv.2)) ].

Definition get_staff_members (request : Request) : M Response :=
  let role_type := qget "role_type" (query_params request) in
  do users_now <- gets users;
  match staff_members_query role_type users_now with
  | inl bad_request => ret bad_request
  | inr staff =>
      do_ log (U_staff role_type);
      do page <- lift (StaffMemberPagination.paginate_queryset staff
                         (query_params request));
      ret (StaffMemberPagination.get_paginated_response page
             (staff_row <$> StaffMemberPagination.object_list page))
  end.

(** ** The other methods of the view set *)

(** [x in [a, b, ...]] for strings. *)
Definition str_in (x : string) (l : list string) : bool := existsb (String.eqb x) l.

(** [get_queryset]: all users; for the list action the requester is
    excluded. *)
Definition get_queryset (action : string) (request : Request)
    (m : gmap Z CustomUser) : gmap Z CustomUser :=
  if String.eqb action "list"
  then filter (λ kv : Z * CustomUser, kv.1 ≠ user_id request) m
  else m.

(** The permission classes that views.py imports, and [a | b]. *)
Inductive Permission :=
| IsStoreOwner
| IsStoreManager
| IsSelfProfile
| IsInventoryManager
| Or (a b : Permission).

Definition get_permissions (action : string) : list Permission :=
  if str_in action ["list"; "retrieve"; "destroy"]
  then [Or IsStoreOwner IsStoreManager]
  else if str_in action ["update"; "partial_update"]
  then [IsSelfProfile]
  else if str_in action ["assign_store_owner"; "assign_store_manager"; "dismiss_role"]
  then [IsStoreOwner]
  else if str_in action ["assign_inventory_manager"; "get_staff_members"]
  then [IsStoreManager]
  else if String.eqb action "assign_sales_associate"
  then [IsStoreManager]
  else [Or IsStoreManager IsStoreOwner].

(** [permission.has_permission(request, view)], given what the four
    classes answer for the request: [a | b] grants when one side does. *)
Fixpoint has_permission (grants : Permission → bool) (p : Permission) : bool :=
  match p with
  | Or a b => has_permission grants a || has_permission grants b
  | _ => grants p
  end.

(** The check of the framework before an action runs: every permission
    that [get_permissions] returns has to grant. *)
Definition check_permissions (grants : Permission → bool) (action : string) : bool :=
  forallb (has_permission grants) (get_permissions action).

(** ** Vocabulary of the properties *)

Definition configured (self : RoleAssignmentAndDismissalHandler)
    (c : RoleConfig) : Prop :=
  config self = Some c ∧ c ∈ role_configs.*2.

(** Two runs of a loop from related local variables: the same effect on
    the tables, and related results (or the same exception). *)
Definition same_run {S} (R : S → S → Prop)
    (r1 r2 : State * (Py.exn + S)) : Prop :=
  r1.1 = r2.1 ∧
  match r1.2, r2.2 with
  | inr a, inr b => R a b
  | inl e1, inl e2 => e1 = e2
  | _, _ => False
  end.

(** The same fetched objects, and lists related one by one. *)
Definition assign_rel (Ra Rn Ri Re : list string → list string → Prop)
    (st1 st2 : gmap Z CustomUser * Assign.Vars) : Prop :=
  st1.1 = st2.1
  ∧ Ra (Assign.assigned_users st1.2) (Assign.assigned_users st2.2)
  ∧ Rn (Assign.not_found_ids st1.2) (Assign.not_found_ids st2.2)
  ∧ Ri (Assign.invalid_ids st1.2) (Assign.invalid_ids st2.2)
  ∧ Re (Assign.error_messages st1.2) (Assign.error_messages st2.2).

Definition dismiss_rel (Ra Rn Ri Re : list string → list string → Prop)
    (st1 st2 : gmap Z CustomUser * Dismiss.Vars) : Prop :=
  st1.1 = st2.1
  ∧ Ra (Dismiss.dismissed_users st1.2) (Dismiss.dismissed_users st2.2)
  ∧ Rn (Dismiss.not_found_ids st1.2) (Dismiss.not_found_ids st2.2)
  ∧ Ri (Dismiss.no_roles_ids st1.2) (Dismiss.no_roles_ids st2.2)
  ∧ Re (Dismiss.error_messages st1.2) (Dismiss.error_messages st2.2).

(** The tokens that [int] refuses, the ids of the other tokens that are
    not the actor's, and the number of tokens that name the actor. *)
Definition unparsed (user_ids : list string) : list string :=
  filter (λ t, Py.int t = None) user_ids.

Definition candidates (current_user_id : Z) (user_ids : list string) : list Z :=
  omap (λ t, n ← Py.int t; if n =? current_user_id then None else Some n) user_ids.

Definition self_count (current_user_id : Z) (user_ids : list string) : nat :=
  length (filter (λ t, Py.int t = Some current_user_id) user_ids).

(** The rows that the one query of a batch finds. *)
Definition fetched (ids : list Z) (m : gmap Z CustomUser) : gmap Z CustomUser :=
  filter (λ kv : Z * CustomUser, kv.1 ∈ ids) m.

(** The state after [user.save(update_fields=[name])] for a user whose
    row is the object [u] with [name] set to [b]. *)
Definition saved (k : Z) (u : CustomUser) (name : string) (b : bool) (s : State) : State :=
  set_users (λ m, <[k := setattr u name b]> m)
    (add_trace (U_save k (Some [name])) s).

(** The StoreOwner table after the entry of a dismissed store owner is
    looked up and, when there is one, deleted. *)
Definition entry_deleted (role : string) (k : Z) (s : State) : State :=
  if String.eqb role UserRoles.STORE_OWNER then
    if existsb (ORM.owns k) (store_owners s) then
      set_store_owners (List.filter (λ r, negb (ORM.owns k r)) (store_owners s))
        (so_seq s) (add_trace (SO_delete k) (add_trace (SO_related k) s))
    else add_trace (SO_related k) s
  else s.

Definition role_field (role : string) : string := "is_" +:+ Py.lower role.

(** The local lists after the first loop. *)
Definition assign_scanned (c : RoleConfig) (cur : Z) (ids : list string)
  : Assign.Vars :=
  {| Assign.assigned_users := []; Assign.not_found_ids := [];
     Assign.invalid_ids := unparsed ids;
     Assign.error_messages := replicate (self_count cur ids) (Assign.self_message c);
     Assign.valid_ids := candidates cur ids |}.

Definition dismiss_scanned (cur : Z) (ids : list string) : Dismiss.Vars :=
  {| Dismiss.dismissed_users := []; Dismiss.not_found_ids := unparsed ids;
     Dismiss.no_roles_ids := [];
     Dismiss.error_messages := replicate (self_count cur ids) Dismiss.self_message;
     Dismiss.valid_ids := candidates cur ids |}.

(** User names are unique in the user table. *)
Definition unique_usernames (m : gmap Z CustomUser) : Prop :=
  ∀ k1 k2 u1 u2, m !! k1 = Some u1 → m !! k2 = Some u2 →
    username u1 = username u2 → k1 = k2.

(** A relation between two lists that survives appending the same
    element to both. *)
Definition snoc_closed (R : list string → list string → Prop) : Prop :=
  ∀ l1 l2 x, R l1 l2 → R (l1 ++ [x]) (l2 ++ [x]).

(** [l1] is [l2] with [t] put in front. *)
Definition one_more_front (t : string) (l1 l2 : list string) : Prop := l1 = t :: l2.

(** [l1] is [l2] with [t] put in at some place. *)
Definition one_more (t : string) (l1 l2 : list string) : Prop :=
  ∃ a b, l1 = a ++ t :: b ∧ l2 = a ++ b.

(** An endpoint that answers an empty [user_ids] with 400 and touches
    nothing, not even by a query. *)
Definition rejects_empty_batch (endpoint : Request → M Response) : Prop :=
  ∀ request s, getlist "user_ids" (data request) = [] →
    ∃ b, endpoint request s
         = (s, inr {| body := b; status := HTTP_400_BAD_REQUEST |}).

(** The six role keys. *)
Definition role_keys : list string :=
  [ "store_owner"; "store_manager"; "inventory_manager"; "sales_associate";
    "customer_service"; "cashier" ].

(** The rows of a query: the users of the table that satisfy [f], each
    once. *)
Definition exactly_the_users (f : CustomUser → bool) (m : gmap Z CustomUser)
    (l : list (Z * CustomUser)) : Prop :=
  NoDup l.*1 ∧ ∀ k u, (k, u) ∈ l ↔ m !! k = Some u ∧ f u = true.

(** The names of the actions that change roles. *)
Definition role_actions : list string :=
  [ "assign_store_owner"; "assign_store_manager"; "assign_inventory_manager";
    "assign_sales_associate"; "assign_customer_service"; "assign_cashier";
    "dismiss_role" ].

(** Whether a permission class occurs in a permission. *)
Fixpoint mentions (q p : Permission) : bool :=
  match p with
  | Or a b => mentions q a || mentions q b
  | IsStoreOwner => match q with IsStoreOwner => true | _ => false end
  | IsStoreManager => match q with IsStoreManager => true | _ => false end
  | IsSelfProfile => match q with IsSelfProfile => true | _ => false end
  | IsInventoryManager => match q with IsInventoryManager => true | _ => false end
  end.

(** Exactly one token of the batch names the id [k]. *)
Definition names_once (k : Z) (user_ids : list string) : Prop :=
  length (filter (λ t, Py.int t = Some k) user_ids) = 1%nat.

(** At most one StoreOwner entry for a user (the one-to-one link). *)
Definition one_entry_per_user (s : State) : Prop :=
  NoDup (so_user <$> store_owners s).

(** [u'] is [u] with some role flags cleared and nothing else changed. *)
Definition only_cleared (u u' : CustomUser) : Prop :=
  username u' = username u ∧ email u' = email u
  ∧ first_name u' = first_name u ∧ last_name u' = last_name u
  ∧ phone_number u' = phone_number u ∧ sex u' = sex u
  ∧ (is_store_owner u' = true → is_store_owner u = true)
  ∧ (is_store_manager u' = true → is_store_manager u = true)
  ∧ (is_inventory_manager u' = true → is_inventory_manager u = true)
  ∧ (is_sales_associate u' = true → is_sales_associate u = true)
  ∧ (is_customer_service u' = true → is_customer_service u = true)
  ∧ (is_cashier u' = true → is_cashier u = true).

(** A computation that leaves the tables and the trace as they are. *)
Definition stateless {A} (m : M A) : Prop := ∀ s, (m s).1 = s.

(** ** Sample data *)

Module Sample.

Definition person (name : string) (owner cashier : bool) : CustomUser :=
  {| username := name; email := name +:+ "@shop.example";
     first_name := name; last_name := "Doe"; phone_number := "+1234567890";
     sex := "MALE";
     is_store_owner := owner; is_store_manager := false;
     is_inventory_manager := false; is_sales_associate := false;
     is_customer_service := false; is_cashier := cashier |}.

Definition root : CustomUser := person "root" false false.
Definition bob : CustomUser := person "bob" false false.
Definition eve : CustomUser := person "eve" true true.

(** A shop before its first store owner. *)
Definition fresh : State :=
  {| users := {[ 1 := root ]}; store_owners := []; so_seq := 0; trace := [] |}.

(** A shop with the store owner [eve], who is a cashier as well. *)
Definition shop : State :=
  {| users := <[1 := root]> (<[2 := bob]> {[ 3 := eve ]});
     store_owners := [ {| so_id := 1; so_user := 3 |} ];
     so_seq := 1; trace := [] |}.

(** A POST of [root] with the given [user_ids]. *)
Definition post (user_ids : list string) : Request :=
  {| user_id := 1; user := root; data := [("user_ids", user_ids)];
     query_params := [] |}.

(** A GET of [root] with the given query parameters. *)
Definition get (q : QueryDict) : Request :=
  {| user_id := 1; user := root; data := []; query_params := q |}.

Definition cashier_config : RoleConfig :=
  {| field := "is_cashier"; display_name := "cashier" |}.

Definition cashier_handler : RoleAssignmentAndDismissalHandler :=
  {| role_type := Some "cashier"; config := Some cashier_config |}.

End Sample.

(** * Properties *)

#[local] Arguments String.eqb : simpl never.
#[local] Arguments Py.str : simpl never.
#[local] Arguments Py.int : simpl never.
#[local] Arguments Assign.self_message : simpl never.
#[local] Arguments Assign.already_message : simpl never.
#[local] Arguments Dismiss.self_message : simpl never.
Import StaffMemberPagination.

Ltac run := unfold bind, ret, raise, lift, gets, modify, log; simpl.

Ltac by_decide := apply (bool_decide_unpack _); vm_compute; exact I.

Ltac role_cases Hc :=
  unfold role_configs in Hc; cbn in Hc; set_unfold in Hc;
  destruct_or! Hc; subst.

(** ** The builtins on examples *)

Example int_plain : Py.int "42" = Some 42.
Proof. reflexivity. Qed.
Example int_blank_sign : Py.int " -7 " = Some (-7).
Proof. reflexivity. Qed.
Example int_underscore : Py.int "1_000" = Some 1000.
Proof. reflexivity. Qed.
Example int_word : Py.int "abc" = None.
Proof. reflexivity. Qed.
Example int_empty : Py.int "" = None.
Proof. reflexivity. Qed.
Example int_double_underscore : Py.int "1__0" = None.
Proof. reflexivity. Qed.
(** The separators 28 to 31 are white space for [str.isspace] and not
    for [int]; white space and decimal digits beyond ASCII are read. *)
Example int_separator :
  Py.int (String "028" "2") = None ∧ Py.isspace 28 = true.
Proof. split; reflexivity. Qed.
Example int_arabic_indic : Py.int "٢" = Some 2.
Proof. reflexivity. Qed.
Example int_fullwidth : Py.int "-１２" = Some (-12).
Proof. reflexivity. Qed.
Example int_no_break_space :
  Py.int (String "194" (String "160" "5")) = Some 5.
Proof. reflexivity. Qed.
Example int_superscript : Py.int "²" = None.
Proof. reflexivity. Qed.
Example str_neg : Py.str (-5) = "-5".
Proof. reflexivity. Qed.
Example lower_upper : Py.lower "STORE_OWNER" = "store_owner".
Proof. reflexivity. Qed.

(** ** The monad and the loops *)

Lemma bind_ret {A B} (a : A) (k : A → M B) s : bind (ret a) k s = k a s.
Proof. reflexivity. Qed.

Lemma bind_raise {A B} e (k : A → M B) s : bind (raise e) k s = (s, inl e).
Proof. reflexivity. Qed.

Lemma bind_value {A B} (m : M A) (k : A → M B) s s' a :
  m s = (s', inr a) → bind m k s = k a s'.
Proof. unfold bind. by intros ->. Qed.

Lemma bind_error {A B} (m : M A) (k : A → M B) s s' e :
  m s = (s', inl e) → bind m k s = (s', inl e).
Proof. unfold bind. by intros ->. Qed.

Section ForEach.
Context {A S : Type} (body : S → A → M S).

Lemma for_each_app l1 l2 st s s1 st1 :
  for_each body l1 st s = (s1, inr st1) →
  for_each body (l1 ++ l2) st s = for_each body l2 st1 s1.
Proof.
  revert st s. induction l1 as [|x l1 IH]; simpl; intros st s H.
  - unfold ret in H. by simplify_eq.
  - unfold bind in *. destruct (body st x s) as [s2 [e|st2]]; [done|].
    by apply IH.
Qed.

(** A loop invariant indexed by the part of the list already visited:
    when every iteration returns and extends the invariant, so does the
    loop. *)
Lemma for_each_ind (I : list A → State → S → Prop) l :
  (∀ seen x s st, I seen s st → x ∈ l →
     ∃ s' st', body st x s = (s', inr st') ∧ I (seen ++ [x]) s' st') →
  ∀ s st, I [] s st →
    ∃ s' st', for_each body l st s = (s', inr st') ∧ I l s' st'.
Proof.
  intros Hstep.
  cut (∀ rest seen s st, rest ⊆ l → I seen s st →
         ∃ s' st', for_each body rest st s = (s', inr st') ∧ I (seen ++ rest) s' st').
  { intros H s st HI. apply (H l [] s st); [done|done]. }
  induction rest as [|x rest IH]; intros seen s st Hsub HI; simpl.
  - exists s, st. by rewrite app_nil_r.
  - destruct (Hstep seen x s st HI) as (s1 & st1 & Hb & HI1).
    { apply Hsub. by left. }
    destruct (IH (seen ++ [x]) s1 st1) as (s2 & st2 & Hl & HI2); [|done|].
    { intros y Hy. apply Hsub. by right. }
    exists s2, st2. rewrite (bind_value _ _ _ _ _ Hb).
    split; [done|]. by rewrite <- app_assoc in HI2.
Qed.

Lemma for_each_rel (R : S → S → Prop) l :
  (∀ st st' x s, R st st' → same_run R (body st x s) (body st' x s)) →
  ∀ st st' s, R st st' →
    same_run R (for_each body l st s) (for_each body l st' s).
Proof.
  intros Hstep. induction l as [|x l IH]; intros st st' s HR; simpl.
  - done.
  - specialize (Hstep st st' x s HR). unfold bind.
    destruct (body st x s) as [s1 [e1|a1]], (body st' x s) as [s2 [e2|a2]];
      destruct Hstep as [Hs Hr]; simpl in *; subst; try done.
    by apply IH.
Qed.

End ForEach.

(** ** Role fields *)

Lemma Handler_init_configured role self :
  __init__ (Some role) = inr self → Py.truthy role = true →
  ∃ c, configured self c ∧ dict_get role role_configs = Some c.
Proof.
  unfold __init__. intros H Ht. rewrite Ht in H.
  destruct (dict_get role role_configs) as [c|] eqn:E; [|done].
  simplify_eq. exists c. split; [|done]. split; [done|].
  cbn [dict_get role_configs] in E.
  repeat (destruct (String.eqb _ _) in E; [inversion E; subst; cbn; set_solver|]).
  done.
Qed.

Lemma configured_field self c u :
  configured self c → is_Some (getattr u (field c)).
Proof. intros [_ Hc]. role_cases Hc; by eexists. Qed.

Lemma configured_set_get self c u b :
  configured self c → getattr (setattr u (field c) b) (field c) = Some b.
Proof. intros [_ Hc]. role_cases Hc; done. Qed.

Lemma setattr_username u f b : username (setattr u f b) = username u.
Proof. unfold setattr. by repeat case_match. Qed.

Lemma setattr_same_value u f b : getattr u f = Some b → setattr u f b = u.
Proof.
  unfold getattr, setattr. destruct u; simpl.
  repeat case_match; intros; by simplify_eq.
Qed.

Lemma get_role_field u r :
  get_role u = Some r → getattr u ("is_" +:+ Py.lower r) = Some true.
Proof.
  unfold get_role. destruct u; simpl.
  repeat case_match; intros; simplify_eq; reflexivity.
Qed.

Lemma get_role_store_owner u :
  get_role u = Some UserRoles.STORE_OWNER ↔ is_store_owner u = true.
Proof.
  unfold get_role. split.
  - repeat case_match; intros; by simplify_eq.
  - by intros ->.
Qed.

(** ** The first loop: sorting the tokens *)

Lemma candidates_not_self cur ids : cur ∉ candidates cur ids.
Proof.
  unfold candidates. rewrite list_elem_of_omap. intros (t & _ & H).
  destruct (Py.int t) as [n|]; simpl in H; [|done].
  destruct (Z.eqb_spec n cur); by simplify_eq.
Qed.

Lemma candidates_elem cur ids t n :
  t ∈ ids → Py.int t = Some n → n ≠ cur → n ∈ candidates cur ids.
Proof.
  intros Ht Hn Hne. unfold candidates. apply list_elem_of_omap.
  exists t. split; [done|]. rewrite Hn. simpl.
  by destruct (Z.eqb_spec n cur).
Qed.

Lemma candidates_app cur l1 l2 :
  candidates cur (l1 ++ l2) = candidates cur l1 ++ candidates cur l2.
Proof. apply omap_app. Qed.

Lemma unparsed_app l1 l2 : unparsed (l1 ++ l2) = unparsed l1 ++ unparsed l2.
Proof. apply filter_app. Qed.

Lemma self_count_app cur l1 l2 :
  self_count cur (l1 ++ l2) = (self_count cur l1 + self_count cur l2)%nat.
Proof. unfold self_count. by rewrite filter_app, length_app. Qed.

Lemma assign_scan_run self c cur ids v s :
  config self = Some c →
  for_each (Assign.scan self cur) ids v s =
    (s, inr {| Assign.assigned_users := Assign.assigned_users v;
               Assign.not_found_ids := Assign.not_found_ids v;
               Assign.invalid_ids := Assign.invalid_ids v ++ unparsed ids;
               Assign.error_messages :=
                 Assign.error_messages v
                 ++ replicate (self_count cur ids) (Assign.self_message c);
               Assign.valid_ids := Assign.valid_ids v ++ candidates cur ids |}).
Proof.
  intros Hc. revert v. induction ids as [|t ids IH]; intros v.
  - destruct v; simpl. unfold ret. by rewrite !app_nil_r.
  - cbn [for_each]. unfold Assign.scan at 1, self_config. rewrite Hc.
    unfold unparsed, candidates, self_count in *.
    rewrite !filter_cons. cbn [omap list_omap].
    destruct (Py.int t) as [n|] eqn:E; simpl.
    + destruct (Z.eqb_spec n cur) as [->|Hne].
      * unfold bind, ret; simpl. rewrite IH. destruct v; simpl.
        repeat case_decide; simplify_eq; simpl; by rewrite <- ?app_assoc.
      * unfold bind, ret; simpl. rewrite IH. destruct v; simpl.
        repeat case_decide; simplify_eq; simpl; by rewrite <- ?app_assoc.
    + unfold bind, ret; simpl. rewrite IH. destruct v; simpl.
        repeat case_decide; simplify_eq; simpl; by rewrite <- ?app_assoc.
Qed.

Lemma dismiss_scan_run cur ids v s :
  for_each (Dismiss.scan cur) ids v s =
    (s, inr {| Dismiss.dismissed_users := Dismiss.dismissed_users v;
               Dismiss.not_found_ids := Dismiss.not_found_ids v ++ unparsed ids;
               Dismiss.no_roles_ids := Dismiss.no_roles_ids v;
               Dismiss.error_messages :=
                 Dismiss.error_messages v
                 ++ replicate (self_count cur ids) Dismiss.self_message;
               Dismiss.valid_ids := Dismiss.valid_ids v ++ candidates cur ids |}).
Proof.
  revert v. induction ids as [|t ids IH]; intros v.
  - destruct v; simpl. unfold ret. by rewrite !app_nil_r.
  - cbn [for_each]. unfold Dismiss.scan at 1.
    unfold unparsed, candidates, self_count in *.
    rewrite !filter_cons. cbn [omap list_omap].
    destruct (Py.int t) as [n|] eqn:E; simpl.
    + destruct (Z.eqb_spec n cur) as [->|Hne].
      * unfold bind, ret; simpl. rewrite IH. destruct v; simpl.
        repeat case_decide; simplify_eq; simpl; by rewrite <- ?app_assoc.
      * unfold bind, ret; simpl. rewrite IH. destruct v; simpl.
        repeat case_decide; simplify_eq; simpl; by rewrite <- ?app_assoc.
    + unfold bind, ret; simpl. rewrite IH. destruct v; simpl.
        repeat case_decide; simplify_eq; simpl; by rewrite <- ?app_assoc.
Qed.

(** ** The second loop *)

Lemma fetched_lookup ids m k :
  fetched ids m !! k = if decide (k ∈ ids) then m !! k else None.
Proof.
  unfold fetched. case_decide as Hin.
  - destruct (m !! k) as [u|] eqn:Hm.
    + by apply map_lookup_filter_Some.
    + apply map_lookup_filter_None. by left.
  - apply map_lookup_filter_None. right. intros u _. done.
Qed.

Lemma fetched_subseteq ids m : fetched ids m ⊆ m.
Proof. apply map_filter_subseteq. Qed.

Lemma getattr_setattr u f b :
  is_Some (getattr u f) → getattr (setattr u f b) f = Some b.
Proof.
  unfold getattr, setattr. intros [x Hx]. revert Hx.
  repeat case_match; simpl; intros; simplify_eq; try done.
Qed.

Lemma add_trace_users op s : users (add_trace op s) = users s.
Proof. done. Qed.

Lemma add_trace_store_owners op s : store_owners (add_trace op s) = store_owners s.
Proof. done. Qed.

Lemma user_save_field_run k u name b s :
  is_Some (getattr u name) → users s !! k = Some u →
  ORM.user_save_field k (setattr u name b) name s = (saved k u name b s, inr tt).
Proof.
  intros Hf Hu. unfold ORM.user_save_field. run.
  rewrite getattr_setattr by done. by rewrite add_trace_users, Hu.
Qed.

Lemma saved_users k u name b s :
  users (saved k u name b s) = <[k := setattr u name b]> (users s).
Proof. done. Qed.

Lemma saved_store_owners k u name b s :
  store_owners (saved k u name b s) = store_owners s.
Proof. done. Qed.

(** *** One iteration of the assignment loop *)

Lemma assign_step_cases self c objs v k s :
  configured self c → objs ⊆ users s →
  (objs !! k = None ∧
   Assign.step self (objs, v) k s
   = (s, inr (objs, Assign.add_not_found (Py.str k) v)))
  ∨ (∃ u, objs !! k = Some u ∧ getattr u (field c) = Some true ∧
     Assign.step self (objs, v) k s
     = (s, inr (objs, Assign.add_invalid (Py.str k)
                        (Assign.add_error (Assign.already_message u c) v))))
  ∨ (∃ u, objs !! k = Some u ∧ getattr u (field c) = Some false ∧
     users s !! k = Some u ∧
     Assign.step self (objs, v) k s
     = (saved k u (field c) true s,
        inr (<[k := setattr u (field c) true]> objs,
             Assign.add_assigned (username u) v))).
Proof.
  intros Hcf Hsub. pose proof Hcf as [Hc _].
  unfold Assign.step, self_config. rewrite Hc.
  destruct (objs !! k) as [u|] eqn:Hk; [|by left].
  right. assert (users s !! k = Some u) as Hu.
  { by eapply lookup_weaken. }
  destruct (configured_field self c u Hcf) as [b Hb].
  destruct b; [left|right]; exists u.
  - run. by rewrite Hb.
  - run. rewrite Hb.
    rewrite (user_save_field_run k u (field c) true s) by (by eauto).
    by rewrite setattr_username.
Qed.

Lemma saved_subseteq k u name b objs s :
  objs ⊆ users s → <[k := setattr u name b]> objs ⊆ users (saved k u name b s).
Proof. intros H. rewrite saved_users. by apply insert_mono. Qed.

Lemma assign_step_total self c objs v k s :
  configured self c → objs ⊆ users s →
  ∃ s' st', Assign.step self (objs, v) k s = (s', inr st') ∧ st'.1 ⊆ users s'.
Proof.
  intros Hcf Hsub.
  destruct (assign_step_cases self c objs v k s Hcf Hsub)
    as [(_ & ->)|[(u & _ & _ & ->)|(u & _ & _ & _ & ->)]];
    eexists _, _; (split; [done|]); simpl; try done.
  by apply insert_mono.
Qed.

(** *** One iteration of the dismissal loop *)

Lemma entry_deleted_users role k s : users (entry_deleted role k s) = users s.
Proof. unfold entry_deleted. by repeat case_match. Qed.

Lemma dismiss_step_cases objs v k s :
  objs ⊆ users s →
  (objs !! k = None ∧
   Dismiss.step (objs, v) k s
   = (s, inr (objs, Dismiss.add_not_found (Py.str k) v)))
  ∨ (∃ u, objs !! k = Some u ∧ get_role u = None ∧
     Dismiss.step (objs, v) k s
     = (s, inr (objs, Dismiss.add_no_roles (Py.str k) v)))
  ∨ (∃ u r, objs !! k = Some u ∧ get_role u = Some r ∧ users s !! k = Some u ∧
     Dismiss.step (objs, v) k s
     = (saved k u (role_field r) false (entry_deleted r k s),
        inr (<[k := setattr u (role_field r) false]> objs,
             Dismiss.add_dismissed (username u) v))).
Proof.
  intros Hsub. unfold Dismiss.step.
  destruct (objs !! k) as [u|] eqn:Hk; [|by left].
  right. assert (users s !! k = Some u) as Hu.
  { by eapply lookup_weaken. }
  destruct (get_role u) as [r|] eqn:Hr; [right|left; by exists u].
  exists u, r. do 3 (split; [done|]).
  pose proof (get_role_field u r Hr) as Hf. fold (role_field r) in Hf |- *.
  rewrite bool_decide_eq_true_2 by (by eexists).
  unfold entry_deleted, ORM.has_store_owner_entry, ORM.store_owner_entry_delete.
  destruct (String.eqb r UserRoles.STORE_OWNER); run.
  - destruct (existsb (ORM.owns k) (store_owners s)); simpl.
    + erewrite user_save_field_run; [|by eexists|done].
      by rewrite setattr_username.
    + erewrite user_save_field_run; [|by eexists|done].
      by rewrite setattr_username.
  - erewrite user_save_field_run; [|by eexists|done].
    by rewrite setattr_username.
Qed.

Lemma dismiss_step_total objs v k s :
  objs ⊆ users s →
  ∃ s' st', Dismiss.step (objs, v) k s = (s', inr st') ∧ st'.1 ⊆ users s'.
Proof.
  intros Hsub.
  destruct (dismiss_step_cases objs v k s Hsub)
    as [(_ & ->)|[(u & _ & _ & ->)|(u & r & _ & _ & _ & ->)]];
    eexists _, _; (split; [done|]); simpl; try done.
  apply insert_mono. by rewrite entry_deleted_users.
Qed.

(** ** The two loops together *)

Lemma nonempty_true {A} (l : list A) : l ≠ [] → nonempty l = true.
Proof. by destruct l. Qed.

Lemma assign_scan_init self c cur ids s :
  config self = Some c →
  for_each (Assign.scan self cur) ids Assign.init s
  = (s, inr (assign_scanned c cur ids)).
Proof. intros Hc. by rewrite (assign_scan_run self c). Qed.

Lemma dismiss_scan_init cur ids s :
  for_each (Dismiss.scan cur) ids Dismiss.init s
  = (s, inr (dismiss_scanned cur ids)).
Proof. by rewrite dismiss_scan_run. Qed.

Lemma assign_batch_unfold self c cur ids s :
  config self = Some c →
  Assign.batch self cur ids s =
    if nonempty (candidates cur ids) then
      (do st <- for_each (Assign.step self) (candidates cur ids)
                  (fetched (candidates cur ids) (users s), assign_scanned c cur ids);
       ret st.2) (add_trace (U_filter_id_in (candidates cur ids)) s)
    else (s, inr (assign_scanned c cur ids)).
Proof.
  intros Hc. unfold Assign.batch.
  rewrite (bind_value _ _ _ _ _ (assign_scan_init self c cur ids s Hc)).
  cbn [Assign.valid_ids assign_scanned].
  destruct (nonempty (candidates cur ids)); [|done].
  unfold ORM.users_by_id_in. by run.
Qed.

Lemma dismiss_batch_unfold cur ids s :
  Dismiss.batch cur ids s =
    if nonempty (candidates cur ids) then
      (do st <- for_each Dismiss.step (candidates cur ids)
                  (fetched (candidates cur ids) (users s), dismiss_scanned cur ids);
       ret st.2) (add_trace (U_filter_id_in (candidates cur ids)) s)
    else (s, inr (dismiss_scanned cur ids)).
Proof.
  unfold Dismiss.batch.
  rewrite (bind_value _ _ _ _ _ (dismiss_scan_init cur ids s)).
  cbn [Dismiss.valid_ids dismiss_scanned].
  destruct (nonempty (candidates cur ids)); [|done].
  unfold ORM.users_by_id_in. by run.
Qed.

(** Invariants of the second loop carry over to the batch. *)
Lemma assign_batch_ind self c cur ids s
    (I : list Z → State → gmap Z CustomUser * Assign.Vars → Prop) :
  configured self c →
  candidates cur ids ≠ [] →
  I [] (add_trace (U_filter_id_in (candidates cur ids)) s)
     (fetched (candidates cur ids) (users s), assign_scanned c cur ids) →
  (∀ seen k s1 st1 s2 st2,
     I seen s1 st1 → st1.1 ⊆ users s1 → k ∈ candidates cur ids →
     Assign.step self st1 k s1 = (s2, inr st2) → I (seen ++ [k]) s2 st2) →
  ∃ s' st', Assign.batch self cur ids s = (s', inr st'.2)
            ∧ I (candidates cur ids) s' st' ∧ st'.1 ⊆ users s'.
Proof.
  intros Hcf Hne H0 Hstep. pose proof Hcf as [Hc _].
  rewrite (assign_batch_unfold self c) by done.
  rewrite nonempty_true by done.
  destruct (for_each_ind (Assign.step self)
              (λ seen s1 st1, I seen s1 st1 ∧ st1.1 ⊆ users s1)
              (candidates cur ids)) with
    (s := add_trace (U_filter_id_in (candidates cur ids)) s)
    (st := (fetched (candidates cur ids) (users s), assign_scanned c cur ids))
    as (s' & st' & Hrun & HI & Hsub').
  - intros seen k s1 [objs v] [HI Hsub] Hk.
    destruct (assign_step_total self c objs v k s1 Hcf Hsub)
      as (s2 & st2 & Hs & Hsub2).
    exists s2, st2. split; [done|]. split; [|done]. by eapply Hstep.
  - split; [done|]. apply fetched_subseteq.
  - exists s', st'. split; [|done]. by rewrite (bind_value _ _ _ _ _ Hrun).
Qed.

Lemma dismiss_batch_ind cur ids s
    (I : list Z → State → gmap Z CustomUser * Dismiss.Vars → Prop) :
  candidates cur ids ≠ [] →
  I [] (add_trace (U_filter_id_in (candidates cur ids)) s)
     (fetched (candidates cur ids) (users s), dismiss_scanned cur ids) →
  (∀ seen k s1 st1 s2 st2,
     I seen s1 st1 → st1.1 ⊆ users s1 → k ∈ candidates cur ids →
     Dismiss.step st1 k s1 = (s2, inr st2) → I (seen ++ [k]) s2 st2) →
  ∃ s' st', Dismiss.batch cur ids s = (s', inr st'.2)
            ∧ I (candidates cur ids) s' st' ∧ st'.1 ⊆ users s'.
Proof.
  intros Hne H0 Hstep.
  rewrite dismiss_batch_unfold.
  rewrite nonempty_true by done.
  destruct (for_each_ind Dismiss.step
              (λ seen s1 st1, I seen s1 st1 ∧ st1.1 ⊆ users s1)
              (candidates cur ids)) with
    (s := add_trace (U_filter_id_in (candidates cur ids)) s)
    (st := (fetched (candidates cur ids) (users s), dismiss_scanned cur ids))
    as (s' & st' & Hrun & HI & Hsub').
  - intros seen k s1 [objs v] [HI Hsub] Hk.
    destruct (dismiss_step_total objs v k s1 Hsub) as (s2 & st2 & Hs & Hsub2).
    exists s2, st2. split; [done|]. split; [|done]. by eapply Hstep.
  - split; [done|]. apply fetched_subseteq.
  - exists s', st'. split; [|done]. by rewrite (bind_value _ _ _ _ _ Hrun).
Qed.

(** The batch of a configured handler returns its lists. *)
Lemma assign_batch_total self c cur ids s :
  configured self c → ∃ s' v, Assign.batch self cur ids s = (s', inr v).
Proof.
  intros Hcf. destruct (decide (candidates cur ids = [])) as [He|Hne].
  - rewrite (assign_batch_unfold self c) by apply Hcf. rewrite He. by eexists _, _.
  - destruct (assign_batch_ind self c cur ids s (λ _ _ _, True))
      as (s' & st' & H & _); by eauto.
Qed.

Lemma dismiss_batch_total cur ids s :
  ∃ s' v, Dismiss.batch cur ids s = (s', inr v).
Proof.
  destruct (decide (candidates cur ids = [])) as [He|Hne].
  - rewrite dismiss_batch_unfold. rewrite He. by eexists _, _.
  - destruct (dismiss_batch_ind cur ids s (λ _ _ _, True))
      as (s' & st' & H & _); by eauto.
Qed.

(** The same invariants, for a run that is given. *)
Lemma assign_batch_known self c cur ids s s' v
    (I : list Z → State → gmap Z CustomUser * Assign.Vars → Prop) :
  configured self c →
  Assign.batch self cur ids s = (s', inr v) →
  I [] s (fetched (candidates cur ids) (users s), assign_scanned c cur ids) →
  (∀ op seen s1 st1, I seen s1 st1 → I seen (add_trace op s1) st1) →
  (∀ seen k s1 st1 s2 st2,
     I seen s1 st1 → st1.1 ⊆ users s1 → k ∈ candidates cur ids →
     Assign.step self st1 k s1 = (s2, inr st2) → I (seen ++ [k]) s2 st2) →
  ∃ objs, I (candidates cur ids) s' (objs, v) ∧ objs ⊆ users s'.
Proof.
  intros Hcf Hrun H0 Htr Hstep.
  destruct (decide (candidates cur ids = [])) as [He|Hne].
  - rewrite (assign_batch_unfold self c) in Hrun by apply Hcf.
    rewrite He in Hrun. cbn [nonempty] in Hrun. simplify_eq.
    exists (fetched (candidates cur ids) (users s')).
    rewrite He in H0 |- *. split; [done|apply fetched_subseteq].
  - destruct (assign_batch_ind self c cur ids s I)
      as (s1 & [objs v1] & Hrun1 & HI & Hsub); [done|done|by apply Htr|done|].
    rewrite Hrun in Hrun1. simplify_eq. by exists objs.
Qed.

Lemma dismiss_batch_known cur ids s s' v
    (I : list Z → State → gmap Z CustomUser * Dismiss.Vars → Prop) :
  Dismiss.batch cur ids s = (s', inr v) →
  I [] s (fetched (candidates cur ids) (users s), dismiss_scanned cur ids) →
  (∀ op seen s1 st1, I seen s1 st1 → I seen (add_trace op s1) st1) →
  (∀ seen k s1 st1 s2 st2,
     I seen s1 st1 → st1.1 ⊆ users s1 → k ∈ candidates cur ids →
     Dismiss.step st1 k s1 = (s2, inr st2) → I (seen ++ [k]) s2 st2) →
  ∃ objs, I (candidates cur ids) s' (objs, v) ∧ objs ⊆ users s'.
Proof.
  intros Hrun H0 Htr Hstep.
  destruct (decide (candidates cur ids = [])) as [He|Hne].
  - rewrite dismiss_batch_unfold in Hrun.
    rewrite He in Hrun. cbn [nonempty] in Hrun. simplify_eq.
    exists (fetched (candidates cur ids) (users s')).
    rewrite He in H0 |- *. split; [done|apply fetched_subseteq].
  - destruct (dismiss_batch_ind cur ids s I)
      as (s1 & [objs v1] & Hrun1 & HI & Hsub); [done|by apply Htr|done|].
    rewrite Hrun in Hrun1. simplify_eq. by exists objs.
Qed.

Lemma assign_batch_flag_frame self c cur ids s s' v :
  configured self c →
  Assign.batch self cur ids s = (s', inr v) →
  store_owners s' = store_owners s ∧ so_seq s' = so_seq s
  ∧ ∀ k, users s' !! k = users s !! k
         ∨ ∃ u, users s !! k = Some u
                ∧ getattr u (field c) = Some false
                ∧ users s' !! k = Some (setattr u (field c) true)
                ∧ k ∈ candidates cur ids.
Proof.
  intros Hcf Hrun.
  destruct (assign_batch_known self c cur ids s s' v
    (λ _ s1 _, store_owners s1 = store_owners s ∧ so_seq s1 = so_seq s
       ∧ ∀ k, users s1 !! k = users s !! k
              ∨ ∃ u, users s !! k = Some u
                     ∧ getattr u (field c) = Some false
                     ∧ users s1 !! k = Some (setattr u (field c) true)
                     ∧ k ∈ candidates cur ids) Hcf Hrun)
    as (objs & HI & _); [by auto|done| |done].
  intros seen x s1 [objs v1] s2 st2 (Hso & Hseq & HI) Hsub Hx Hstep.
  cbn [fst] in Hsub.
  destruct (assign_step_cases self c objs v1 x s1 Hcf Hsub)
    as [(_ & Hs)|[(ux & _ & _ & Hs)|(ux & _ & Hg & Hu & Hs)]];
    rewrite Hs in Hstep; simplify_eq; [done|done|].
  split; [done|]. split; [done|]. intros k.
  rewrite saved_users. destruct (decide (k = x)) as [->|Hkx].
  - rewrite lookup_insert_eq. right. destruct (HI x) as [He|(u & Hu0 & _ & Hu1 & _)].
    + exists ux. rewrite <- He. by auto.
    + rewrite Hu in Hu1. simplify_eq.
      rewrite (configured_set_get self c u true Hcf) in Hg. done.
  - rewrite lookup_insert_ne by done. apply HI.
Qed.

(** ** process_assignments never returns *)

Lemma invoked_builder_unbound :
  dict_get "_build_process_assignment_response_messages" Handler_builders = None.
Proof. reflexivity. Qed.

Lemma process_assignments_after_batch self cur ids s s' v :
  Assign.batch self cur ids s = (s', inr v) →
  process_assignments self cur ids s
  = (s', inl (Py.AttributeError "_build_process_assignment_response_messages")).
Proof.
  intros H. unfold process_assignments.
  rewrite (bind_value _ _ _ _ _ H). unfold self_call.
  by rewrite invoked_builder_unbound.
Qed.

Lemma elem_of_snoc {A} (l : list A) x y : y ∈ l ++ [x] ↔ y ∈ l ∨ y = x.
Proof. by rewrite elem_of_app, list_elem_of_singleton. Qed.

(** After the batch every candidate that has a row carries the flag. *)
Lemma assign_batch_flags self c cur ids s :
  configured self c →
  ∃ s' v, Assign.batch self cur ids s = (s', inr v) ∧
    ∀ k u, k ∈ candidates cur ids → users s !! k = Some u →
      ∃ u', users s' !! k = Some u' ∧ getattr u' (field c) = Some true.
Proof.
  intros Hcf. destruct (decide (candidates cur ids = [])) as [He|Hne].
  { destruct (assign_batch_total self c cur ids s Hcf) as (s' & v & H).
    exists s', v. split; [done|]. rewrite He. by intros k u ?%elem_of_nil. }
  destruct (assign_batch_ind self c cur ids s
    (λ seen s1 st1, ∀ k u, k ∈ candidates cur ids → users s !! k = Some u →
       ∃ u1, st1.1 !! k = Some u1 ∧ (k ∈ seen → getattr u1 (field c) = Some true)))
    as (s' & [objs v] & Hrun & HI & Hsub); [done|done| | |].
  - intros k u Hk Hu. exists u. simpl. rewrite fetched_lookup.
    rewrite decide_True by done. split; [done|]. by intros ?%elem_of_nil.
  - intros seen x s1 [objs v] s2 st2 HI Hsub Hx Hstep k u Hk Hu.
    destruct (HI k u Hk Hu) as (u1 & Hu1 & Hseen). cbn [fst snd] in *.
    destruct (assign_step_cases self c objs v x s1 Hcf Hsub)
      as [(Hn & Hs)|[(ux & Hxu & Hg & Hs)|(ux & Hxu & Hg & _ & Hs)]];
      rewrite Hs in Hstep; simplify_eq; simpl.
    + exists u1. split; [done|]. rewrite elem_of_snoc. intros [?| ->]; [by auto|congruence].
    + exists u1. split; [done|]. rewrite elem_of_snoc. intros [?| ->]; [by auto|congruence].
    + destruct (decide (k = x)) as [->|Hne'].
      * exists (setattr ux (field c) true). rewrite lookup_insert_eq.
        split; [done|]. intros _. by eapply configured_set_get.
      * exists u1. rewrite lookup_insert_ne by done. split; [done|].
        rewrite elem_of_snoc. intros [?| ->]; [by auto|done].
  - exists s', v. split; [done|]. intros k u Hk Hu.
    destruct (HI k u Hk Hu) as (u1 & Hu1 & Hseen). cbn [fst snd] in *.
    exists u1. split; [by eapply lookup_weaken|by auto].
Qed.

(** A handler comes out of [__init__] with a config of the table, or
    (for no role type, or the empty one) without the attribute. *)
Lemma Handler_init_cases role_type self :
  __init__ role_type = inr self →
  config self = None ∨ ∃ c, configured self c.
Proof.
  destruct role_type as [r|]; [|intros H; cbn in H; simplify_eq; by left].
  destruct (Py.truthy r) eqn:Ht.
  - intros H. right.
    destruct (Handler_init_configured r self H Ht) as (c & Hc & _). by exists c.
  - unfold __init__. rewrite Ht. intros H; simplify_eq. by left.
Qed.

(** Without [config] the loops stop at the first use of [self.config],
    with the tables as they were. *)
Lemma for_each_stops {A S} (body : S → A → M S) (e : Py.exn) l st s :
  (∀ st x, (∃ st', body st x s = (s, inr st')) ∨ body st x s = (s, inl e)) →
  (∃ st', for_each body l st s = (s, inr st'))
  ∨ for_each body l st s = (s, inl e).
Proof.
  intros Hbody. revert st. induction l as [|x l IH]; intros st; cbn [for_each].
  - left. by eexists.
  - destruct (Hbody st x) as [[st1 H]|H].
    + rewrite (bind_value _ _ _ _ _ H). apply IH.
    + rewrite (bind_error _ _ _ _ _ H). by right.
Qed.

Lemma assign_scan_unconfigured self cur ids v s :
  config self = None →
  (∃ v', for_each (Assign.scan self cur) ids v s = (s, inr v'))
  ∨ for_each (Assign.scan self cur) ids v s = (s, inl (Py.AttributeError "config")).
Proof.
  intros Hc. apply for_each_stops. intros v0 t.
  unfold Assign.scan, self_config. rewrite Hc.
  destruct (Py.int t) as [n|]; [destruct (n =? cur)|]; run;
    [by right|left; by eexists|left; by eexists].
Qed.

Lemma assign_steps_unconfigured self l st s :
  config self = None →
  (∃ st', for_each (Assign.step self) l st s = (s, inr st'))
  ∨ for_each (Assign.step self) l st s = (s, inl (Py.AttributeError "config")).
Proof.
  intros Hc. apply for_each_stops. intros [objs v] k.
  unfold Assign.step, self_config. rewrite Hc.
  destruct (objs !! k) as [u|]; run; [by right|left; by eexists].
Qed.

Lemma assign_batch_unconfigured self cur ids s :
  config self = None →
  ∃ s', (∃ v, Assign.batch self cur ids s = (s', inr v))
        ∨ Assign.batch self cur ids s = (s', inl (Py.AttributeError "config")).
Proof.
  intros Hc. unfold Assign.batch.
  destruct (assign_scan_unconfigured self cur ids Assign.init s Hc)
    as [[v Hscan]|Hscan].
  - rewrite (bind_value _ _ _ _ _ Hscan).
    destruct (nonempty (Assign.valid_ids v)); [|exists s; left; by eexists].
    unfold ORM.users_by_id_in. run.
    exists (add_trace (U_filter_id_in (Assign.valid_ids v)) s).
    destruct (assign_steps_unconfigured self (Assign.valid_ids v)
                (fetched (Assign.valid_ids v) (users s), v)
                (add_trace (U_filter_id_in (Assign.valid_ids v)) s) Hc)
      as [[st' Hsteps]|Hsteps]; unfold fetched in Hsteps; rewrite Hsteps.
    + left. by eexists.
    + by right.
  - rewrite (bind_error _ _ _ _ _ Hscan). exists s. by right.
Qed.

Lemma process_assignments_unconfigured self cur ids s :
  config self = None →
  ∃ s' name, process_assignments self cur ids s = (s', inl (Py.AttributeError name)).
Proof.
  intros Hc. unfold process_assignments.
  destruct (assign_batch_unconfigured self cur ids s Hc) as (s' & [[v H]|H]).
  - rewrite (bind_value _ _ _ _ _ H). unfold self_call.
    rewrite invoked_builder_unbound. by eexists _, _.
  - rewrite (bind_error _ _ _ _ _ H). by eexists _, _.
Qed.

(** C3.  [process_assignments] calls
    [self._build_process_assignment_response_messages], a name the class
    does not bind (it defines [_build_process_assignment_response__messages]).
    So for every handler that [__init__] returns and every batch the call
    ends in AttributeError and returns no result.  For a handler built for
    a role of the table the error is the one of the unbound name, raised in
    the state [s'] that the two loops leave: in it every id of the batch
    that is not the actor's and has a row carries the role flag. *)
Theorem process_assignments_attribute_error role_type self cur ids s :
  __init__ role_type = inr self →
  dict_get "_build_process_assignment_response_messages" Handler_builders = None
  ∧ is_Some (dict_get "_build_process_assignment_response__messages" Handler_builders)
  ∧ (∃ s' name,
       process_assignments self cur ids s = (s', inl (Py.AttributeError name)))
  ∧ ∀ c, configured self c →
      ∃ s' v,
        Assign.batch self cur ids s = (s', inr v)
        ∧ process_assignments self cur ids s
          = (s', inl (Py.AttributeError "_build_process_assignment_response_messages"))
        ∧ ∀ t k u, t ∈ ids → Py.int t = Some k → k ≠ cur → users s !! k = Some u →
            ∃ u', users s' !! k = Some u' ∧ getattr u' (field c) = Some true.
Proof.
  intros Hinit. split; [reflexivity|]. split; [by eexists|].
  assert (∀ c, configured self c →
    ∃ s' v,
      Assign.batch self cur ids s = (s', inr v)
      ∧ process_assignments self cur ids s
        = (s', inl (Py.AttributeError "_build_process_assignment_response_messages"))
      ∧ ∀ t k u, t ∈ ids → Py.int t = Some k → k ≠ cur → users s !! k = Some u →
          ∃ u', users s' !! k = Some u' ∧ getattr u' (field c) = Some true) as Hconf.
  { intros c Hcf.
    destruct (assign_batch_flags self c cur ids s Hcf) as (s' & v & Hrun & Hflags).
    exists s', v. split; [done|]. split.
    - by eapply process_assignments_after_batch.
    - intros t k u Ht Hk Hne Hu. apply (Hflags k u); [|done].
      by eapply candidates_elem. }
  split; [|done].
  destruct (Handler_init_cases role_type self Hinit) as [Hnone|[c Hcf]].
  - by apply process_assignments_unconfigured.
  - destruct (Hconf c Hcf) as (s' & v & _ & Hp & _). by eexists _, _.
Qed.

(** ** Assigning a role that the user already holds *)

(** C4.  A user of an assign batch whose role flag is already true: the
    batch leaves the row of the user as it was, records the message
    "User <name> is already a <role>." and the id among the invalid ids,
    and never appends the user name to the assigned users. *)
Theorem assign_already_has_role self c cur ids s t k u :
  configured self c → unique_usernames (users s) →
  t ∈ ids → Py.int t = Some k → k ≠ cur →
  users s !! k = Some u → getattr u (field c) = Some true →
  ∃ s' v, Assign.batch self cur ids s = (s', inr v)
    ∧ users s' !! k = Some u
    ∧ Assign.already_message u c ∈ Assign.error_messages v
    ∧ Py.str k ∈ Assign.invalid_ids v
    ∧ username u ∉ Assign.assigned_users v.
Proof.
  intros Hcf Huniq Ht Hint Hne Hu Hflag.
  assert (k ∈ candidates cur ids) as Hk by (by eapply candidates_elem).
  destruct (assign_batch_ind self c cur ids s
    (λ seen s1 st1,
       st1.1 !! k = Some u
       ∧ (k ∈ seen → Assign.already_message u c ∈ Assign.error_messages st1.2
                     ∧ Py.str k ∈ Assign.invalid_ids st1.2)
       ∧ (∀ name, name ∈ Assign.assigned_users st1.2 →
            ∃ j uj, j ≠ k ∧ users s !! j = Some uj ∧ username uj = name)
       ∧ (∀ j uj, st1.1 !! j = Some uj →
            ∃ u0, users s !! j = Some u0 ∧ username u0 = username uj)))
    as (s' & [objs v] & Hrun & (Ha & Hb & Hc & _) & Hsub); [done| | | |].
  - intros He. rewrite He in Hk. by apply elem_of_nil in Hk.
  - cbn [fst snd]. split_and!.
    + rewrite fetched_lookup. by rewrite decide_True.
    + by intros ?%elem_of_nil.
    + by intros name ?%elem_of_nil.
    + intros j uj Hj. exists uj. split; [|done].
      eapply lookup_weaken; [done|]. apply fetched_subseteq.
  - intros seen x s1 [objs v] s2 st2 (Ha & Hb & Hc & Hd) Hsub Hx Hstep.
    cbn [fst snd] in *.
    destruct (assign_step_cases self c objs v x s1 Hcf Hsub)
      as [(Hn & Hs)|[(ux & Hxu & Hg & Hs)|(ux & Hxu & Hg & _ & Hs)]];
      rewrite Hs in Hstep; simplify_eq; cbn [fst snd].
    + split_and!; [done| |done|done].
      rewrite elem_of_snoc. intros [?| ->]; [by auto|congruence].
    + split_and!; [done| |done|done].
      rewrite elem_of_snoc. simpl. rewrite !elem_of_app, !list_elem_of_singleton.
      intros [Hseen| ->].
      * destruct (Hb Hseen). by auto.
      * simplify_eq. by auto.
    + assert (x ≠ k) as Hxk by (intros ->; congruence).
      split_and!.
      * by rewrite lookup_insert_ne.
      * rewrite elem_of_snoc. simpl. intros [Hseen|?]; [by auto|done].
      * intros name. simpl. rewrite elem_of_app, list_elem_of_singleton.
        intros [Hname| ->]; [by auto|].
        destruct (Hd x ux Hxu) as (u0 & Hu0 & Hname). by exists x, u0.
      * intros j uj. destruct (decide (j = x)) as [->|Hjx].
        -- rewrite lookup_insert_eq. intros ?; simplify_eq.
           rewrite setattr_username. by auto.
        -- rewrite lookup_insert_ne by done. by auto.
  - cbn [fst snd] in *. exists s', v. split; [done|].
    split; [by eapply lookup_weaken|].
    destruct (Hb Hk) as [Hmsg Hinv]. split; [done|]. split; [done|].
    intros (j & uj & Hjk & Huj & Hname)%Hc.
    apply Hjk. by eapply Huniq.
Qed.

(** ** Batches that differ in one token *)

Lemma eq_snoc_closed : snoc_closed eq.
Proof. by intros l1 l2 x ->. Qed.

Lemma one_more_front_closed t : snoc_closed (one_more_front t).
Proof. by intros l1 l2 x ->. Qed.

Lemma one_more_closed t : snoc_closed (one_more t).
Proof.
  intros l1 l2 x (a & b & -> & ->). exists a, (b ++ [x]).
  by rewrite <- !app_assoc.
Qed.

Lemma same_run_bind {A S} (R : S → S → Prop) (m : M A) (k1 k2 : A → M S) s :
  (∀ a s', same_run R (k1 a s') (k2 a s')) →
  same_run R (bind m k1 s) (bind m k2 s).
Proof.
  intros H. unfold bind. destruct (m s) as [s' [e|a]]; [by split|]. apply H.
Qed.

Section AssignRel.
Context (Ra Rn Ri Re : list string → list string → Prop).
Context (Ha : snoc_closed Ra) (Hn : snoc_closed Rn)
        (Hi : snoc_closed Ri) (He : snoc_closed Re).

(** An iteration does not read the lists it appends to. *)
Lemma assign_step_rel self st1 st2 x s :
  (assign_rel Ra Rn Ri Re) st1 st2 →
  same_run (assign_rel Ra Rn Ri Re) (Assign.step self st1 x s) (Assign.step self st2 x s).
Proof.
  destruct st1 as [o1 v1], st2 as [o2 v2].
  intros (Ho & Hra & Hrn & Hri & Hre). cbn [fst snd] in *. subst o2.
  unfold Assign.step, self_config, ORM.user_save_field.
  destruct (o1 !! x) as [u|]; [|by repeat split; simpl; auto].
  destruct (config self) as [c|]; [|by split].
  run. destruct (getattr u (field c)) as [[|]|]; [| |by split].
  - repeat split; simpl; auto.
  - run. destruct (getattr (setattr u (field c) true) (field c)); [|by split].
    rewrite add_trace_users. destruct (users s !! x); [|by split].
    repeat split; simpl; auto.
Qed.

Lemma assign_batch_rel self c cur ids1 ids2 s :
  configured self c →
  candidates cur ids1 = candidates cur ids2 →
  Ra [] [] → Rn [] [] →
  Ri (unparsed ids1) (unparsed ids2) →
  Re (replicate (self_count cur ids1) (Assign.self_message c))
     (replicate (self_count cur ids2) (Assign.self_message c)) →
  ∃ s' v1 v2,
    Assign.batch self cur ids1 s = (s', inr v1)
    ∧ Assign.batch self cur ids2 s = (s', inr v2)
    ∧ Ra (Assign.assigned_users v1) (Assign.assigned_users v2)
    ∧ Rn (Assign.not_found_ids v1) (Assign.not_found_ids v2)
    ∧ Ri (Assign.invalid_ids v1) (Assign.invalid_ids v2)
    ∧ Re (Assign.error_messages v1) (Assign.error_messages v2).
Proof.
  intros Hcf Hcand Ha0 Hn0 Hi0 He0.
  destruct (assign_batch_total self c cur ids1 s Hcf) as (s1 & v1 & H1).
  destruct (assign_batch_total self c cur ids2 s Hcf) as (s2 & v2 & H2).
  pose proof H1 as H1'. pose proof H2 as H2'.
  rewrite (assign_batch_unfold self c) in H1', H2' by apply Hcf.
  rewrite <- Hcand in H2'.
  destruct (nonempty (candidates cur ids1)).
  - pose proof (for_each_rel (Assign.step self) (assign_rel Ra Rn Ri Re) (candidates cur ids1)
      (λ st st' x s0, assign_step_rel self st st' x s0)
      (fetched (candidates cur ids1) (users s), assign_scanned c cur ids1)
      (fetched (candidates cur ids1) (users s), assign_scanned c cur ids2)
      (add_trace (U_filter_id_in (candidates cur ids1)) s)) as Hrel.
    unfold bind, ret in H1', H2'.
    destruct (for_each _ _ (_, assign_scanned c cur ids1) _) as [s1' [e1|st1]];
      [done|].
    destruct (for_each _ _ (_, assign_scanned c cur ids2) _) as [s2' [e2|st2]];
      [done|].
    simplify_eq. destruct Hrel as [Hs (Ho & Hra & Hrn & Hri & Hre)].
    { by repeat split. }
    cbn [fst snd] in *. subst. by eexists _, _, _.
  - simplify_eq. by eexists _, _, _.
Qed.

Lemma dismiss_step_rel st1 st2 x s :
  (dismiss_rel Ra Rn Ri Re) st1 st2 →
  same_run (dismiss_rel Ra Rn Ri Re) (Dismiss.step st1 x s) (Dismiss.step st2 x s).
Proof.
  destruct st1 as [o1 v1], st2 as [o2 v2].
  intros (Ho & Hra & Hrn & Hri & Hre). cbn [fst snd] in *. subst o2.
  unfold Dismiss.step.
  destruct (o1 !! x) as [u|]; [|by repeat split; simpl; auto].
  destruct (get_role u) as [r|]; [|by repeat split; simpl; auto].
  apply same_run_bind. intros [] s1.
  case_bool_decide; [|by repeat split].
  apply same_run_bind. intros [] s2.
  repeat split; simpl; auto.
Qed.

Lemma dismiss_batch_rel cur ids1 ids2 s :
  candidates cur ids1 = candidates cur ids2 →
  Ra [] [] → Ri [] [] →
  Rn (unparsed ids1) (unparsed ids2) →
  Re (replicate (self_count cur ids1) Dismiss.self_message)
     (replicate (self_count cur ids2) Dismiss.self_message) →
  ∃ s' v1 v2,
    Dismiss.batch cur ids1 s = (s', inr v1)
    ∧ Dismiss.batch cur ids2 s = (s', inr v2)
    ∧ Ra (Dismiss.dismissed_users v1) (Dismiss.dismissed_users v2)
    ∧ Rn (Dismiss.not_found_ids v1) (Dismiss.not_found_ids v2)
    ∧ Ri (Dismiss.no_roles_ids v1) (Dismiss.no_roles_ids v2)
    ∧ Re (Dismiss.error_messages v1) (Dismiss.error_messages v2).
Proof.
  intros Hcand Ha0 Hi0 Hn0 He0.
  destruct (dismiss_batch_total cur ids1 s) as (s1 & v1 & H1).
  destruct (dismiss_batch_total cur ids2 s) as (s2 & v2 & H2).
  pose proof H1 as H1'. pose proof H2 as H2'.
  rewrite dismiss_batch_unfold in H1', H2'.
  rewrite <- Hcand in H2'.
  destruct (nonempty (candidates cur ids1)).
  - pose proof (for_each_rel Dismiss.step (dismiss_rel Ra Rn Ri Re) (candidates cur ids1)
      (λ st st' x s0, dismiss_step_rel st st' x s0)
      (fetched (candidates cur ids1) (users s), dismiss_scanned cur ids1)
      (fetched (candidates cur ids1) (users s), dismiss_scanned cur ids2)
      (add_trace (U_filter_id_in (candidates cur ids1)) s)) as Hrel.
    unfold bind, ret in H1', H2'.
    destruct (for_each _ _ (_, dismiss_scanned cur ids1) _) as [s1' [e1|st1]];
      [done|].
    destruct (for_each _ _ (_, dismiss_scanned cur ids2) _) as [s2' [e2|st2]];
      [done|].
    simplify_eq. destruct Hrel as [Hs (Ho & Hra & Hrn & Hri & Hre)].
    { by repeat split. }
    cbn [fst snd] in *. subst. by eexists _, _, _.
  - simplify_eq. by eexists _, _, _.
Qed.

End AssignRel.

(** ** The ids a batch does not name are left alone *)

Lemma assign_batch_frame self c cur ids s s' v j :
  configured self c → Assign.batch self cur ids s = (s', inr v) →
  j ∉ candidates cur ids → users s' !! j = users s !! j.
Proof.
  intros Hcf Hrun Hj. destruct (decide (candidates cur ids = [])) as [He|Hne].
  { rewrite (assign_batch_unfold self c) in Hrun by apply Hcf.
    rewrite He in Hrun. cbn [nonempty] in Hrun. by simplify_eq. }
  destruct (assign_batch_ind self c cur ids s
    (λ _ s1 _, users s1 !! j = users s !! j))
    as (s1 & st1 & Hrun1 & HI & _); [done|done|done| |].
  - intros seen x s1 [objs v1] s2 st2 HI Hsub Hx Hstep.
    destruct (assign_step_cases self c objs v1 x s1 Hcf Hsub)
      as [(_ & Hs)|[(ux & _ & _ & Hs)|(ux & _ & _ & _ & Hs)]];
      rewrite Hs in Hstep; simplify_eq; [done|done|].
    rewrite saved_users, lookup_insert_ne; [done|]. by intros ->.
  - rewrite Hrun in Hrun1. by simplify_eq.
Qed.

Lemma dismiss_batch_frame cur ids s s' v j :
  Dismiss.batch cur ids s = (s', inr v) →
  j ∉ candidates cur ids → users s' !! j = users s !! j.
Proof.
  intros Hrun Hj. destruct (decide (candidates cur ids = [])) as [He|Hne].
  { rewrite dismiss_batch_unfold in Hrun. rewrite He in Hrun. cbn [nonempty] in Hrun. by simplify_eq. }
  destruct (dismiss_batch_ind cur ids s
    (λ _ s1 _, users s1 !! j = users s !! j))
    as (s1 & st1 & Hrun1 & HI & _); [done|done| |].
  - intros seen x s1 [objs v1] s2 st2 HI Hsub Hx Hstep.
    destruct (dismiss_step_cases objs v1 x s1 Hsub)
      as [(_ & Hs)|[(ux & _ & _ & Hs)|(ux & r & _ & _ & _ & Hs)]];
      rewrite Hs in Hstep; simplify_eq; [done|done|].
    rewrite saved_users, lookup_insert_ne, entry_deleted_users; [done|].
    by intros ->.
  - rewrite Hrun in Hrun1. by simplify_eq.
Qed.

(** ** A token that names the actor *)

Lemma candidates_skip_self cur pre t post :
  Py.int t = Some cur →
  candidates cur (pre ++ t :: post) = candidates cur (pre ++ post).
Proof.
  intros H. rewrite !candidates_app. f_equal. unfold candidates.
  cbn [omap list_omap]. rewrite H. simpl. by rewrite Z.eqb_refl.
Qed.

Lemma unparsed_skip_parsed pre t post n :
  Py.int t = Some n → unparsed (pre ++ t :: post) = unparsed (pre ++ post).
Proof.
  intros H. rewrite !unparsed_app. f_equal. unfold unparsed.
  rewrite filter_cons_False; [done|]. by rewrite H.
Qed.

Lemma self_count_one_more cur pre t post :
  Py.int t = Some cur →
  self_count cur (pre ++ t :: post) = S (self_count cur (pre ++ post)).
Proof.
  intros H. rewrite !self_count_app. unfold self_count.
  rewrite filter_cons_True by done. simpl. lia.
Qed.

(** C5.  A token of the batch that [int] reads as the actor's own id, at
    any place [pre ++ t :: post] of the batch: assign and dismiss end in
    the state in which they end without the token (same rows, same
    queries), with the same lists and exactly one more error message, the
    self-reference message; the row of the actor is the one before the
    call. *)
Theorem self_reference_excluded self c cur pre t post s :
  configured self c → Py.int t = Some cur →
  (∃ s' v v',
     Assign.batch self cur (pre ++ t :: post) s = (s', inr v)
     ∧ Assign.batch self cur (pre ++ post) s = (s', inr v')
     ∧ Assign.error_messages v = Assign.self_message c :: Assign.error_messages v'
     ∧ Assign.assigned_users v = Assign.assigned_users v'
     ∧ Assign.not_found_ids v = Assign.not_found_ids v'
     ∧ Assign.invalid_ids v = Assign.invalid_ids v'
     ∧ users s' !! cur = users s !! cur)
  ∧ (∃ s' v v',
     Dismiss.batch cur (pre ++ t :: post) s = (s', inr v)
     ∧ Dismiss.batch cur (pre ++ post) s = (s', inr v')
     ∧ Dismiss.error_messages v = Dismiss.self_message :: Dismiss.error_messages v'
     ∧ Dismiss.dismissed_users v = Dismiss.dismissed_users v'
     ∧ Dismiss.not_found_ids v = Dismiss.not_found_ids v'
     ∧ Dismiss.no_roles_ids v = Dismiss.no_roles_ids v'
     ∧ users s' !! cur = users s !! cur).
Proof.
  intros Hcf Ht. split.
  - destruct (assign_batch_rel eq eq eq (one_more_front (Assign.self_message c))
                eq_snoc_closed eq_snoc_closed eq_snoc_closed
                (one_more_front_closed _) self c cur (pre ++ t :: post) (pre ++ post) s)
      as (s' & v & v' & H1 & H2 & Ha & Hn & Hi & He); try done.
    + by apply candidates_skip_self.
    + by eapply unparsed_skip_parsed.
    + by rewrite self_count_one_more.
    + exists s', v, v'. split_and!; try done.
      eapply assign_batch_frame; [done|done|]. apply candidates_not_self.
  - destruct (dismiss_batch_rel eq eq eq (one_more_front Dismiss.self_message)
                eq_snoc_closed eq_snoc_closed eq_snoc_closed cur (pre ++ t :: post) (pre ++ post) s)
      as (s' & v & v' & H1 & H2 & Ha & Hn & Hi & He); try done.
    + by apply candidates_skip_self.
    + by eapply unparsed_skip_parsed.
    + by rewrite self_count_one_more.
    + exists s', v, v'. split_and!; try done.
      eapply dismiss_batch_frame; [done|]. apply candidates_not_self.
Qed.

(** ** A token that is no integer *)

Lemma candidates_skip_unparsed cur pre t post :
  Py.int t = None →
  candidates cur (pre ++ t :: post) = candidates cur (pre ++ post).
Proof.
  intros H. rewrite !candidates_app. f_equal. unfold candidates.
  cbn [omap list_omap]. by rewrite H.
Qed.

Lemma unparsed_one_more pre t post :
  Py.int t = None → one_more t (unparsed (pre ++ t :: post)) (unparsed (pre ++ post)).
Proof.
  intros H. exists (unparsed pre), (unparsed post).
  rewrite !unparsed_app. split; [|done]. f_equal. unfold unparsed.
  by rewrite filter_cons_True.
Qed.

Lemma self_count_skip_unparsed cur pre t post :
  Py.int t = None →
  self_count cur (pre ++ t :: post) = self_count cur (pre ++ post).
Proof.
  intros H. rewrite !self_count_app. unfold self_count.
  rewrite filter_cons_False; [done|]. by rewrite H.
Qed.

Lemma one_more_elem t l1 l2 : one_more t l1 l2 → t ∈ l1.
Proof. intros (a & b & -> & _). set_solver. Qed.

Lemma entry_deleted_trace r k s : ∃ l, trace (entry_deleted r k s) = trace s ++ l.
Proof.
  unfold entry_deleted. destruct (String.eqb r UserRoles.STORE_OWNER).
  - destruct (existsb (ORM.owns k) (store_owners s)); simpl.
    + exists [SO_related k; SO_delete k]. by rewrite <- app_assoc.
    + by eexists.
  - exists []. by rewrite app_nil_r.
Qed.

(** An id of the batch without a row: the one query of the batch asks
    for it, and it ends among the not-found ids. *)
Lemma missing_id_looked_up self c cur ids s t k :
  configured self c →
  t ∈ ids → Py.int t = Some k → k ≠ cur → users s !! k = None →
  (∃ s' v l rest, Assign.batch self cur ids s = (s', inr v)
     ∧ trace s' = trace s ++ U_filter_id_in l :: rest ∧ k ∈ l
     ∧ users s' !! k = None ∧ Py.str k ∈ Assign.not_found_ids v)
  ∧ (∃ s' v l rest, Dismiss.batch cur ids s = (s', inr v)
     ∧ trace s' = trace s ++ U_filter_id_in l :: rest ∧ k ∈ l
     ∧ users s' !! k = None ∧ Py.str k ∈ Dismiss.not_found_ids v).
Proof.
  intros Hcf Ht Hint Hne Hu.
  assert (k ∈ candidates cur ids) as Hk by (by eapply candidates_elem).
  assert (candidates cur ids ≠ []) as Hcand.
  { intros He. rewrite He in Hk. by apply elem_of_nil in Hk. }
  split.
  - destruct (assign_batch_ind self c cur ids s
      (λ seen s1 st1, st1.1 !! k = None ∧ users s1 !! k = None
         ∧ (k ∈ seen → Py.str k ∈ Assign.not_found_ids st1.2)
         ∧ ∃ rest, trace s1
                   = trace s ++ U_filter_id_in (candidates cur ids) :: rest))
      as (s' & [objs v] & Hrun & (_ & Hnone & Hin & rest & Htr) & _);
      [done|done| | |].
    + cbn [fst snd]. rewrite fetched_lookup, decide_True by done.
      split_and!; [done|done|by intros ?%elem_of_nil|by exists []].
    + intros seen x s1 [objs v] s2 st2 (Ho & Hu1 & Hin & rest & Htr) Hsub Hx Hstep.
      cbn [fst snd] in *.
      destruct (assign_step_cases self c objs v x s1 Hcf Hsub)
        as [(_ & Hs)|[(ux & Hxu & _ & Hs)|(ux & Hxu & _ & _ & Hs)]];
        rewrite Hs in Hstep; simplify_eq; cbn [fst snd].
      * split_and!; [done|done| |by eauto]. rewrite elem_of_snoc. simpl.
        rewrite elem_of_app, list_elem_of_singleton.
        intros [?| ->]; by auto.
      * split_and!; [done|done| |by eauto]. rewrite elem_of_snoc.
        intros [?| ->]; [by auto|congruence].
      * assert (x ≠ k) by congruence.
        rewrite saved_users, !lookup_insert_ne by done.
        split_and!; [done|done| |].
        -- rewrite elem_of_snoc. intros [?| ->]; [by auto|done].
        -- exists (rest ++ [U_save x (Some [field c])]). simpl. rewrite Htr.
           by rewrite <- app_assoc.
    + exists s', v, (candidates cur ids), rest. cbn [fst snd] in *.
      split_and!; [done|done|done|done|by apply Hin].
  - destruct (dismiss_batch_ind cur ids s
      (λ seen s1 st1, st1.1 !! k = None ∧ users s1 !! k = None
         ∧ (k ∈ seen → Py.str k ∈ Dismiss.not_found_ids st1.2)
         ∧ ∃ rest, trace s1
                   = trace s ++ U_filter_id_in (candidates cur ids) :: rest))
      as (s' & [objs v] & Hrun & (_ & Hnone & Hin & rest & Htr) & _);
      [done| | |].
    + cbn [fst snd]. rewrite fetched_lookup, decide_True by done.
      split_and!; [done|done|by intros ?%elem_of_nil|by exists []].
    + intros seen x s1 [objs v] s2 st2 (Ho & Hu1 & Hin & rest & Htr) Hsub Hx Hstep.
      cbn [fst snd] in *.
      destruct (dismiss_step_cases objs v x s1 Hsub)
        as [(_ & Hs)|[(ux & Hxu & _ & Hs)|(ux & r & Hxu & _ & _ & Hs)]];
        rewrite Hs in Hstep; simplify_eq; cbn [fst snd].
      * split_and!; [done|done| |by eauto]. rewrite elem_of_snoc. simpl.
        rewrite elem_of_app, list_elem_of_singleton.
        intros [?| ->]; by auto.
      * split_and!; [done|done| |by eauto]. rewrite elem_of_snoc.
        intros [?| ->]; [by auto|congruence].
      * assert (x ≠ k) by congruence.
        rewrite saved_users, entry_deleted_users, !lookup_insert_ne by done.
        split_and!; [done|done| |].
        -- rewrite elem_of_snoc. intros [?| ->]; [by auto|done].
        -- destruct (entry_deleted_trace r x s1) as (l & Hl).
           exists (rest ++ l ++ [U_save x (Some [role_field r])]). simpl.
           rewrite Hl, Htr. by rewrite <- !app_assoc.
    + exists s', v, (candidates cur ids), rest. cbn [fst snd] in *.
      split_and!; [done|done|done|done|by apply Hin].
Qed.

(** C6, as the code has it.  A token that [int] refuses (ValueError), at
    any place of the batch: assign ends in the state in which it ends
    without the token (no query and no row on its account) and has the
    token among the invalid ids; dismiss likewise, with the token among
    the not-found ids ([Dismiss.Vars] has no list of invalid ids).  The
    other lists are those of the batch without the token.  A token that
    [int] reads as zero or as a negative number is an id as any other:
    the query of the batch asks for it, and with no row of that id
    [str] of it ends among the not-found ids, of assign and of dismiss;
    no row is made for it. *)
Theorem malformed_token self c cur pre t post s :
  configured self c →
  (Py.int t = None →
     (∃ s' v v',
        Assign.batch self cur (pre ++ t :: post) s = (s', inr v)
        ∧ Assign.batch self cur (pre ++ post) s = (s', inr v')
        ∧ t ∈ Assign.invalid_ids v
        ∧ one_more t (Assign.invalid_ids v) (Assign.invalid_ids v')
        ∧ Assign.assigned_users v = Assign.assigned_users v'
        ∧ Assign.not_found_ids v = Assign.not_found_ids v'
        ∧ Assign.error_messages v = Assign.error_messages v')
     ∧ (∃ s' v v',
        Dismiss.batch cur (pre ++ t :: post) s = (s', inr v)
        ∧ Dismiss.batch cur (pre ++ post) s = (s', inr v')
        ∧ t ∈ Dismiss.not_found_ids v
        ∧ one_more t (Dismiss.not_found_ids v) (Dismiss.not_found_ids v')
        ∧ Dismiss.dismissed_users v = Dismiss.dismissed_users v'
        ∧ Dismiss.no_roles_ids v = Dismiss.no_roles_ids v'
        ∧ Dismiss.error_messages v = Dismiss.error_messages v'))
  ∧ (∀ k, Py.int t = Some k → k ≤ 0 → k ≠ cur → users s !! k = None →
     (∃ s' v l rest,
        Assign.batch self cur (pre ++ t :: post) s = (s', inr v)
        ∧ trace s' = trace s ++ U_filter_id_in l :: rest ∧ k ∈ l
        ∧ users s' !! k = None ∧ Py.str k ∈ Assign.not_found_ids v)
     ∧ (∃ s' v l rest,
        Dismiss.batch cur (pre ++ t :: post) s = (s', inr v)
        ∧ trace s' = trace s ++ U_filter_id_in l :: rest ∧ k ∈ l
        ∧ users s' !! k = None ∧ Py.str k ∈ Dismiss.not_found_ids v)).
Proof.
  intros Hcf. split.
  - intros Ht. split.
    + destruct (assign_batch_rel eq eq (one_more t) eq
                  eq_snoc_closed eq_snoc_closed (one_more_closed t) eq_snoc_closed
                  self c cur (pre ++ t :: post) (pre ++ post) s)
        as (s' & v & v' & H1 & H2 & Ha & Hn & Hi & He); try done.
      * by apply candidates_skip_unparsed.
      * by apply unparsed_one_more.
      * by rewrite self_count_skip_unparsed.
      * exists s', v, v'. split_and!; try done. by eapply one_more_elem.
    + destruct (dismiss_batch_rel eq (one_more t) eq eq
                  eq_snoc_closed (one_more_closed t) eq_snoc_closed cur
                  (pre ++ t :: post) (pre ++ post) s)
        as (s' & v & v' & H1 & H2 & Ha & Hn & Hi & He); try done.
      * by apply candidates_skip_unparsed.
      * by apply unparsed_one_more.
      * by rewrite self_count_skip_unparsed.
      * exists s', v, v'. split_and!; try done. by eapply one_more_elem.
  - intros k Hk _ Hne Hu.
    apply (missing_id_looked_up self c cur (pre ++ t :: post) s t k);
      try done.
    apply elem_of_app. right. by left.
Qed.

(** ** Dismissing a store owner *)

Lemma existsb_filter_false {A} (f g : A → bool) l :
  existsb f l = false → existsb f (List.filter g l) = false.
Proof.
  induction l as [|x l IH]; simpl; [done|].
  intros [Hx Hl]%orb_false_elim. destruct (g x); simpl; [|by auto].
  rewrite Hx. by auto.
Qed.

Lemma existsb_filter_negb {A} (f : A → bool) l :
  existsb f (List.filter (λ r, negb (f r)) l) = false.
Proof.
  induction l as [|x l IH]; simpl; [done|].
  destruct (f x) eqn:E; simpl; [done|]. by rewrite E.
Qed.

Lemma entry_deleted_owner k s :
  existsb (ORM.owns k) (store_owners (entry_deleted UserRoles.STORE_OWNER k s)) = false.
Proof.
  unfold entry_deleted. rewrite String.eqb_refl.
  destruct (existsb (ORM.owns k) (store_owners s)) eqn:E; simpl; [|done].
  apply existsb_filter_negb.
Qed.

Lemma entry_deleted_keeps_none r k j s :
  existsb (ORM.owns j) (store_owners s) = false →
  existsb (ORM.owns j) (store_owners (entry_deleted r k s)) = false.
Proof.
  intros H. unfold entry_deleted. repeat case_match; simpl; try done.
  by apply existsb_filter_false.
Qed.

Lemma setattr_false_store_owner u f :
  is_store_owner u = false → is_store_owner (setattr u f false) = false.
Proof. unfold setattr. by repeat case_match. Qed.

Lemma dismiss_batch_store_owner cur ids s k u :
  k ∈ candidates cur ids → users s !! k = Some u → is_store_owner u = true →
  ∃ s' v, Dismiss.batch cur ids s = (s', inr v)
    ∧ existsb (ORM.owns k) (store_owners s') = false
    ∧ (∃ u', users s' !! k = Some u' ∧ is_store_owner u' = false)
    ∧ username u ∈ Dismiss.dismissed_users v.
Proof.
  intros Hk Hu Hflag.
  destruct (dismiss_batch_ind cur ids s
    (λ seen s1 st1, ∃ u1, st1.1 !! k = Some u1
       ∧ (k ∉ seen → u1 = u)
       ∧ (k ∈ seen → is_store_owner u1 = false
                     ∧ existsb (ORM.owns k) (store_owners s1) = false
                     ∧ username u ∈ Dismiss.dismissed_users st1.2)))
    as (s' & [objs v] & Hrun & (u1 & Hu1 & _ & Hdone) & Hsub).
  - intros He. rewrite He in Hk. by apply elem_of_nil in Hk.
  - exists u. cbn [fst snd]. rewrite fetched_lookup, decide_True by done.
    split; [done|]. split; [done|]. by intros ?%elem_of_nil.
  - intros seen x s1 [objs v] s2 st2 (u1 & Hu1 & Hfresh & Hdone) Hsub Hx Hstep.
    cbn [fst snd] in *.
    destruct (dismiss_step_cases objs v x s1 Hsub)
      as [(Hn & Hs)|[(ux & Hxu & Hr & Hs)|(ux & r & Hxu & Hr & _ & Hs)]];
      rewrite Hs in Hstep; simplify_eq; cbn [fst snd].
    + assert (x ≠ k) by congruence. exists u1. split; [done|].
      rewrite elem_of_snoc. split; [by intros Hns; apply Hfresh; intros ?; apply Hns; left|].
      intros [?| ->]; [by auto|done].
    + exists u1. split; [done|]. rewrite elem_of_snoc.
      split; [by intros Hns; apply Hfresh; intros ?; apply Hns; left|].
      intros [?| ->]; [by auto|]. simplify_eq.
      destruct (decide (x ∈ seen)) as [?|Hns]; [by auto|].
      rewrite (Hfresh Hns) in Hr. apply get_role_store_owner in Hflag. congruence.
    + destruct (decide (x = k)) as [->|Hxk].
      * simplify_eq. exists (setattr u1 (role_field r) false).
        rewrite lookup_insert_eq. split; [done|].
        rewrite elem_of_snoc. split; [by intros []; right|]. intros _.
        rewrite saved_store_owners.
        destruct (decide (k ∈ seen)) as [Hin|Hns].
        -- destruct (Hdone Hin) as (Hf & He & Hd). split_and!.
           ++ by apply setattr_false_store_owner.
           ++ by apply entry_deleted_keeps_none.
           ++ simpl. apply elem_of_app. by left.
        -- rewrite (Hfresh Hns) in *. apply get_role_store_owner in Hflag.
           rewrite Hflag in Hr. simplify_eq. split_and!.
           ++ done.
           ++ apply entry_deleted_owner.
           ++ simpl. apply elem_of_app. right. by left.
      * exists u1. rewrite lookup_insert_ne by done. split; [done|].
        rewrite elem_of_snoc. split; [by intros Hns; apply Hfresh; intros ?; apply Hns; left|].
        intros [Hin| ->]; [|done]. destruct (Hdone Hin) as (Hf & He & Hd).
        rewrite saved_store_owners. split_and!; [done| |simpl; apply elem_of_app; by left].
        by apply entry_deleted_keeps_none.
  - cbn [fst snd] in *. destruct (Hdone Hk) as (Hf & He & Hd).
    exists s', v. split_and!; try done.
    exists u1. split; [by eapply lookup_weaken|done].
Qed.

(** C7.  One iteration of the dismissal loop has three outcomes: the id
    has no row, or the user has no role (in both the tables stay as they
    are), or the role is cleared.  When the role is that of store owner,
    the iteration returns, no StoreOwner entry of the user is left and the
    row has the flag cleared.  So for a whole batch: a user of the batch
    who is a store owner ends with no entry, with the flag false, and
    among the dismissed users. *)
Theorem dismiss_store_owner_atomic :
  (∀ objs v k s, objs ⊆ users s →
     (objs !! k = None →
        Dismiss.step (objs, v) k s
        = (s, inr (objs, Dismiss.add_not_found (Py.str k) v)))
     ∧ (∀ u, objs !! k = Some u → get_role u = None →
        Dismiss.step (objs, v) k s
        = (s, inr (objs, Dismiss.add_no_roles (Py.str k) v)))
     ∧ (∀ u, objs !! k = Some u → get_role u = Some UserRoles.STORE_OWNER →
        ∃ s', Dismiss.step (objs, v) k s
              = (s', inr (<[k := setattr u "is_store_owner" false]> objs,
                          Dismiss.add_dismissed (username u) v))
          ∧ existsb (ORM.owns k) (store_owners s') = false
          ∧ users s' !! k = Some (setattr u "is_store_owner" false)))
  ∧ (∀ cur ids s t k u,
       t ∈ ids → Py.int t = Some k → k ≠ cur →
       users s !! k = Some u → get_role u = Some UserRoles.STORE_OWNER →
       ∃ s' v, Dismiss.batch cur ids s = (s', inr v)
         ∧ existsb (ORM.owns k) (store_owners s') = false
         ∧ (∃ u', users s' !! k = Some u' ∧ is_store_owner u' = false)
         ∧ username u ∈ Dismiss.dismissed_users v).
Proof.
  split.
  - intros objs v k s Hsub.
    destruct (dismiss_step_cases objs v k s Hsub)
      as [(Hn & Hs)|[(ux & Hxu & Hr & Hs)|(ux & r & Hxu & Hr & _ & Hs)]];
      split_and!; try (intros; congruence).
    intros u Hu Hru. simplify_eq. eexists. split; [exact Hs|].
    rewrite saved_store_owners, saved_users, lookup_insert_eq.
    split; [apply entry_deleted_owner|done].
  - intros cur ids s t k u Ht Hint Hne Hu Hr.
    apply dismiss_batch_store_owner; [|done|by apply get_role_store_owner].
    by eapply candidates_elem.
Qed.

(** ** What an assign endpoint does with a batch *)

Lemma init_role_key r :
  r ∈ role_keys →
  ∃ c, __init__ (Some r) = inr {| role_type := Some r; config := Some c |}
       ∧ configured {| role_type := Some r; config := Some c |} c
       ∧ field c = "is_" +:+ r.
Proof.
  unfold role_keys. intros Hr. set_unfold in Hr.
  destruct_or! Hr; subst; (eexists; split; [reflexivity|]); (split; [split|]);
    try reflexivity; unfold role_configs; cbn.
  - apply list_elem_of_here.
  - do 1 apply list_elem_of_further. apply list_elem_of_here.
  - do 2 apply list_elem_of_further. apply list_elem_of_here.
  - do 5 apply list_elem_of_further. apply list_elem_of_here.
  - do 3 apply list_elem_of_further. apply list_elem_of_here.
  - do 4 apply list_elem_of_further. apply list_elem_of_here.
Qed.

Lemma process_assignments_run self c cur ids s :
  configured self c →
  ∃ s' v, Assign.batch self cur ids s = (s', inr v)
    ∧ process_assignments self cur ids s
      = (s', inl (Py.AttributeError "_build_process_assignment_response_messages")).
Proof.
  intros Hcf. destruct (assign_batch_total self c cur ids s Hcf) as (s' & v & H).
  exists s', v. split; [done|]. by eapply process_assignments_after_batch.
Qed.

Lemma assign_role_raises r request s :
  r ∈ role_keys → getlist "user_ids" (data request) ≠ [] →
  ∃ c s' v,
    configured {| role_type := Some r; config := Some c |} c
    ∧ field c = "is_" +:+ r
    ∧ Assign.batch {| role_type := Some r; config := Some c |}
        (user_id request) (getlist "user_ids" (data request)) s = (s', inr v)
    ∧ assign_role r request s
      = (s', inl (Py.AttributeError "_build_process_assignment_response_messages")).
Proof.
  intros Hr Hne. destruct (init_role_key r Hr) as (c & Hinit & Hcf & Hf).
  destruct (process_assignments_run _ c (user_id request)
              (getlist "user_ids" (data request)) s Hcf) as (s' & v & Hb & Hp).
  exists c, s', v. split; [done|]. split; [done|]. split; [done|].
  unfold assign_role. rewrite nonempty_true by done. cbn [negb].
  rewrite Hinit. unfold lift. unfold bind at 1. unfold bind at 1. by rewrite Hp.
Qed.

(** What an assign endpoint does with a batch that is not empty: the
    users of the batch get the flag, and the call ends in the
    AttributeError of the unbound builder name. *)
Lemma assign_role_writes_flags r request s :
  r ∈ role_keys → getlist "user_ids" (data request) ≠ [] →
  ∃ s', assign_role r request s
        = (s', inl (Py.AttributeError "_build_process_assignment_response_messages"))
      ∧ store_owners s' = store_owners s
      ∧ ∀ t k u, t ∈ getlist "user_ids" (data request) → Py.int t = Some k →
          k ≠ user_id request → users s !! k = Some u →
          ∃ u', users s' !! k = Some u' ∧ getattr u' ("is_" +:+ r) = Some true.
Proof.
  intros Hr Hne.
  destruct (assign_role_raises r request s Hr Hne)
    as (c & s' & v & Hcf & Hf & Hb & Hp).
  exists s'. split; [done|].
  destruct (assign_batch_flag_frame _ c _ _ _ _ _ Hcf Hb) as (Hso & _).
  split; [done|]. intros t k u Ht Hk Hne' Hu.
  destruct (assign_batch_flags _ c (user_id request)
              (getlist "user_ids" (data request)) s Hcf)
    as (s1 & v1 & Hb1 & Hflags).
  rewrite Hb in Hb1. simplify_eq. rewrite <- Hf.
  apply (Hflags k u); [|done]. by eapply candidates_elem.
Qed.

(** ** The first store owner *)

(** The state and the answer of the first-owner case, for the actor 1. *)
Lemma assign_store_owner_without_entry request s :
  store_owners s = [] →
  assign_store_owner request s =
    if user_id request =? 1 then
      ({| users := <[1 := setattr (user request) "is_store_owner" true]> (users s);
          store_owners := [{| so_id := so_seq s + 1; so_user := 1 |}];
          so_seq := so_seq s + 1;
          trace := trace s ++ [SO_exists; SO_create 1; U_save 1 None] |},
       inr {| body := message_body "You have been assigned as the first store owner.";
              status := HTTP_200_OK |})
    else
      (add_trace SO_exists s,
       inr {| body := error_body
                "Only the first registered user (ID=1) can become the initial store owner.";
              status := HTTP_403_FORBIDDEN |}).
Proof.
  intros E. unfold assign_store_owner, ORM.store_owner_exists,
    ORM.store_owner_create, ORM.user_save.
  run. rewrite E. simpl. destruct (Z.eqb_spec (user_id request) 1) as [->|Hne].
  - simpl. rewrite E. simpl. unfold set_users, set_store_owners, add_trace.
    simpl. rewrite E. simpl. by rewrite <- !app_assoc.
  - done.
Qed.

Lemma assign_store_owner_with_entry request s :
  store_owners s ≠ [] →
  assign_store_owner request s
  = assign_store_owner_batch request (add_trace SO_exists s).
Proof.
  intros E. unfold assign_store_owner, ORM.store_owner_exists. run.
  by destruct (store_owners s).
Qed.

(** The first-owner case for the actor 1, by what it leaves behind. *)
Lemma first_owner_registered request s :
  store_owners s = [] → user_id request = 1 →
  ∃ s', assign_store_owner request s
        = (s', inr {| body := message_body
                               "You have been assigned as the first store owner.";
                      status := HTTP_200_OK |})
    ∧ so_user <$> store_owners s' = [1]
    ∧ (∃ u', users s' !! 1 = Some u' ∧ is_store_owner u' = true
             ∧ username u' = username (user request))
    ∧ (∀ k, k ≠ 1 → users s' !! k = users s !! k)
    ∧ trace s' = trace s ++ [SO_exists; SO_create 1; U_save 1 None].
Proof.
  intros E H1. rewrite assign_store_owner_without_entry by done.
  rewrite H1. change (1 =? 1) with true. cbn iota.
  eexists. split; [reflexivity|]. cbn [users store_owners trace fmap list_fmap so_user].
  split_and!; [done| |by intros k Hk; rewrite lookup_insert_ne|done].
  eexists. split; [by rewrite lookup_insert_eq|].
  split; [|apply setattr_username].
  unfold setattr. by rewrite String.eqb_refl.
Qed.

(** The first-owner case for another actor. *)
Lemma first_owner_refused request s :
  store_owners s = [] → user_id request ≠ 1 →
  assign_store_owner request s
  = (add_trace SO_exists s,
     inr {| body := error_body
              "Only the first registered user (ID=1) can become the initial store owner.";
            status := HTTP_403_FORBIDDEN |}).
Proof.
  intros E H1. rewrite assign_store_owner_without_entry by done.
  by destruct (Z.eqb_spec (user_id request) 1).
Qed.

(** With an entry, a batch that is not empty goes the way of the other
    assign endpoints, whoever the actor is. *)
Lemma assign_store_owner_batch_raises request s :
  getlist "user_ids" (data request) ≠ [] → store_owners s ≠ [] →
  ∃ s', assign_store_owner request s
        = (s', inl (Py.AttributeError "_build_process_assignment_response_messages"))
      ∧ store_owners s' = store_owners s
      ∧ ∀ t k u, t ∈ getlist "user_ids" (data request) → Py.int t = Some k →
          k ≠ user_id request → users s !! k = Some u →
          ∃ u', users s' !! k = Some u' ∧ is_store_owner u' = true.
Proof.
  intros Hne Hso. rewrite assign_store_owner_with_entry by done.
  assert ("store_owner" ∈ role_keys) as Hr by by_decide.
  destruct (assign_role_writes_flags "store_owner" request
              (add_trace SO_exists s) Hr Hne) as (s' & Hp & Hsame & Hflags).
  exists s'. split_and!; [|done|].
  - unfold assign_store_owner_batch. unfold assign_role in Hp.
    rewrite nonempty_true in Hp |- * by done. cbn [negb] in Hp |- *.
    destruct (init_role_key "store_owner" Hr) as (c' & Hinit & _).
    rewrite Hinit in Hp |- *. unfold lift in Hp |- *.
    unfold bind at 1 in Hp. unfold bind at 1 in Hp. unfold bind at 1.
    unfold bind at 1.
    destruct (process_assignments _ _ _ _) as [s1 [e|res]]; [done|].
    by destruct (_ && _).
  - intros t k u Ht Hk Hne' Hu.
    destruct (Hflags t k u Ht Hk Hne' Hu) as (u' & Hu' & Hf).
    exists u'. split; [done|]. vm_compute in Hf. injection Hf as Hf. exact Hf.
Qed.

(** C1.  [assign_store_owner] first asks whether any StoreOwner entry
    exists.  With none and the actor 1: the answer is 200, the table has
    one entry, the one of the actor, the actor's row carries
    [is_store_owner], no other row changes, and the ORM calls are the
    three of the first-owner case (the batch is not looked at, whatever
    the request carries).  With none and another actor: 403, and both
    tables stay as they are.  With an entry the actor 1 is treated as
    any other actor, by the batch path: an empty batch is answered with
    400; for a batch that is not empty the users of the batch get
    [is_store_owner] and the call ends as the other assign endpoints do,
    in the AttributeError of the unbound builder name. *)
Theorem assign_store_owner_bootstrap request s :
  (store_owners s = [] → user_id request = 1 →
     ∃ s', assign_store_owner request s
           = (s', inr {| body := message_body
                                  "You have been assigned as the first store owner.";
                         status := HTTP_200_OK |})
       ∧ so_user <$> store_owners s' = [1]
       ∧ (∃ u', users s' !! 1 = Some u' ∧ is_store_owner u' = true
                ∧ username u' = username (user request))
       ∧ (∀ k, k ≠ 1 → users s' !! k = users s !! k)
       ∧ trace s' = trace s ++ [SO_exists; SO_create 1; U_save 1 None])
  ∧ (store_owners s = [] → user_id request ≠ 1 →
     ∃ s', assign_store_owner request s
           = (s', inr {| body := error_body
                            "Only the first registered user (ID=1) can become the initial store owner.";
                         status := HTTP_403_FORBIDDEN |})
       ∧ users s' = users s ∧ store_owners s' = [] ∧ so_seq s' = so_seq s
       ∧ trace s' = trace s ++ [SO_exists])
  ∧ (store_owners s ≠ [] → getlist "user_ids" (data request) = [] →
     ∃ s', assign_store_owner request s
           = (s', inr {| body := error_body "No user IDs provided.";
                         status := HTTP_400_BAD_REQUEST |})
       ∧ users s' = users s ∧ store_owners s' = store_owners s)
  ∧ (store_owners s ≠ [] → getlist "user_ids" (data request) ≠ [] →
     ∃ s', assign_store_owner request s
           = (s', inl (Py.AttributeError "_build_process_assignment_response_messages"))
       ∧ store_owners s' = store_owners s
       ∧ ∀ t k u, t ∈ getlist "user_ids" (data request) → Py.int t = Some k →
           k ≠ user_id request → users s !! k = Some u →
           ∃ u', users s' !! k = Some u' ∧ is_store_owner u' = true).
Proof.
  split_and!.
  - intros Hnone H1. by apply first_owner_registered.
  - intros Hnone H1. rewrite first_owner_refused by done.
    eexists. split; [reflexivity|]. by split_and!.
  - intros Hso He. rewrite assign_store_owner_with_entry by done.
    unfold assign_store_owner_batch. rewrite He. by eexists.
  - intros Hso Hne. by apply assign_store_owner_batch_raises.
Qed.

(** ** Empty batches *)

(** C8, as the code has it.  The five assign endpoints other than
    [assign_store_owner], and [dismiss_role], answer an empty [user_ids]
    with 400 before any query.  [assign_store_owner] asks the StoreOwner
    table first; when an entry exists it then answers 400, that query being
    the only access; when none exists it does not look at the batch: the
    actor with id 1 is answered with 200 and is made the first store
    owner (the entry of the actor is created and the actor's row is saved
    with [is_store_owner]), any other actor is answered with 403 and no
    table changes. *)
Theorem empty_batch_rejected request s :
  getlist "user_ids" (data request) = [] →
  (∀ endpoint,
     endpoint ∈ [assign_store_manager; assign_inventory_manager;
                 assign_sales_associate; assign_customer_service;
                 assign_cashier] →
     endpoint request s
     = (s, inr {| body := error_body "No user IDs provided.";
                  status := HTTP_400_BAD_REQUEST |}))
  ∧ dismiss_role request s
    = (s, inr {| body := error_body "User IDs must be provided.";
                 status := HTTP_400_BAD_REQUEST |})
  ∧ (store_owners s ≠ [] →
     assign_store_owner request s
     = (add_trace SO_exists s,
        inr {| body := error_body "No user IDs provided.";
               status := HTTP_400_BAD_REQUEST |}))
  ∧ (store_owners s = [] → user_id request = 1 →
     ∃ s', assign_store_owner request s
           = (s', inr {| body := message_body
                                  "You have been assigned as the first store owner.";
                         status := HTTP_200_OK |})
       ∧ so_user <$> store_owners s' = [1]
       ∧ (∃ u', users s' !! 1 = Some u' ∧ is_store_owner u' = true
                ∧ username u' = username (user request))
       ∧ (∀ k, k ≠ 1 → users s' !! k = users s !! k)
       ∧ trace s' = trace s ++ [SO_exists; SO_create 1; U_save 1 None])
  ∧ (store_owners s = [] → user_id request ≠ 1 →
     assign_store_owner request s
     = (add_trace SO_exists s,
        inr {| body := error_body
                 "Only the first registered user (ID=1) can become the initial store owner.";
               status := HTTP_403_FORBIDDEN |})).
Proof.
  intros He. split_and!.
  - intros endpoint Hin. set_unfold in Hin.
    destruct_or! Hin; subst; unfold assign_store_manager, assign_inventory_manager,
      assign_sales_associate, assign_customer_service, assign_cashier, assign_role;
      by rewrite He.
  - unfold dismiss_role. by rewrite He.
  - intros Hne. rewrite assign_store_owner_with_entry by done.
    unfold assign_store_owner_batch. by rewrite He.
  - intros Hnone H1. by apply first_owner_registered.
  - intros Hnone H1. by apply first_owner_refused.
Qed.

(** ** dismiss_role *)

(** C2.  For a batch that is not empty, [dismiss_role] names the handler
    class bare; the name is bound in no scope of the method, and the call
    ends in NameError before any token is looked at. *)
Theorem dismiss_role_name_error request s :
  getlist "user_ids" (data request) ≠ [] →
  dismiss_role request s
  = (s, inl (Py.NameError "RoleAssignmentAndDismissalHandler")).
Proof.
  intros Hne. unfold dismiss_role.
  destruct (getlist "user_ids" (data request)); [done|]. reflexivity.
Qed.

(** Were the handler reached as the assign endpoints reach it, it would
    be built without a role type and so without [config]; the messages
    for dismissed users and for users without a role read
    [self.config]. *)
Lemma process_dismissals_without_config self cur ids s s' v :
  config self = None →
  Dismiss.batch cur ids s = (s', inr v) →
  Dismiss.dismissed_users v ≠ [] ∨ Dismiss.no_roles_ids v ≠ [] →
  process_dismissals self cur ids s = (s', inl (Py.AttributeError "config")).
Proof.
  intros Hc Hrun Hne. unfold process_dismissals.
  rewrite (bind_value _ _ _ _ _ Hrun). unfold self_call.
  change (dict_get "_build_process_dismissal_response_messages" Handler_builders)
    with (Some _build_process_dismissal_response_messages).
  unfold _build_process_dismissal_response_messages, optional_item, self_config.
  rewrite Hc. destruct (Dismiss.dismissed_users v) as [|d l].
  - destruct Hne as [|Hne]; [done|].
    destruct (Dismiss.no_roles_ids v) as [|n l']; [done|].
    run. destruct (Dismiss.not_found_ids v); simpl; by destruct (plural _).
  - run. by destruct (plural _).
Qed.

(** ** The staff directory *)

Lemma filter_elem_of {A} (f : A → bool) l x :
  x ∈ List.filter f l ↔ x ∈ l ∧ f x = true.
Proof. rewrite !list_elem_of_In. apply filter_In. Qed.

Lemma filter_NoDup_fst {A B} (f : A * B → bool) (l : list (A * B)) :
  NoDup l.*1 → NoDup (List.filter f l).*1.
Proof.
  induction l as [|x l IH]; simpl; [done|].
  intros [Hx Hl]%NoDup_cons. destruct (f x); simpl; [|by auto].
  apply NoDup_cons. split; [|by auto].
  intros (y & Hy1 & Hy2)%list_elem_of_fmap. apply Hx.
  apply list_elem_of_fmap. exists y. split; [done|].
  by apply filter_elem_of in Hy2 as [? _].
Qed.

Lemma staff_base m :
  exactly_the_users has_any_role m
    (List.filter (λ kv : Z * CustomUser, has_any_role kv.2) (map_to_list m)).
Proof.
  split.
  - apply filter_NoDup_fst, NoDup_fst_map_to_list.
  - intros k u. rewrite filter_elem_of, elem_of_map_to_list. done.
Qed.

Lemma staff_narrow (f : CustomUser → bool) m :
  (∀ u, f u = true → has_any_role u = true) →
  exactly_the_users f m
    (List.filter (λ kv : Z * CustomUser, f kv.2)
       (List.filter (λ kv : Z * CustomUser, has_any_role kv.2) (map_to_list m))).
Proof.
  intros Hf. split.
  - apply filter_NoDup_fst, filter_NoDup_fst, NoDup_fst_map_to_list.
  - intros k u. rewrite !filter_elem_of, elem_of_map_to_list. simpl.
    split; [by intros [[? _] ?]|]. intros [? ?]. by auto.
Qed.

Lemma unknown_role_type r m :
  r ≠ "" → r ∉ role_keys →
  ∃ b, staff_members_query (Some r) m
       = inl {| body := b; status := HTTP_400_BAD_REQUEST |}.
Proof.
  intros Hne Hr. unfold staff_members_query, Py.truthy.
  destruct (String.eqb_spec r "") as [|_]; [done|]. simpl.
  unfold role_keys in Hr.
  repeat match goal with
         | |- context [String.eqb r ?k] =>
             destruct (String.eqb_spec r k) as [->|_];
             [exfalso; apply Hr; set_unfold; tauto|]
         end.
  by eexists.
Qed.

(** C9, as the code has it.  The rows that [get_staff_members] pages
    through: for the role type "cashier" the users with [is_cashier],
    each once; for no role type the users with one of the six flags, each
    once, however many flags a user has.  A role type that is neither
    empty nor one of the six keys is answered with 400, with no query; an
    empty role type is taken as none. *)
Theorem staff_members_query_rows m :
  (∃ l, staff_members_query (Some "cashier") m = inr l
        ∧ exactly_the_users is_cashier m l)
  ∧ (∃ l, staff_members_query None m = inr l
          ∧ exactly_the_users has_any_role m l)
  ∧ (∀ r, r ≠ "" → r ∉ role_keys →
       ∃ b, staff_members_query (Some r) m
            = inl {| body := b; status := HTTP_400_BAD_REQUEST |})
  ∧ (∀ request s r,
       qget "role_type" (query_params request) = Some r →
       r ≠ "" → r ∉ role_keys →
       ∃ b, get_staff_members request s
            = (s, inr {| body := b; status := HTTP_400_BAD_REQUEST |}))
  ∧ staff_members_query (Some "") m = staff_members_query None m.
Proof.
  split_and!.
  - eexists. split; [reflexivity|]. apply staff_narrow.
    intros u Hu. unfold has_any_role. rewrite Hu. by rewrite !orb_true_r.
  - eexists. split; [reflexivity|]. apply staff_base.
  - intros r. apply unknown_role_type.
  - intros request s r Hq Hne Hr. unfold get_staff_members. rewrite Hq.
    destruct (unknown_role_type r (users s) Hne Hr) as (b & Hb).
    exists b. unfold bind, gets. by rewrite Hb.
  - reflexivity.
Qed.

(** ** Pagination *)

Lemma get_page_size_bounds q : 1 ≤ get_page_size q ≤ 100.
Proof.
  unfold get_page_size, _positive_int, page_size, max_page_size.
  destruct (qget page_size_query_param q) as [sz|]; [|lia].
  destruct (Py.int sz) as [n|]; simpl; [|lia].
  destruct (Z.leb_spec n 0); simpl; lia.
Qed.

Lemma page_rows_length {A} (rows : list A) n per_page :
  0 ≤ per_page → Z.of_nat (length (page_rows rows n per_page)) ≤ per_page.
Proof.
  intros Hp. unfold page_rows. rewrite length_take. lia.
Qed.

Lemma int_of_page_string pg n :
  Py.int pg = Some n → Py.truthy pg = true ∧ String.eqb pg last_page_string = false.
Proof.
  intros H. split.
  - unfold Py.truthy. destruct (String.eqb_spec pg ""); [by subst|done].
  - destruct (String.eqb_spec pg last_page_string); [by subst|done].
Qed.

(** C10, as the code has it.  Without a [page_size] parameter the page
    size is 10; a [page_size] that reads as an integer [n] of at least 1
    gives the page size [min n 100]; a page has at most page-size rows.
    Without a [page] parameter the first page is given, even when there
    are no rows.  A [page] beyond the last page is refused with NotFound
    ("Invalid page."): no page is returned. *)
Theorem staff_pagination {A} (rows : list A) q :
  (qget "page_size" q = None → get_page_size q = 10)
  ∧ (∀ sz n, qget "page_size" q = Some sz → Py.int sz = Some n → 1 ≤ n →
       get_page_size q = Z.min n 100)
  ∧ (∀ p, paginate_queryset rows q = inr p →
       object_list p = page_rows rows (number p) (get_page_size q)
       ∧ Z.of_nat (length (object_list p)) ≤ get_page_size q)
  ∧ (qget "page" q = None →
       paginate_queryset rows q
       = inr {| count := Z.of_nat (length rows); number := 1;
                pages := num_pages (Z.of_nat (length rows)) (get_page_size q);
                object_list := page_rows rows 1 (get_page_size q) |})
  ∧ (∀ pg n, qget "page" q = Some pg → Py.int pg = Some n →
       num_pages (Z.of_nat (length rows)) (get_page_size q) < n →
       paginate_queryset rows q = inl (Py.NotFound "Invalid page.")).
Proof.
  pose proof (get_page_size_bounds q) as Hb. split_and!.
  - intros H. unfold get_page_size. change page_size_query_param with "page_size".
    by rewrite H.
  - intros sz n H Hn Hle. unfold get_page_size, _positive_int.
    change page_size_query_param with "page_size". rewrite H, Hn. simpl.
    destruct (Z.leb_spec n 0); [lia|done].
  - intros p. unfold paginate_queryset.
    destruct (page_number q _ _) as [n|]; [|done].
    intros ?; simplify_eq. simpl. split; [done|].
    apply page_rows_length. lia.
  - intros H. unfold paginate_queryset, page_number.
    change page_query_param with "page". rewrite H.
    assert (1 ≤ num_pages (Z.of_nat (length rows)) (get_page_size q)) as Hp.
    { unfold num_pages. apply Z.div_le_lower_bound; lia. }
    destruct (Z.ltb_spec 1 1); [lia|].
    destruct (Z.ltb_spec (num_pages (Z.of_nat (length rows)) (get_page_size q)) 1);
      [lia|done].
  - intros pg n H Hn Hlt. unfold paginate_queryset, page_number.
    change page_query_param with "page". rewrite H.
    destruct (int_of_page_string pg n Hn) as [-> ->]. rewrite Hn.
    destruct (Z.ltb_spec n 1); [done|].
    destruct (Z.ltb_spec (num_pages (Z.of_nat (length rows)) (get_page_size q)) n);
      [done|lia].
Qed.

(** ** Concrete runs *)

Lemma sample_handler_init :
  __init__ (Some "cashier") = inr Sample.cashier_handler.
Proof. reflexivity. Defined.

Lemma sample_configured : configured Sample.cashier_handler Sample.cashier_config.
Proof.
  split; [reflexivity|]. unfold role_configs. cbn.
  do 4 apply list_elem_of_further. apply list_elem_of_here.
Defined.

Lemma sample_unique_usernames : unique_usernames (users Sample.shop).
Proof.
  intros k1 k2 u1 u2. unfold Sample.shop. cbn [users].
  rewrite !lookup_insert_Some, !lookup_singleton_Some.
  intros H1 H2 Hn.
  repeat (destruct_or! || destruct_and!); subst; try done;
    by vm_compute in Hn.
Defined.

Example assign_cashier_run :
  assign_cashier (Sample.post ["2"; "3"; "abc"; "1"]) Sample.shop
  = ({| users := <[2 := setattr Sample.bob "is_cashier" true]> (users Sample.shop);
        store_owners := store_owners Sample.shop; so_seq := 1;
        trace := [U_filter_id_in [2; 3]; U_save 2 (Some ["is_cashier"])] |},
     inl (Py.AttributeError "_build_process_assignment_response_messages")).
Proof. vm_compute. reflexivity. Qed.

Example assign_batch_run :
  Assign.batch Sample.cashier_handler 1 ["2"; "3"; "abc"; "1"; "2"; "99"] Sample.shop
  = ({| users := <[2 := setattr Sample.bob "is_cashier" true]> (users Sample.shop);
        store_owners := store_owners Sample.shop; so_seq := 1;
        trace := [U_filter_id_in [2; 3; 2; 99]; U_save 2 (Some ["is_cashier"])] |},
     inr {| Assign.assigned_users := ["bob"];
            Assign.not_found_ids := ["99"];
            Assign.invalid_ids := ["abc"; "3"; "2"];
            Assign.error_messages :=
              ["Cannot assign cashier role to yourself.";
               "User eve is already a cashier."; "User bob is already a cashier."];
            Assign.valid_ids := [2; 3; 2; 99] |}).
Proof. vm_compute. reflexivity. Qed.

(** Tokens beyond the ASCII digits: the Arabic-Indic two names user 2,
    who gets the flag; a three behind the separator 28 is no integer for
    [int] and is filed as invalid, and user 3 is not asked for. *)
Example assign_batch_unicode_run :
  Assign.batch Sample.cashier_handler 1 ["٢"; String "028" "3"] Sample.shop
  = ({| users := <[2 := setattr Sample.bob "is_cashier" true]> (users Sample.shop);
        store_owners := store_owners Sample.shop; so_seq := 1;
        trace := [U_filter_id_in [2]; U_save 2 (Some ["is_cashier"])] |},
     inr {| Assign.assigned_users := ["bob"];
            Assign.not_found_ids := [];
            Assign.invalid_ids := [String "028" "3"];
            Assign.error_messages := [];
            Assign.valid_ids := [2] |}).
Proof. vm_compute. reflexivity. Qed.

Example dismiss_batch_run :
  Dismiss.batch 1 ["3"; "x"; "1"; "2"] Sample.shop
  = ({| users := <[3 := setattr Sample.eve "is_store_owner" false]> (users Sample.shop);
        store_owners := []; so_seq := 1;
        trace := [U_filter_id_in [3; 2]; SO_related 3; SO_delete 3;
                  U_save 3 (Some ["is_store_owner"])] |},
     inr {| Dismiss.dismissed_users := ["eve"];
            Dismiss.not_found_ids := ["x"];
            Dismiss.no_roles_ids := ["2"];
            Dismiss.error_messages := ["You cannot dismiss yourself."];
            Dismiss.valid_ids := [3; 2] |}).
Proof. vm_compute. reflexivity. Qed.

(** *** C1 *)

Lemma assign_store_owner_bootstrap_witness :
  store_owners Sample.fresh = [] ∧ user_id (Sample.post ["2"]) = 1
  ∧ store_owners Sample.shop ≠ []
  ∧ getlist "user_ids" (data (Sample.post ["2"])) ≠ []
  ∧ (∃ s', assign_store_owner (Sample.post ["2"]) Sample.fresh
           = (s', inr {| body := message_body
                                  "You have been assigned as the first store owner.";
                         status := HTTP_200_OK |})
       ∧ so_user <$> store_owners s' = [1]
       ∧ (∃ u', users s' !! 1 = Some u' ∧ is_store_owner u' = true
                ∧ username u' = username (user (Sample.post ["2"])))
       ∧ (∀ k, k ≠ 1 → users s' !! k = users Sample.fresh !! k)
       ∧ trace s' = trace Sample.fresh ++ [SO_exists; SO_create 1; U_save 1 None])
  ∧ (∃ s', assign_store_owner (Sample.post ["2"]) Sample.shop
           = (s', inl (Py.AttributeError "_build_process_assignment_response_messages"))
       ∧ store_owners s' = store_owners Sample.shop
       ∧ ∀ t k u, t ∈ getlist "user_ids" (data (Sample.post ["2"])) →
           Py.int t = Some k → k ≠ user_id (Sample.post ["2"]) →
           users Sample.shop !! k = Some u →
           ∃ u', users s' !! k = Some u' ∧ is_store_owner u' = true).
Proof.
  assert (store_owners Sample.fresh = []) as H1 by reflexivity.
  assert (user_id (Sample.post ["2"]) = 1) as H2 by reflexivity.
  assert (store_owners Sample.shop ≠ []) as H3 by by_decide.
  assert (getlist "user_ids" (data (Sample.post ["2"])) ≠ []) as H4 by by_decide.
  split_and!; [exact H1|exact H2|exact H3|exact H4| |].
  - exact (proj1 (assign_store_owner_bootstrap (Sample.post ["2"]) Sample.fresh)
             H1 H2).
  - exact (proj2 (proj2 (proj2 (assign_store_owner_bootstrap (Sample.post ["2"])
                                  Sample.shop))) H3 H4).
Defined.

(** *** C2: a dismissal of one user *)

Lemma dismiss_role_name_error_witness :
  getlist "user_ids" (data (Sample.post ["3"])) ≠ []
  ∧ dismiss_role (Sample.post ["3"]) Sample.shop
    = (Sample.shop, inl (Py.NameError "RoleAssignmentAndDismissalHandler")).
Proof.
  assert (getlist "user_ids" (data (Sample.post ["3"])) ≠ []) as H by by_decide.
  split; [exact H|]. exact (dismiss_role_name_error _ Sample.shop H).
Defined.

(** *** C3 *)

Lemma process_assignments_attribute_error_witness :
  __init__ (Some "cashier") = inr Sample.cashier_handler
  ∧ configured Sample.cashier_handler Sample.cashier_config
  ∧ ∃ s', process_assignments Sample.cashier_handler 1 ["2"] Sample.shop
          = (s', inl (Py.AttributeError "_build_process_assignment_response_messages"))
      ∧ ∃ u', users s' !! 2 = Some u' ∧ getattr u' "is_cashier" = Some true.
Proof.
  split; [exact sample_handler_init|]. split; [exact sample_configured|].
  destruct (process_assignments_attribute_error
              (Some "cashier") Sample.cashier_handler 1 ["2"] Sample.shop
              sample_handler_init) as (_ & _ & _ & H).
  destruct (H Sample.cashier_config sample_configured) as (s' & v & _ & Hp & Hf).
  exists s'. split; [exact Hp|].
  apply (Hf "2" 2 Sample.bob); [by_decide|reflexivity|lia|reflexivity].
Defined.

(** *** C4 *)

Lemma assign_already_has_role_witness :
  configured Sample.cashier_handler Sample.cashier_config
  ∧ unique_usernames (users Sample.shop)
  ∧ "3" ∈ ["2"; "3"] ∧ Py.int "3" = Some 3 ∧ 3 ≠ 1
  ∧ users Sample.shop !! 3 = Some Sample.eve
  ∧ getattr Sample.eve (field Sample.cashier_config) = Some true
  ∧ ∃ s' v, Assign.batch Sample.cashier_handler 1 ["2"; "3"] Sample.shop = (s', inr v)
      ∧ users s' !! 3 = Some Sample.eve
      ∧ Assign.already_message Sample.eve Sample.cashier_config
          ∈ Assign.error_messages v
      ∧ Py.str 3 ∈ Assign.invalid_ids v
      ∧ username Sample.eve ∉ Assign.assigned_users v.
Proof.
  assert ("3" ∈ ["2"; "3"]) as H1 by by_decide.
  assert (Py.int "3" = Some 3) as H2 by reflexivity.
  assert (3 ≠ 1) as H3 by lia.
  assert (users Sample.shop !! 3 = Some Sample.eve) as H4 by reflexivity.
  assert (getattr Sample.eve (field Sample.cashier_config) = Some true) as H5
    by reflexivity.
  split_and!; try done; [exact sample_configured|exact sample_unique_usernames|].
  exact (assign_already_has_role Sample.cashier_handler Sample.cashier_config
           1 ["2"; "3"] Sample.shop "3" 3 Sample.eve
           sample_configured sample_unique_usernames H1 H2 H3 H4 H5).
Defined.

(** *** C5 *)

Lemma self_reference_excluded_witness :
  configured Sample.cashier_handler Sample.cashier_config
  ∧ Py.int "1" = Some 1
  ∧ (∃ s' v v',
       Assign.batch Sample.cashier_handler 1 (["2"] ++ "1" :: ["3"]) Sample.shop
       = (s', inr v)
       ∧ Assign.batch Sample.cashier_handler 1 (["2"] ++ ["3"]) Sample.shop
         = (s', inr v')
       ∧ Assign.error_messages v
         = Assign.self_message Sample.cashier_config :: Assign.error_messages v'
       ∧ users s' !! 1 = users Sample.shop !! 1)
  ∧ (∃ s' v v',
       Dismiss.batch 1 (["2"] ++ "1" :: ["3"]) Sample.shop = (s', inr v)
       ∧ Dismiss.batch 1 (["2"] ++ ["3"]) Sample.shop = (s', inr v')
       ∧ Dismiss.error_messages v = Dismiss.self_message :: Dismiss.error_messages v'
       ∧ users s' !! 1 = users Sample.shop !! 1).
Proof.
  assert (Py.int "1" = Some 1) as H by reflexivity.
  destruct (self_reference_excluded Sample.cashier_handler Sample.cashier_config
              1 ["2"] "1" ["3"] Sample.shop sample_configured H)
    as [(s1 & v1 & v1' & A1 & A2 & A3 & _ & _ & _ & A4)
        (s2 & v2 & v2' & D1 & D2 & D3 & _ & _ & _ & D4)].
  split_and!; [exact sample_configured|exact H| |].
  - by exists s1, v1, v1'.
  - by exists s2, v2, v2'.
Defined.

(** *** C6 *)

Lemma malformed_token_witness :
  configured Sample.cashier_handler Sample.cashier_config
  ∧ Py.int "abc" = None
  ∧ Py.int "-5" = Some (-5) ∧ -5 ≤ 0 ∧ -5 ≠ 1
  ∧ users Sample.shop !! (-5) = None
  ∧ (∃ s' v v',
       Assign.batch Sample.cashier_handler 1 (["2"] ++ "abc" :: ["3"]) Sample.shop
       = (s', inr v)
       ∧ Assign.batch Sample.cashier_handler 1 (["2"] ++ ["3"]) Sample.shop
         = (s', inr v')
       ∧ "abc" ∈ Assign.invalid_ids v)
  ∧ (∃ s' v v',
       Dismiss.batch 1 (["2"] ++ "abc" :: ["3"]) Sample.shop = (s', inr v)
       ∧ Dismiss.batch 1 (["2"] ++ ["3"]) Sample.shop = (s', inr v')
       ∧ "abc" ∈ Dismiss.not_found_ids v)
  ∧ (∃ s' v l rest,
       Assign.batch Sample.cashier_handler 1 (["2"] ++ "-5" :: ["3"]) Sample.shop
       = (s', inr v)
       ∧ trace s' = trace Sample.shop ++ U_filter_id_in l :: rest ∧ -5 ∈ l
       ∧ users s' !! (-5) = None ∧ Py.str (-5) ∈ Assign.not_found_ids v)
  ∧ (∃ s' v l rest,
       Dismiss.batch 1 (["2"] ++ "-5" :: ["3"]) Sample.shop = (s', inr v)
       ∧ trace s' = trace Sample.shop ++ U_filter_id_in l :: rest ∧ -5 ∈ l
       ∧ users s' !! (-5) = None ∧ Py.str (-5) ∈ Dismiss.not_found_ids v).
Proof.
  assert (Py.int "abc" = None) as H by reflexivity.
  assert (Py.int "-5" = Some (-5)) as H1 by reflexivity.
  assert (-5 ≤ 0) as H2 by lia.
  assert (-5 ≠ 1) as H3 by lia.
  assert (users Sample.shop !! (-5) = None) as H4 by reflexivity.
  destruct (malformed_token Sample.cashier_handler Sample.cashier_config
              1 ["2"] "abc" ["3"] Sample.shop sample_configured) as [Hbad _].
  destruct (Hbad H)
    as [(s1 & v1 & v1' & A1 & A2 & A3 & _) (s2 & v2 & v2' & D1 & D2 & D3 & _)].
  destruct (malformed_token Sample.cashier_handler Sample.cashier_config
              1 ["2"] "-5" ["3"] Sample.shop sample_configured) as [_ Hneg].
  destruct (Hneg (-5) H1 H2 H3 H4) as [Ha Hd].
  split_and!;
    [exact sample_configured|exact H|exact H1|exact H2|exact H3|exact H4
    | | |exact Ha|exact Hd].
  - by exists s1, v1, v1'.
  - by exists s2, v2, v2'.
Defined.

(** The claim as the spec words it ("not parseable as a positive
    integer") fails on a token that is an integer but not a positive one:
    assign looks the id up and reports it as not found. *)
Lemma nonpositive_token_is_looked_up :
  Py.int "-5" = Some (-5)
  ∧ Assign.batch Sample.cashier_handler 1 ["-5"] Sample.shop
    = (add_trace (U_filter_id_in [-5]) Sample.shop,
       inr {| Assign.assigned_users := []; Assign.not_found_ids := ["-5"];
              Assign.invalid_ids := []; Assign.error_messages := [];
              Assign.valid_ids := [-5] |}).
Proof. split; [reflexivity|]. vm_compute. reflexivity. Qed.

(** *** C7 *)

Lemma dismiss_store_owner_atomic_witness :
  "3" ∈ ["3"] ∧ Py.int "3" = Some 3 ∧ 3 ≠ 1
  ∧ users Sample.shop !! 3 = Some Sample.eve
  ∧ get_role Sample.eve = Some UserRoles.STORE_OWNER
  ∧ ∃ s' v, Dismiss.batch 1 ["3"] Sample.shop = (s', inr v)
      ∧ existsb (ORM.owns 3) (store_owners s') = false
      ∧ (∃ u', users s' !! 3 = Some u' ∧ is_store_owner u' = false)
      ∧ username Sample.eve ∈ Dismiss.dismissed_users v.
Proof.
  assert ("3" ∈ ["3"]) as H1 by by_decide.
  assert (Py.int "3" = Some 3) as H2 by reflexivity.
  assert (3 ≠ 1) as H3 by lia.
  assert (users Sample.shop !! 3 = Some Sample.eve) as H4 by reflexivity.
  assert (get_role Sample.eve = Some UserRoles.STORE_OWNER) as H5 by reflexivity.
  split_and!; try done.
  exact (proj2 dismiss_store_owner_atomic 1 ["3"] Sample.shop "3" 3 Sample.eve
           H1 H2 H3 H4 H5).
Defined.

(** *** C8 *)

Lemma empty_batch_rejected_witness :
  getlist "user_ids" (data (Sample.post [])) = []
  ∧ store_owners Sample.shop ≠ []
  ∧ store_owners Sample.fresh = [] ∧ user_id (Sample.post []) = 1
  ∧ assign_cashier (Sample.post []) Sample.shop
    = (Sample.shop, inr {| body := error_body "No user IDs provided.";
                           status := HTTP_400_BAD_REQUEST |})
  ∧ assign_store_owner (Sample.post []) Sample.shop
    = (add_trace SO_exists Sample.shop,
       inr {| body := error_body "No user IDs provided.";
              status := HTTP_400_BAD_REQUEST |})
  ∧ ∃ s', assign_store_owner (Sample.post []) Sample.fresh
          = (s', inr {| body := message_body
                                 "You have been assigned as the first store owner.";
                        status := HTTP_200_OK |})
      ∧ so_user <$> store_owners s' = [1]
      ∧ (∃ u', users s' !! 1 = Some u' ∧ is_store_owner u' = true
               ∧ username u' = username (user (Sample.post [])))
      ∧ (∀ k, k ≠ 1 → users s' !! k = users Sample.fresh !! k)
      ∧ trace s' = trace Sample.fresh ++ [SO_exists; SO_create 1; U_save 1 None].
Proof.
  assert (getlist "user_ids" (data (Sample.post [])) = []) as H by reflexivity.
  assert (store_owners Sample.shop ≠ []) as Hs by by_decide.
  assert (store_owners Sample.fresh = []) as Hf by reflexivity.
  assert (user_id (Sample.post []) = 1) as H1 by reflexivity.
  destruct (empty_batch_rejected (Sample.post []) Sample.shop H)
    as (Ha & _ & Ho & _).
  destruct (empty_batch_rejected (Sample.post []) Sample.fresh H)
    as (_ & _ & _ & Hfirst & _).
  split_and!; [exact H|exact Hs|exact Hf|exact H1| |exact (Ho Hs)|exact (Hfirst Hf H1)].
  apply Ha. do 4 apply list_elem_of_further. apply list_elem_of_here.
Defined.

(** With no store owner yet, [assign_store_owner] does not look at the
    batch: an empty one is answered with 200 for the actor with id 1, and
    the tables change. *)
Lemma assign_store_owner_accepts_empty_batch :
  ¬ rejects_empty_batch assign_store_owner.
Proof.
  intros H. destruct (H (Sample.post []) Sample.fresh eq_refl) as (b & Hb).
  vm_compute in Hb. discriminate Hb.
Qed.

(** *** C9 *)

(** The endpoint pages through the rows of the query. *)
Lemma get_staff_members_run request s l :
  staff_members_query (qget "role_type" (query_params request)) (users s) = inr l →
  get_staff_members request s
  = (add_trace (U_staff (qget "role_type" (query_params request))) s,
     match paginate_queryset l (query_params request) with
     | inr p => inr (get_paginated_response p (staff_row <$> object_list p))
     | inl e => inl e
     end).
Proof.
  intros H. unfold get_staff_members, bind, gets, log, lift, ret. rewrite H.
  by destruct (paginate_queryset l (query_params request)).
Qed.

Lemma staff_members_query_rows_witness :
  qget "role_type" (query_params (Sample.get [("role_type", ["boss"])])) = Some "boss"
  ∧ "boss" ≠ "" ∧ ("boss" ∉ role_keys)
  ∧ ∃ b, get_staff_members (Sample.get [("role_type", ["boss"])]) Sample.shop
         = (Sample.shop, inr {| body := b; status := HTTP_400_BAD_REQUEST |}).
Proof.
  assert (qget "role_type" (query_params (Sample.get [("role_type", ["boss"])]))
          = Some "boss") as H1 by reflexivity.
  assert ("boss" ≠ "") as H2 by by_decide.
  assert ("boss" ∉ role_keys) as H3 by by_decide.
  destruct (staff_members_query_rows (users Sample.shop)) as (_ & _ & _ & He & _).
  split_and!; [exact H1|exact H2|exact H3|].
  exact (He (Sample.get [("role_type", ["boss"])]) Sample.shop "boss" H1 H2 H3).
Defined.

(** The claim as the spec words it fails on the empty role type: it is
    none of the six keys, and the endpoint lists the whole staff. *)
Lemma empty_role_type_lists_all_staff :
  ("" ∉ role_keys)
  ∧ get_staff_members (Sample.get [("role_type", [""])]) Sample.shop
    = (add_trace (U_staff (Some "")) Sample.shop,
       inr {| body := Py.VDict
                [ ("count", Py.VInt 1); ("next", Py.VNone); ("previous", Py.VNone);
                  ("results", Py.VList [staff_row (3, Sample.eve)]) ];
              status := HTTP_200_OK |}).
Proof. split; [by_decide|]. vm_compute. reflexivity. Qed.

(** *** C10 *)

Lemma staff_pagination_witness :
  let q : QueryDict := [("page_size", ["500"]); ("page", ["7"])] in
  let rows : list Z := [1; 2; 3] in
  (qget "page_size" [] = None ∧ get_page_size [] = 10)
  ∧ qget "page_size" q = Some "500" ∧ Py.int "500" = Some 500 ∧ 1 ≤ 500
  ∧ get_page_size q = Z.min 500 100
  ∧ qget "page" q = Some "7" ∧ Py.int "7" = Some 7
  ∧ num_pages (Z.of_nat (length rows)) (get_page_size q) < 7
  ∧ paginate_queryset rows q = inl (Py.NotFound "Invalid page.").
Proof.
  intros q rows.
  assert (qget "page_size" [] = None) as H0 by reflexivity.
  assert (qget "page_size" q = Some "500") as H1 by reflexivity.
  assert (Py.int "500" = Some 500) as H2 by reflexivity.
  assert (1 ≤ 500) as H3 by lia.
  assert (qget "page" q = Some "7") as H4 by reflexivity.
  assert (Py.int "7" = Some 7) as H5 by reflexivity.
  assert (num_pages (Z.of_nat (length rows)) (get_page_size q) < 7) as H6
    by by_decide.
  destruct (staff_pagination rows q) as (_ & Hsize & _ & _ & Hbeyond).
  destruct (staff_pagination rows []) as (Hdefault & _).
  split_and!.
  - exact H0.
  - exact (Hdefault H0).
  - exact H1.
  - exact H2.
  - exact H3.
  - exact (Hsize "500" 500 H1 H2 H3).
  - exact H4.
  - exact H5.
  - exact H6.
  - exact (Hbeyond "7" 7 H4 H5 H6).
Defined.

(** The claim as the spec words it fails on a page beyond the last: the
    staff of the sample shop fills one page, and page 2 is refused. *)
Lemma page_beyond_last_is_not_found :
  get_staff_members (Sample.get [("page", ["2"])]) Sample.shop
  = (add_trace (U_staff None) Sample.shop, inl (Py.NotFound "Invalid page.")).
Proof. vm_compute. reflexivity. Qed.

(** * Further properties of the handler *)

(** ** What a batch leaves alone *)

(** X1.  An assign batch writes nothing but the role flag of its handler,
    and only from false to true, on rows of ids of the batch: every row
    of the user table is afterwards the row before, or the row before
    with the flag set; no row appears or disappears, and the StoreOwner
    table is not touched. *)
Theorem assign_batch_sets_one_flag self c cur ids s s' v :
  configured self c →
  Assign.batch self cur ids s = (s', inr v) →
  store_owners s' = store_owners s ∧ so_seq s' = so_seq s
  ∧ ∀ k, users s' !! k = users s !! k
         ∨ ∃ u, users s !! k = Some u
                ∧ getattr u (field c) = Some false
                ∧ users s' !! k = Some (setattr u (field c) true)
                ∧ k ∈ candidates cur ids.
Proof. apply assign_batch_flag_frame. Qed.

Lemma only_cleared_refl u : only_cleared u u.
Proof. unfold only_cleared. by auto 20. Qed.

Lemma only_cleared_setattr u u' name :
  only_cleared u u' → only_cleared u (setattr u' name false).
Proof.
  unfold only_cleared, setattr. intros H. destruct_and!.
  repeat case_match; simpl; split_and!; by auto.
Qed.

Lemma sublist_filter {A} (f : A → bool) l : sublist (List.filter f l) l.
Proof.
  induction l as [|x l IH]; simpl; [done|].
  destruct (f x); by constructor.
Qed.

Lemma entry_deleted_sublist r k s :
  sublist (store_owners (entry_deleted r k s)) (store_owners s).
Proof.
  unfold entry_deleted. repeat case_match; simpl; try done.
  apply sublist_filter.
Qed.

Lemma entry_deleted_so_seq r k s : so_seq (entry_deleted r k s) = so_seq s.
Proof. unfold entry_deleted. by repeat case_match. Qed.

Lemma entry_deleted_other r k s e :
  e ∈ store_owners s → so_user e ≠ k → e ∈ store_owners (entry_deleted r k s).
Proof.
  intros He Hk. unfold entry_deleted. repeat case_match; simpl; try done.
  apply list_elem_of_In, filter_In. split; [by apply list_elem_of_In|].
  unfold ORM.owns. apply negb_true_iff. by apply Z.eqb_neq.
Qed.

Lemma dismiss_batch_clear_frame cur ids s s' v :
  Dismiss.batch cur ids s = (s', inr v) →
  sublist (store_owners s') (store_owners s)
  ∧ so_seq s' = so_seq s
  ∧ (∀ e, e ∈ store_owners s → so_user e ∉ candidates cur ids →
          e ∈ store_owners s')
  ∧ ∀ k, match users s !! k, users s' !! k with
         | Some u, Some u' => only_cleared u u'
         | None, None => True
         | _, _ => False
         end.
Proof.
  intros Hrun.
  destruct (dismiss_batch_known cur ids s s' v
    (λ _ s1 _, sublist (store_owners s1) (store_owners s)
       ∧ so_seq s1 = so_seq s
       ∧ (∀ e, e ∈ store_owners s → so_user e ∉ candidates cur ids →
               e ∈ store_owners s1)
       ∧ ∀ k, match users s !! k, users s1 !! k with
              | Some u, Some u' => only_cleared u u'
              | None, None => True
              | _, _ => False
              end) Hrun)
    as (objs & HI & _); [| |   |done].
  - split_and!; [done|done|by auto|].
    intros k. destruct (users s !! k); [apply only_cleared_refl|done].
  - by auto.
  - intros seen x s1 [objs v1] s2 st2 (Hso & Hseq & Hkeep & HI) Hsub Hx Hstep.
    cbn [fst] in Hsub.
    destruct (dismiss_step_cases objs v1 x s1 Hsub)
      as [(_ & Hs)|[(ux & _ & _ & Hs)|(ux & r & _ & _ & Hu & Hs)]];
      rewrite Hs in Hstep; simplify_eq; [done|done|].
    rewrite saved_store_owners. split_and!.
    + etrans; [apply entry_deleted_sublist|done].
    + simpl. by rewrite entry_deleted_so_seq.
    + intros e He Hne. apply entry_deleted_other; [by auto|].
      intros Heq. apply Hne. by rewrite Heq.
    + intros k. rewrite saved_users, entry_deleted_users.
      specialize (HI k). destruct (decide (k = x)) as [->|Hkx].
      * rewrite lookup_insert_eq. rewrite Hu in HI.
        destruct (users s !! x); [|done]. by apply only_cleared_setattr.
      * by rewrite lookup_insert_ne.
Qed.

(** X2.  A dismiss batch never sets a flag and never writes another
    column: every row is afterwards the row before with some role flags
    cleared; no row appears or disappears.  The StoreOwner entries left
    are entries that were there, in their order, and the entries of users
    that the batch does not name are all left. *)
Theorem dismiss_batch_only_clears cur ids s s' v :
  Dismiss.batch cur ids s = (s', inr v) →
  sublist (store_owners s') (store_owners s)
  ∧ so_seq s' = so_seq s
  ∧ (∀ e, e ∈ store_owners s → so_user e ∉ candidates cur ids →
          e ∈ store_owners s')
  ∧ ∀ k, match users s !! k, users s' !! k with
         | Some u, Some u' => only_cleared u u'
         | None, None => True
         | _, _ => False
         end.
Proof. apply dismiss_batch_clear_frame. Qed.

(** ** Ids without a row, users without a role *)

(** X3.  An id of the batch that is not the actor's and has no row: both
    batches report [str(id)] among the not-found ids, and no row is
    created for it. *)
Theorem missing_user_not_found self c cur ids s t k :
  configured self c →
  t ∈ ids → Py.int t = Some k → k ≠ cur → users s !! k = None →
  (∃ s' v, Assign.batch self cur ids s = (s', inr v)
     ∧ users s' !! k = None ∧ Py.str k ∈ Assign.not_found_ids v)
  ∧ (∃ s' v, Dismiss.batch cur ids s = (s', inr v)
     ∧ users s' !! k = None ∧ Py.str k ∈ Dismiss.not_found_ids v).
Proof.
  intros Hcf Ht Hint Hne Hu.
  assert (k ∈ candidates cur ids) as Hk by (by eapply candidates_elem).
  assert (candidates cur ids ≠ []) as Hcand.
  { intros He. rewrite He in Hk. by apply elem_of_nil in Hk. }
  split.
  - destruct (assign_batch_ind self c cur ids s
      (λ seen s1 st1, st1.1 !! k = None ∧ users s1 !! k = None
         ∧ (k ∈ seen → Py.str k ∈ Assign.not_found_ids st1.2)))
      as (s' & [objs v] & Hrun & (_ & Hnone & Hin) & _); [done|done| | |].
    + cbn [fst snd]. rewrite fetched_lookup, decide_True by done.
      split_and!; [done|done|by intros ?%elem_of_nil].
    + intros seen x s1 [objs v] s2 st2 (Ho & Hu1 & Hin) Hsub Hx Hstep.
      cbn [fst snd] in *.
      destruct (assign_step_cases self c objs v x s1 Hcf Hsub)
        as [(_ & Hs)|[(ux & Hxu & _ & Hs)|(ux & Hxu & _ & _ & Hs)]];
        rewrite Hs in Hstep; simplify_eq; cbn [fst snd].
      * split_and!; [done|done|]. rewrite elem_of_snoc. simpl.
        rewrite elem_of_app, list_elem_of_singleton.
        intros [?| ->]; by auto.
      * split_and!; [done|done|]. rewrite elem_of_snoc.
        intros [?| ->]; [by auto|congruence].
      * assert (x ≠ k) by congruence.
        rewrite saved_users, !lookup_insert_ne by done.
        split_and!; [done|done|]. rewrite elem_of_snoc.
        intros [?| ->]; [by auto|done].
    + exists s', v. by auto.
  - destruct (dismiss_batch_ind cur ids s
      (λ seen s1 st1, st1.1 !! k = None ∧ users s1 !! k = None
         ∧ (k ∈ seen → Py.str k ∈ Dismiss.not_found_ids st1.2)))
      as (s' & [objs v] & Hrun & (_ & Hnone & Hin) & _); [done| | |].
    + cbn [fst snd]. rewrite fetched_lookup, decide_True by done.
      split_and!; [done|done|by intros ?%elem_of_nil].
    + intros seen x s1 [objs v] s2 st2 (Ho & Hu1 & Hin) Hsub Hx Hstep.
      cbn [fst snd] in *.
      destruct (dismiss_step_cases objs v x s1 Hsub)
        as [(_ & Hs)|[(ux & Hxu & _ & Hs)|(ux & r & Hxu & _ & _ & Hs)]];
        rewrite Hs in Hstep; simplify_eq; cbn [fst snd].
      * split_and!; [done|done|]. rewrite elem_of_snoc. simpl.
        rewrite elem_of_app, list_elem_of_singleton.
        intros [?| ->]; by auto.
      * split_and!; [done|done|]. rewrite elem_of_snoc.
        intros [?| ->]; [by auto|congruence].
      * assert (x ≠ k) by congruence.
        rewrite saved_users, entry_deleted_users, !lookup_insert_ne by done.
        split_and!; [done|done|]. rewrite elem_of_snoc.
        intros [?| ->]; [by auto|done].
    + exists s', v. by auto.
Qed.

(** X4.  A user of a dismiss batch for whom [get_role] answers [None]:
    the row and the StoreOwner table are left as they are by that user,
    [str(id)] is among the no-role ids and the user name is not among the
    dismissed users. *)
Theorem dismiss_user_without_role cur ids s t k u :
  unique_usernames (users s) →
  t ∈ ids → Py.int t = Some k → k ≠ cur →
  users s !! k = Some u → get_role u = None →
  ∃ s' v, Dismiss.batch cur ids s = (s', inr v)
    ∧ users s' !! k = Some u
    ∧ Py.str k ∈ Dismiss.no_roles_ids v
    ∧ username u ∉ Dismiss.dismissed_users v.
Proof.
  intros Huniq Ht Hint Hne Hu Hrole.
  assert (k ∈ candidates cur ids) as Hk by (by eapply candidates_elem).
  destruct (dismiss_batch_ind cur ids s
    (λ seen s1 st1,
       st1.1 !! k = Some u
       ∧ (k ∈ seen → Py.str k ∈ Dismiss.no_roles_ids st1.2)
       ∧ (∀ name, name ∈ Dismiss.dismissed_users st1.2 →
            ∃ j uj, j ≠ k ∧ users s !! j = Some uj ∧ username uj = name)
       ∧ (∀ j uj, st1.1 !! j = Some uj →
            ∃ u0, users s !! j = Some u0 ∧ username u0 = username uj)))
    as (s' & [objs v] & Hrun & (Ha & Hb & Hc & _) & Hsub); [| | |].
  - intros He. rewrite He in Hk. by apply elem_of_nil in Hk.
  - cbn [fst snd]. split_and!.
    + rewrite fetched_lookup. by rewrite decide_True.
    + by intros ?%elem_of_nil.
    + by intros name ?%elem_of_nil.
    + intros j uj Hj. exists uj. split; [|done].
      eapply lookup_weaken; [done|]. apply fetched_subseteq.
  - intros seen x s1 [objs v] s2 st2 (Ha & Hb & Hc & Hd) Hsub Hx Hstep.
    cbn [fst snd] in *.
    destruct (dismiss_step_cases objs v x s1 Hsub)
      as [(Hn & Hs)|[(ux & Hxu & Hg & Hs)|(ux & r & Hxu & Hg & _ & Hs)]];
      rewrite Hs in Hstep; simplify_eq; cbn [fst snd].
    + split_and!; [done| |done|done].
      rewrite elem_of_snoc. intros [?| ->]; [by auto|congruence].
    + split_and!; [done| |done|done].
      rewrite elem_of_snoc. simpl. rewrite elem_of_app, list_elem_of_singleton.
      intros [?| ->]; by auto.
    + assert (x ≠ k) as Hxk by (intros ->; congruence).
      split_and!.
      * by rewrite lookup_insert_ne.
      * rewrite elem_of_snoc. simpl. intros [?|?]; [by auto|done].
      * intros name. simpl. rewrite elem_of_app, list_elem_of_singleton.
        intros [Hname| ->]; [by auto|].
        destruct (Hd x ux Hxu) as (u0 & Hu0 & Hname). by exists x, u0.
      * intros j uj. destruct (decide (j = x)) as [->|Hjx].
        -- rewrite lookup_insert_eq. intros ?; simplify_eq.
           rewrite setattr_username. by auto.
        -- rewrite lookup_insert_ne by done. by auto.
  - cbn [fst snd] in *. exists s', v. split; [done|].
    split; [by eapply lookup_weaken|]. split; [by auto|].
    intros (j & uj & Hjk & Huj & Hname)%Hc.
    apply Hjk. by eapply Huniq.
Qed.

(** ** No user is assigned twice *)

(** X5.  However often an id occurs in the batch, its user is assigned at
    most once: with unique user names the list of assigned users has no
    name twice (after the first assignment the shared object carries the
    flag, and a further occurrence is reported as already assigned). *)
Theorem assigned_users_no_duplicates self c cur ids s s' v :
  configured self c → unique_usernames (users s) →
  Assign.batch self cur ids s = (s', inr v) →
  NoDup (Assign.assigned_users v).
Proof.
  intros Hcf Huniq Hrun.
  destruct (assign_batch_known self c cur ids s s' v
    (λ _ _ st1,
       NoDup (Assign.assigned_users st1.2)
       ∧ (∀ name, name ∈ Assign.assigned_users st1.2 →
            ∃ j uj, st1.1 !! j = Some uj ∧ username uj = name
                    ∧ getattr uj (field c) = Some true)
       ∧ (∀ j uj, st1.1 !! j = Some uj →
            ∃ u0, users s !! j = Some u0 ∧ username u0 = username uj)) Hcf Hrun)
    as (objs & (HI & _) & _); [|done| |done].
  - cbn [fst snd]. split_and!; [constructor|by intros name ?%elem_of_nil|].
    intros j uj Hj. exists uj. split; [|done].
    eapply lookup_weaken; [done|]. apply fetched_subseteq.
  - intros seen x s1 [objs v1] s2 st2 (Hnd & Hflag & Hname) Hsub Hx Hstep.
    cbn [fst snd] in *.
    destruct (assign_step_cases self c objs v1 x s1 Hcf Hsub)
      as [(_ & Hs)|[(ux & _ & _ & Hs)|(ux & Hxu & Hg & _ & Hs)]];
      rewrite Hs in Hstep; simplify_eq; cbn [fst snd]; [done|done|].
    assert (∀ j uj, objs !! j = Some uj → username uj = username ux → j = x)
      as Hsame.
    { intros j uj Hj Hn. destruct (Hname j uj Hj) as (u1 & Hu1 & Hn1).
      destruct (Hname x ux Hxu) as (u2 & Hu2 & Hn2).
      eapply Huniq; [done|done|congruence]. }
    split_and!.
    + simpl. apply NoDup_app. split_and!; [done| |apply NoDup_singleton].
      intros name Hin ->%list_elem_of_singleton.
      destruct (Hflag _ Hin) as (j & uj & Hj & Hn & Hf).
      assert (j = x) by (by eapply Hsame). simplify_eq.
    + intros name. simpl. rewrite elem_of_app, list_elem_of_singleton.
      intros [Hin| ->].
      * destruct (Hflag _ Hin) as (j & uj & Hj & Hn & Hf).
        assert (j ≠ x).
        { intros ->. simplify_eq. }
        exists j, uj. by rewrite lookup_insert_ne.
      * exists x, (setattr ux (field c) true). rewrite lookup_insert_eq.
        split_and!; [done|apply setattr_username|by eapply configured_set_get].
    + intros j uj. destruct (decide (j = x)) as [->|Hjx].
      * rewrite lookup_insert_eq. intros ?; simplify_eq.
        rewrite setattr_username. by auto.
      * rewrite lookup_insert_ne by done. by auto.
Qed.

(** ** The error messages of a dismissal *)

(** X6.  The error messages of a dismiss batch are the self-reference
    message, once for each token that names the actor, and nothing else;
    the tokens that are no integers open the not-found ids, in the order
    of the batch. *)
Theorem dismiss_batch_messages cur ids s s' v :
  Dismiss.batch cur ids s = (s', inr v) →
  Dismiss.error_messages v = replicate (self_count cur ids) Dismiss.self_message
  ∧ unparsed ids `prefix_of` Dismiss.not_found_ids v.
Proof.
  intros Hrun.
  destruct (dismiss_batch_known cur ids s s' v
    (λ _ _ st1,
       Dismiss.error_messages st1.2
       = replicate (self_count cur ids) Dismiss.self_message
       ∧ unparsed ids `prefix_of` Dismiss.not_found_ids st1.2) Hrun)
    as (objs & HI & _); [done|done| |done].
  intros seen x s1 [objs v1] s2 st2 (He & Hp) Hsub Hx Hstep.
  cbn [fst snd] in *.
  destruct (dismiss_step_cases objs v1 x s1 Hsub)
    as [(_ & Hs)|[(ux & _ & _ & Hs)|(ux & r & _ & _ & _ & Hs)]];
    rewrite Hs in Hstep; simplify_eq; cbn [fst snd]; [|done|done].
  split; [done|]. simpl. by apply prefix_app_r.
Qed.

(** ** The assign endpoints on a batch that is not empty *)

(** X7.  The six assign endpoints on a batch that is not empty (for
    [assign_store_owner]: once a StoreOwner entry exists): every user of
    the batch other than the actor ends with the flag of the endpoint's
    role on the row, and the call ends in AttributeError, the one of the
    unbound builder name.  No response is returned, with neither status,
    and no StoreOwner entry is created. *)
Theorem assign_endpoints_raise request s :
  getlist "user_ids" (data request) ≠ [] →
  (∀ endpoint role,
     (endpoint, role) ∈ [ (assign_store_manager, "store_manager");
                          (assign_inventory_manager, "inventory_manager");
                          (assign_sales_associate, "sales_associate");
                          (assign_customer_service, "customer_service");
                          (assign_cashier, "cashier") ] →
     ∃ s', endpoint request s
           = (s', inl (Py.AttributeError "_build_process_assignment_response_messages"))
         ∧ store_owners s' = store_owners s
         ∧ ∀ t k u, t ∈ getlist "user_ids" (data request) → Py.int t = Some k →
             k ≠ user_id request → users s !! k = Some u →
             ∃ u', users s' !! k = Some u' ∧ getattr u' ("is_" +:+ role) = Some true)
  ∧ (store_owners s ≠ [] →
     ∃ s', assign_store_owner request s
           = (s', inl (Py.AttributeError "_build_process_assignment_response_messages"))
         ∧ store_owners s' = store_owners s
         ∧ ∀ t k u, t ∈ getlist "user_ids" (data request) → Py.int t = Some k →
             k ≠ user_id request → users s !! k = Some u →
             ∃ u', users s' !! k = Some u' ∧ is_store_owner u' = true).
Proof.
  intros Hne. split.
  - intros endpoint role Hin.
    assert (role ∈ role_keys ∧ endpoint = assign_role role) as (Hr & ->).
    { set_unfold in Hin. unfold role_keys.
      destruct_or! Hin; simplify_eq; (split; [|reflexivity]); set_solver. }
    by apply assign_role_writes_flags.
  - intros Hso. by apply assign_store_owner_batch_raises.
Qed.

(** ** One StoreOwner entry for a user *)

Lemma existsb_owns_false uid l :
  existsb (ORM.owns uid) l = false → uid ∉ so_user <$> l.
Proof.
  induction l as [|e l IH]; simpl; [by intros _ ?%elem_of_nil|].
  intros [He Hl]%orb_false_elim. rewrite elem_of_cons. intros [->|Hin].
  - unfold ORM.owns in He. by rewrite Z.eqb_refl in He.
  - by apply IH.
Qed.

Lemma store_owner_create_keeps uid s :
  one_entry_per_user s → one_entry_per_user (ORM.store_owner_create uid s).1.
Proof.
  unfold one_entry_per_user, ORM.store_owner_create. run.
  destruct (existsb (ORM.owns uid) (store_owners s)) eqn:E; simpl; [done|].
  intros Hnd. rewrite fmap_app. apply NoDup_app. split_and!; [done| |].
  - intros x Hx ->%list_elem_of_singleton. by eapply existsb_owns_false.
  - apply NoDup_singleton.
Qed.

Lemma sublist_one_entry_per_user s s' :
  sublist (store_owners s') (store_owners s) →
  one_entry_per_user s → one_entry_per_user s'.
Proof.
  unfold one_entry_per_user. intros Hsub Hnd.
  eapply sublist_NoDup; [done|]. by apply fmap_sublist.
Qed.

Lemma stateless_ret {A} (a : A) : stateless (ret a).
Proof. by intros s. Qed.

Lemma stateless_raise {A} e : stateless (raise (A:=A) e).
Proof. by intros s. Qed.

Lemma stateless_bind {A B} (m : M A) (k : A → M B) :
  stateless m → (∀ a, stateless (k a)) → stateless (bind m k).
Proof.
  intros Hm Hk s. unfold bind. specialize (Hm s).
  destruct (m s) as [s1 [e|a]]; simpl in *; subst; [done|]. apply Hk.
Qed.

Lemma stateless_self_config self : stateless (self_config self).
Proof.
  unfold self_config. destruct (config self);
    [apply stateless_ret|apply stateless_raise].
Qed.

Lemma stateless_optional_item cond item :
  stateless item → stateless (optional_item cond item).
Proof.
  intros H. unfold optional_item. destruct cond; [|apply stateless_ret].
  apply stateless_bind; [done|]. intros a. apply stateless_ret.
Qed.

Ltac stateless_steps :=
  repeat first
    [ apply stateless_ret
    | apply stateless_raise
    | apply stateless_self_config
    | apply stateless_optional_item
    | apply stateless_bind; [|intros ?]
    | match goal with |- stateless (if ?b then _ else _) => destruct b end ].

Lemma stateless_assignment_messages self a n i e :
  stateless (_build_process_assignment_response__messages self a n i e).
Proof. unfold _build_process_assignment_response__messages. stateless_steps. Qed.

Lemma stateless_dismissal_messages self a n i e :
  stateless (_build_process_dismissal_response_messages self a n i e).
Proof. unfold _build_process_dismissal_response_messages. stateless_steps. Qed.

Lemma dict_get_elem {V} key (d : list (string * V)) v :
  dict_get key d = Some v → ∃ k, (k, v) ∈ d.
Proof.
  induction d as [|[k w] d IH]; simpl; [done|].
  destruct (String.eqb k key).
  - intros ?; simplify_eq. exists k. by left.
  - intros (k' & Hk)%IH. exists k'. by right.
Qed.

Lemma builders_keep_state self name a b c d : stateless (self_call self name a b c d).
Proof.
  unfold self_call.
  destruct (dict_get name Handler_builders) as [f|] eqn:E; [|apply stateless_raise].
  apply dict_get_elem in E as (k & Hk). unfold Handler_builders in Hk.
  apply elem_of_cons in Hk as [Hk|Hk]; [simplify_eq; apply stateless_assignment_messages|].
  apply elem_of_cons in Hk as [Hk|Hk]; [simplify_eq; apply stateless_dismissal_messages|].
  by apply elem_of_nil in Hk.
Qed.

(** X8.  The one-to-one link of the StoreOwner table is kept by the calls
    that write the table: from a state with at most one entry for a user,
    [StoreOwner.objects.create] (which refuses a second entry for a
    user), [assign_store_owner] and [process_dismissals] end, with a
    response or with an exception, in such a state. *)
Theorem one_entry_per_user_kept s :
  one_entry_per_user s →
  (∀ uid, one_entry_per_user (ORM.store_owner_create uid s).1)
  ∧ (∀ request, one_entry_per_user (assign_store_owner request s).1)
  ∧ (∀ self cur ids, one_entry_per_user (process_dismissals self cur ids s).1).
Proof.
  intros Hinv. split_and!.
  - intros uid. by apply store_owner_create_keeps.
  - intros request. destruct (store_owners s) as [|e l] eqn:E.
    + rewrite assign_store_owner_without_entry by done.
      destruct (user_id request =? 1); unfold one_entry_per_user; simpl.
      * apply NoDup_singleton.
      * rewrite E. constructor.
    + rewrite assign_store_owner_with_entry by (by rewrite E).
      destruct (getlist "user_ids" (data request)) as [|t ts] eqn:Hids.
      * unfold assign_store_owner_batch. rewrite Hids. done.
      * assert (store_owners s ≠ []) as Hso by (by rewrite E).
        assert (getlist "user_ids" (data request) ≠ []) as Hne by (by rewrite Hids).
        destruct (assign_store_owner_batch_raises request s Hne Hso)
          as (s' & Hrun & Hsame & _).
        rewrite <- assign_store_owner_with_entry by done. rewrite Hrun.
        unfold one_entry_per_user in *. simpl. by rewrite Hsame.
  - intros self cur ids. unfold process_dismissals.
    destruct (dismiss_batch_total cur ids s) as (s' & v & Hrun).
    rewrite (bind_value _ _ _ _ _ Hrun).
    destruct (dismiss_batch_clear_frame cur ids s s' v Hrun) as (Hsub & _).
    assert (one_entry_per_user s') as Hinv'
      by (by eapply sublist_one_entry_per_user).
    pose proof (builders_keep_state self
      "_build_process_dismissal_response_messages"
      (Dismiss.dismissed_users v) (Dismiss.not_found_ids v)
      (Dismiss.no_roles_ids v) (Dismiss.error_messages v) s') as Hb.
    unfold bind. destruct (self_call _ _ _ _ _ _ s') as [s2 [e|d]];
      simpl in Hb; by subst.
Qed.

(** ** The messages *)

(** X9.  [_build_process_assignment_response__messages], for a handler
    with a config: it returns a dict and raises nothing; the dict has the
    key "message", "not_found", "invalid", "errors", in this order, for
    exactly the lists that are not empty (no key at all for four empty
    lists), and under "errors" the error messages as they are. *)
Theorem assignment_messages_keys self c assigned not_found invalid errors s :
  config self = Some c →
  ∃ d, _build_process_assignment_response__messages self
         assigned not_found invalid errors s = (s, inr d)
    ∧ d.*1 = (if nonempty assigned then ["message"] else [])
             ++ (if nonempty not_found then ["not_found"] else [])
             ++ (if nonempty invalid then ["invalid"] else [])
             ++ (if nonempty errors then ["errors"] else [])
    ∧ (errors ≠ [] → dict_get "errors" d = Some (Py.VStrs errors)).
Proof.
  intros Hc. unfold _build_process_assignment_response__messages.
  unfold self_config, optional_item. rewrite Hc.
  destruct errors as [|e errors]; destruct (nonempty assigned), (plural assigned),
    (nonempty not_found), (nonempty invalid);
    (eexists; split; [reflexivity|split; [reflexivity|]]);
    first [done|intros _; reflexivity].
Qed.

(** X10.  [process_dismissals] for a handler without [config] (the
    handler a dismissal is given: no role type): it returns exactly when
    the batch dismissed no user and met no user without a role, and then
    with the four lists of the loops; otherwise the user table already
    carries the dismissals and the call ends in AttributeError. *)
Theorem process_dismissals_without_role_type self cur ids s s' v :
  config self = None →
  Dismiss.batch cur ids s = (s', inr v) →
  (Dismiss.dismissed_users v = [] ∧ Dismiss.no_roles_ids v = [] →
     ∃ d, process_dismissals self cur ids s
          = (s', inr {| Dismiss.r_dismissed_users := [];
                        Dismiss.r_not_found_ids := Dismiss.not_found_ids v;
                        Dismiss.r_no_roles_ids := [];
                        Dismiss.r_error_messages := Dismiss.error_messages v;
                        Dismiss.r_response_data := d |})
       ∧ d.*1 = (if nonempty (Dismiss.not_found_ids v) then ["not_found"] else [])
                ++ (if nonempty (Dismiss.error_messages v) then ["errors"] else []))
  ∧ (Dismiss.dismissed_users v ≠ [] ∨ Dismiss.no_roles_ids v ≠ [] →
     process_dismissals self cur ids s = (s', inl (Py.AttributeError "config"))).
Proof.
  intros Hc Hrun. split.
  - intros [Hd Hn]. unfold process_dismissals.
    rewrite (bind_value _ _ _ _ _ Hrun). unfold self_call.
    change (dict_get "_build_process_dismissal_response_messages" Handler_builders)
      with (Some _build_process_dismissal_response_messages).
    unfold _build_process_dismissal_response_messages, optional_item.
    rewrite Hd, Hn. cbn [nonempty].
    destruct (nonempty (Dismiss.not_found_ids v)),
      (nonempty (Dismiss.error_messages v));
      (eexists; split; [reflexivity|reflexivity]).
  - intros Hne. by eapply process_dismissals_without_config.
Qed.

(** ** __init__ *)

(** X11.  [__init__]: for each of the six role keys the handler gets the
    config of the key, whose field is "is_" followed by the key and is a
    flag of the user model; another role type that is not empty is a
    KeyError; no role type, or the empty one, gives a handler without
    [config]. *)
Theorem init_role_types r :
  (r ∈ role_keys →
     ∃ c, __init__ (Some r) = inr {| role_type := Some r; config := Some c |}
          ∧ field c = "is_" +:+ r
          ∧ ∀ u, getattr u (field c) = getattr u (role_field r)
                 ∧ is_Some (getattr u (field c)))
  ∧ (r ≠ "" → r ∉ role_keys → __init__ (Some r) = inl (Py.KeyError r))
  ∧ __init__ (Some "") = inr {| role_type := Some ""; config := None |}
  ∧ __init__ None = inr {| role_type := None; config := None |}.
Proof.
  split_and!; [| |reflexivity|reflexivity].
  - intros Hr. destruct (init_role_key r Hr) as (c & Hinit & Hcf & Hf).
    exists c. split; [done|]. split; [done|]. intros u. split.
    + unfold role_keys in Hr. set_unfold in Hr.
      destruct_or! Hr; subst; rewrite Hf; reflexivity.
    + by eapply configured_field.
  - intros Hne Hr. unfold __init__, Py.truthy.
    destruct (String.eqb_spec r "") as [|_]; [done|]. cbn [negb].
    cbn [dict_get role_configs]. unfold role_keys in Hr.
    repeat match goal with
           | |- context [String.eqb ?k r] =>
               destruct (String.eqb_spec k r) as [<-|_];
               [exfalso; apply Hr; set_unfold; tauto|]
           end.
    reflexivity.
Qed.

(** * Further properties of the view set *)

(** ** get_queryset *)

(** X12.  [get_queryset]: for the list action the requester is left out
    and every other user is there; for any other action no user is left
    out. *)
Theorem get_queryset_excludes_requester action request m :
  (∀ k, get_queryset "list" request m !! k
        = if decide (k = user_id request) then None else m !! k)
  ∧ (action ≠ "list" → get_queryset action request m = m).
Proof.
  split.
  - intros k. unfold get_queryset. rewrite String.eqb_refl. case_decide as Hk.
    + apply map_lookup_filter_None. right. intros u _ Hne. by apply Hne.
    + destruct (m !! k) as [u|] eqn:E.
      * by apply map_lookup_filter_Some.
      * apply map_lookup_filter_None. by left.
  - intros Hne. unfold get_queryset.
    by destruct (String.eqb_spec action "list").
Qed.

(** ** get_permissions *)

Lemma get_permissions_cases action :
  get_permissions action = [Or IsStoreOwner IsStoreManager]
  ∨ get_permissions action = [IsSelfProfile]
  ∨ get_permissions action = [IsStoreOwner]
  ∨ get_permissions action = [IsStoreManager]
  ∨ get_permissions action = [Or IsStoreManager IsStoreOwner].
Proof.
  unfold get_permissions.
  repeat (destruct (str_in action _); [by auto 6|]).
  destruct (String.eqb action _); by auto 6.
Qed.

(** X13.  [get_permissions], whatever the four permission classes answer
    for a request: an action that changes roles is granted only when
    [IsStoreOwner] or [IsStoreManager] grants, and then the list action
    is granted as well; assigning a store owner or a store manager and
    dismissing are granted exactly when [IsStoreOwner] grants; and no
    action asks [IsInventoryManager], which the module imports. *)
Theorem role_actions_permissions grants :
  (∀ action, action ∈ role_actions →
     check_permissions grants action = true →
     (grants IsStoreOwner = true ∨ grants IsStoreManager = true)
     ∧ check_permissions grants "list" = true)
  ∧ (∀ action,
       action ∈ ["assign_store_owner"; "assign_store_manager"; "dismiss_role"] →
       check_permissions grants action = grants IsStoreOwner)
  ∧ (∀ action p, p ∈ get_permissions action →
       mentions IsInventoryManager p = false).
Proof.
  split_and!.
  - intros action Ha. unfold role_actions in Ha. set_unfold in Ha.
    assert (check_permissions grants "list"
            = grants IsStoreOwner || grants IsStoreManager) as ->.
    { cbv [check_permissions get_permissions str_in existsb forallb has_permission].
      change (String.eqb "list" "list") with true. cbn. by rewrite andb_true_r. }
    destruct_or! Ha; subst; vm_compute;
      destruct (grants IsStoreOwner), (grants IsStoreManager); by auto.
  - intros action Ha. set_unfold in Ha.
    destruct_or! Ha; subst; vm_compute; by destruct (grants IsStoreOwner).
  - intros action p Hp.
    destruct (get_permissions_cases action) as [H|[H|[H|[H|H]]]];
      rewrite H in Hp; apply list_elem_of_singleton in Hp; by subst.
Qed.

(** ** The pages of the staff directory *)

Lemma page_rows_chunk {A} (rows : list A) (i : nat) per_page :
  1 ≤ per_page →
  page_rows rows (Z.of_nat (S i)) per_page
  = take (Z.to_nat per_page) (drop (i * Z.to_nat per_page) rows).
Proof.
  intros Hp. unfold page_rows.
  replace (Z.to_nat ((Z.of_nat (S i) - 1) * per_page))
    with (i * Z.to_nat per_page)%nat by lia.
  set (b := (i * Z.to_nat per_page)%nat).
  destruct (decide (b ≤ length rows)%nat) as [Hb|Hb].
  - destruct (decide ((Z.of_nat (S i) - 1) * per_page + per_page
                      ≤ Z.of_nat (length rows))) as [Hle|Hgt].
    + f_equal. lia.
    + rewrite !take_ge; [done| |]; rewrite length_drop; lia.
  - rewrite !drop_ge by lia. by rewrite !take_nil.
Qed.

Lemma chunks_concat {A} (rows : list A) (sz n : nat) :
  concat ((λ i, take sz (drop (i * sz) rows)) <$> seq 0 n) = take (n * sz) rows.
Proof.
  induction n as [|n IH]; [done|].
  rewrite seq_S, fmap_app, concat_app, IH. simpl. rewrite app_nil_r.
  replace (sz + n * sz)%nat with (n * sz + sz)%nat by lia.
  by rewrite take_take_drop.
Qed.

(** X14.  The pages of a query, for every [page_size] parameter: page 1
    to the last page, one after the other, are the rows of the query,
    each row once and in the order of the query. *)
Theorem pages_partition {A} (rows : list A) q :
  concat ((λ i : nat, page_rows rows (Z.of_nat (S i)) (get_page_size q))
            <$> seq 0 (Z.to_nat (num_pages (Z.of_nat (length rows)) (get_page_size q))))
  = rows.
Proof.
  pose proof (get_page_size_bounds q) as Hb.
  set (sz := get_page_size q) in *.
  set (n := Z.to_nat (num_pages (Z.of_nat (length rows)) sz)).
  rewrite (list_fmap_ext _ (λ i, take (Z.to_nat sz) (drop (i * Z.to_nat sz) rows))).
  2:{ intros _ i _. apply page_rows_chunk. lia. }
  rewrite chunks_concat. apply take_ge.
  subst n. unfold num_pages.
  assert (Z.of_nat (length rows)
          ≤ (Z.max 1 (Z.of_nat (length rows)) + sz - 1) / sz * sz).
  { pose proof (Z.div_mod (Z.max 1 (Z.of_nat (length rows)) + sz - 1) sz).
    pose proof (Z.mod_pos_bound (Z.max 1 (Z.of_nat (length rows)) + sz - 1) sz).
    lia. }
  assert (0 ≤ (Z.max 1 (Z.of_nat (length rows)) + sz - 1) / sz).
  { apply Z.div_pos; lia. }
  nia.
Qed.

(** * Batches and their tokens *)

(** ** Every token is reported once *)

Lemma tokens_split cur ids :
  (length (unparsed ids) + length (candidates cur ids) + self_count cur ids
   = length ids)%nat.
Proof.
  unfold unparsed, candidates, self_count.
  induction ids as [|t ids IH]; [done|].
  rewrite !filter_cons. cbn [omap list_omap length]. 
  destruct (Py.int t) as [n|] eqn:E; cbn [mbind option_bind].
  - rewrite decide_False by done.
    destruct (Z.eqb_spec n cur) as [->|Hn].
    + rewrite decide_True by done. cbn [length]. lia.
    + rewrite decide_False by congruence. cbn [length]. lia.
  - rewrite decide_True by done. rewrite decide_False by done. cbn [length]. lia.
Qed.

(** X15.  Every token of a batch is reported in exactly one place: the
    assigned users, the not-found ids, the invalid ids and the tokens that
    name the actor add up to the tokens of the batch; for a dismissal the
    dismissed users, the not-found ids, the no-role ids and the tokens
    that name the actor do. *)
Theorem every_token_reported self c cur ids s s1 v1 s2 v2 :
  configured self c →
  Assign.batch self cur ids s = (s1, inr v1) →
  Dismiss.batch cur ids s = (s2, inr v2) →
  (length (Assign.assigned_users v1) + length (Assign.not_found_ids v1)
   + length (Assign.invalid_ids v1) + self_count cur ids = length ids)%nat
  ∧ (length (Dismiss.dismissed_users v2) + length (Dismiss.not_found_ids v2)
     + length (Dismiss.no_roles_ids v2) + self_count cur ids = length ids)%nat.
Proof.
  intros Hcf Ha Hd. pose proof (tokens_split cur ids) as Hsplit. split.
  - destruct (assign_batch_known self c cur ids s s1 v1
      (λ seen _ st1,
         (length (Assign.assigned_users st1.2) + length (Assign.not_found_ids st1.2)
          + length (Assign.invalid_ids st1.2)
          = length (unparsed ids) + length seen)%nat) Hcf Ha)
      as (objs & HI & _); [done|done| |cbn [fst snd] in HI; lia].
    intros seen x sx [objs v] sy st2 HI Hsub Hx Hstep. cbn [fst snd] in *.
    destruct (assign_step_cases self c objs v x sx Hcf Hsub)
      as [(_ & Hs)|[(ux & _ & _ & Hs)|(ux & _ & _ & _ & Hs)]];
      rewrite Hs in Hstep; simplify_eq; cbn [fst snd]; simpl;
      rewrite !length_app; simpl; lia.
  - destruct (dismiss_batch_known cur ids s s2 v2
      (λ seen _ st1,
         (length (Dismiss.dismissed_users st1.2) + length (Dismiss.not_found_ids st1.2)
          + length (Dismiss.no_roles_ids st1.2)
          = length (unparsed ids) + length seen)%nat) Hd)
      as (objs & HI & _); [done|done| |cbn [fst snd] in HI; lia].
    intros seen x sx [objs v] sy st2 HI Hsub Hx Hstep. cbn [fst snd] in *.
    destruct (dismiss_step_cases objs v x sx Hsub)
      as [(_ & Hs)|[(ux & _ & _ & Hs)|(ux & r & _ & _ & _ & Hs)]];
      rewrite Hs in Hstep; simplify_eq; cbn [fst snd]; simpl;
      rewrite !length_app; simpl; lia.
Qed.

(** ** Assigning twice *)

Lemma assign_batch_rows self c cur ids s s' v k u' :
  configured self c →
  Assign.batch self cur ids s = (s', inr v) →
  k ∈ candidates cur ids → users s' !! k = Some u' →
  getattr u' (field c) = Some true.
Proof.
  intros Hcf Hrun Hk Hu'.
  destruct (assign_batch_flag_frame self c cur ids s s' v Hcf Hrun) as (_ & _ & Hrows).
  destruct (assign_batch_flags self c cur ids s Hcf) as (s1 & v1 & Hrun1 & Hflags).
  rewrite Hrun in Hrun1. simplify_eq.
  assert (∃ u, users s !! k = Some u) as (u & Hu).
  { destruct (Hrows k) as [He|(u & Hu & _)]; [|by eauto].
    rewrite <- He. by eauto. }
  destruct (Hflags k u Hk Hu) as (u1 & Hu1 & Hf). congruence.
Qed.

(** X16.  Assigning is idempotent: the same batch once more, by the same
    handler, assigns no user and leaves both tables as the first run left
    them. *)
Theorem assign_batch_idempotent self c cur ids s s1 v1 :
  configured self c →
  Assign.batch self cur ids s = (s1, inr v1) →
  ∃ s2 v2, Assign.batch self cur ids s1 = (s2, inr v2)
    ∧ users s2 = users s1 ∧ store_owners s2 = store_owners s1
    ∧ Assign.assigned_users v2 = [].
Proof.
  intros Hcf Hrun.
  destruct (assign_batch_total self c cur ids s1 Hcf) as (s2 & v2 & Hrun2).
  exists s2, v2. split; [done|].
  destruct (assign_batch_flag_frame self c cur ids s1 s2 v2 Hcf Hrun2) as (Hso & _).
  destruct (assign_batch_known self c cur ids s1 s2 v2
    (λ _ sx st1, users sx = users s1
       ∧ st1.1 = fetched (candidates cur ids) (users s1)
       ∧ Assign.assigned_users st1.2 = []) Hcf Hrun2)
    as (objs & (Hu & _ & Ha) & _); [done|done| |done].
  intros seen x sx [objs v] sy st2 (Hu & Ho & Ha) Hsub Hx Hstep.
  cbn [fst snd] in *.
  destruct (assign_step_cases self c objs v x sx Hcf Hsub)
    as [(_ & Hs)|[(ux & _ & _ & Hs)|(ux & Hxu & Hg & Hux & Hs)]];
    rewrite Hs in Hstep; simplify_eq; cbn [fst snd]; [done|done|].
  rewrite Hu in Hux.
  pose proof (assign_batch_rows self c cur ids s s1 v1 x ux Hcf Hrun Hx Hux).
  congruence.
Qed.

(** ** A dismissal clears one role *)

(** The loop invariant of [for_each_ind], with the place of the
    iteration in the list. *)
Lemma for_each_prefix_ind {A S} (body : S → A → M S)
    (I : list A → State → S → Prop) l :
  (∀ seen x rest s st, l = seen ++ x :: rest → I seen s st →
     ∃ s' st', body st x s = (s', inr st') ∧ I (seen ++ [x]) s' st') →
  ∀ s st, I [] s st →
    ∃ s' st', for_each body l st s = (s', inr st') ∧ I l s' st'.
Proof.
  intros Hstep.
  cut (∀ rest seen s st, l = seen ++ rest → I seen s st →
         ∃ s' st', for_each body rest st s = (s', inr st') ∧ I l s' st').
  { intros H s st HI. by apply (H l [] s st). }
  induction rest as [|x rest IH]; intros seen s st Hl HI; simpl.
  - exists s, st. rewrite app_nil_r in Hl. by subst.
  - destruct (Hstep seen x rest s st Hl HI) as (s1 & st1 & Hb & HI1).
    destruct (IH (seen ++ [x]) s1 st1) as (s2 & st2 & Hrun & HI2); [|done|].
    { by rewrite <- app_assoc. }
    exists s2, st2. by rewrite (bind_value _ _ _ _ _ Hb).
Qed.

Lemma dismiss_batch_prefix_ind cur ids s
    (I : list Z → State → gmap Z CustomUser * Dismiss.Vars → Prop) :
  candidates cur ids ≠ [] →
  I [] (add_trace (U_filter_id_in (candidates cur ids)) s)
     (fetched (candidates cur ids) (users s), dismiss_scanned cur ids) →
  (∀ seen k rest s1 st1 s2 st2,
     candidates cur ids = seen ++ k :: rest →
     I seen s1 st1 → st1.1 ⊆ users s1 →
     Dismiss.step st1 k s1 = (s2, inr st2) → I (seen ++ [k]) s2 st2) →
  ∃ s' st', Dismiss.batch cur ids s = (s', inr st'.2)
            ∧ I (candidates cur ids) s' st' ∧ st'.1 ⊆ users s'.
Proof.
  intros Hne H0 Hstep.
  rewrite dismiss_batch_unfold.
  rewrite nonempty_true by done.
  destruct (for_each_prefix_ind Dismiss.step
              (λ seen s1 st1, I seen s1 st1 ∧ st1.1 ⊆ users s1)
              (candidates cur ids)) with
    (s := add_trace (U_filter_id_in (candidates cur ids)) s)
    (st := (fetched (candidates cur ids) (users s), dismiss_scanned cur ids))
    as (s' & st' & Hrun & HI & Hsub').
  - intros seen k rest s1 [objs v] Hl [HI Hsub].
    destruct (dismiss_step_total objs v k s1 Hsub) as (s2 & st2 & Hs & Hsub2).
    exists s2, st2. split; [done|]. split; [|done]. by eapply Hstep.
  - split; [done|]. apply fetched_subseteq.
  - exists s', st'. split; [|done]. by rewrite (bind_value _ _ _ _ _ Hrun).
Qed.

Lemma candidates_count cur ids k :
  k ≠ cur →
  length (filter (λ x, x = k) (candidates cur ids))
  = length (filter (λ t, Py.int t = Some k) ids).
Proof.
  intros Hne. unfold candidates.
  induction ids as [|t ids IH]; [done|].
  rewrite filter_cons. cbn [omap list_omap].
  destruct (Py.int t) as [n|] eqn:E; cbn [mbind option_bind].
  - destruct (Z.eqb_spec n cur) as [->|Hn].
    + rewrite decide_False by congruence. done.
    + rewrite filter_cons. destruct (decide (n = k)) as [->|Hnk].
      * rewrite decide_True by done. simpl. by rewrite IH.
      * rewrite decide_False by congruence. done.
  - rewrite decide_False by done. done.
Qed.

Lemma names_once_first cur ids k seen rest :
  names_once k ids → k ≠ cur →
  candidates cur ids = seen ++ k :: rest → k ∉ seen.
Proof.
  unfold names_once. intros Hone Hne Hl.
  rewrite <- (candidates_count cur ids k Hne), Hl in Hone.
  rewrite filter_app, filter_cons, decide_True, length_app in Hone by done.
  simpl in Hone. intros Hin.
  assert (k ∈ filter (λ x, x = k) seen) as Hf by (by apply list_elem_of_filter).
  destruct (filter (λ x, x = k) seen); [by apply elem_of_nil in Hf|].
  simpl in Hone. lia.
Qed.

(** X17.  A dismissal takes one role from a user, the one that
    [get_role] names: for an id that one token of the batch names (other
    ids may come more than once), the row is afterwards the row before
    with the flag of that role cleared (the other flags of a user with
    several roles stay), and the user name is among the dismissed
    users. *)
Theorem dismiss_clears_one_role cur ids s t k u r :
  names_once k ids →
  t ∈ ids → Py.int t = Some k → k ≠ cur →
  users s !! k = Some u → get_role u = Some r →
  ∃ s' v, Dismiss.batch cur ids s = (s', inr v)
    ∧ users s' !! k = Some (setattr u (role_field r) false)
    ∧ username u ∈ Dismiss.dismissed_users v.
Proof.
  intros Hone Ht Hint Hne Hu Hrole.
  assert (k ∈ candidates cur ids) as Hk by (by eapply candidates_elem).
  destruct (dismiss_batch_prefix_ind cur ids s
    (λ seen s1 st1,
       (k ∉ seen → st1.1 !! k = Some u)
       ∧ (k ∈ seen → st1.1 !! k = Some (setattr u (role_field r) false)
                     ∧ username u ∈ Dismiss.dismissed_users st1.2)))
    as (s' & [objs v] & Hrun & (_ & Hin) & Hsub); [| | |].
  - intros He. rewrite He in Hk. by apply elem_of_nil in Hk.
  - cbn [fst snd]. split; [|by intros ?%elem_of_nil].
    intros _. rewrite fetched_lookup. by rewrite decide_True.
  - intros seen x rest s1 [objs v] s2 st2 Hl (Hout & Hin) Hsub Hstep.
    cbn [fst snd] in *.
    assert (x = k → k ∉ seen) as Hfresh.
    { intros ->. by eapply names_once_first. }
    destruct (dismiss_step_cases objs v x s1 Hsub)
      as [(Hn & Hs)|[(ux & Hxu & Hg & Hs)|(ux & rx & Hxu & Hg & _ & Hs)]];
      rewrite Hs in Hstep; simplify_eq; cbn [fst snd].
    + split; rewrite elem_of_snoc.
      * intros Hk'. apply Hout. by auto.
      * intros [Hk'| ->]; [by auto|]. specialize (Hout (Hfresh eq_refl)). congruence.
    + split; rewrite elem_of_snoc.
      * intros Hk'. apply Hout. by auto.
      * intros [Hk'| ->]; [by auto|]. specialize (Hout (Hfresh eq_refl)). congruence.
    + split; rewrite elem_of_snoc.
      * intros Hk'. rewrite lookup_insert_ne by (intros ->; by auto).
        apply Hout. by auto.
      * intros [Hk'| ->].
        -- rewrite lookup_insert_ne by (intros ->; by apply Hfresh).
           destruct (Hin Hk') as [? ?]. split; [done|].
           simpl. rewrite elem_of_app. by left.
        -- specialize (Hout (Hfresh eq_refl)). rewrite Hxu in Hout. simplify_eq.
           rewrite lookup_insert_eq. split; [done|].
           simpl. rewrite elem_of_app, list_elem_of_singleton. by right.
  - cbn [fst snd] in *. exists s', v. split; [done|].
    destruct (Hin Hk) as [Hrow Hname]. split; [|done].
    by eapply lookup_weaken.
Qed.

(** ** Assigning and dismissing again *)

Lemma get_role_assigned u r :
  r ∈ role_keys → get_role u = None →
  get_role (setattr u ("is_" +:+ r) true) = Some r
  ∧ role_field r = "is_" +:+ r
  ∧ setattr (setattr u ("is_" +:+ r) true) ("is_" +:+ r) false = u
  ∧ getattr u ("is_" +:+ r) = Some false.
Proof.
  unfold role_keys. intros Hr. set_unfold in Hr. unfold get_role.
  destruct u as [? ? ? ? ? ? [] [] [] [] [] []]; simpl; intros Hn; try done;
    destruct_or! Hr; subst; split_and!; reflexivity.
Qed.

(** X18.  Assigning a role to users without a role and dismissing the
    same batch gives the user table back as it was, for each of the six
    role keys and however often an id occurs in the batch. *)
Theorem assign_then_dismiss r self c cur ids s s1 v1 :
  r ∈ role_keys →
  configured self c → field c = "is_" +:+ r →
  (∀ k u, k ∈ candidates cur ids → users s !! k = Some u → get_role u = None) →
  Assign.batch self cur ids s = (s1, inr v1) →
  ∃ s2 v2, Dismiss.batch cur ids s1 = (s2, inr v2) ∧ users s2 = users s.
Proof.
  intros Hr Hcf Hf Hnone Hrun.
  destruct (dismiss_batch_total cur ids s1) as (s2 & v2 & Hrun2).
  exists s2, v2. split; [done|].
  destruct (assign_batch_flag_frame self c cur ids s s1 v1 Hcf Hrun)
    as (_ & _ & Hrows).
  assert (∀ k, k ∈ candidates cur ids →
            users s1 !! k = (λ u, setattr u ("is_" +:+ r) true) <$> users s !! k)
    as Hs1.
  { intros k Hk. destruct (users s !! k) as [u|] eqn:Hu.
    - destruct (Hrows k) as [He|(u0 & Hu0 & _ & Hu1 & _)].
      + assert (getattr u (field c) = Some true) as Ht.
        { eapply (assign_batch_rows self c cur ids s s1 v1 k u); try done.
          by rewrite He. }
        rewrite Hf in Ht. pose proof (Hnone k u Hk Hu) as Hn.
        destruct (get_role_assigned u r Hr Hn) as (_ & _ & _ & Hfalse).
        congruence.
      + simplify_eq. rewrite Hu1. by rewrite Hf.
    - destruct (Hrows k) as [He|(u0 & Hu0 & _)]; [simpl; congruence|congruence]. }
  assert (∀ k, k ∉ candidates cur ids → users s1 !! k = users s !! k) as Hother.
  { intros k Hk. destruct (Hrows k) as [He|(u0 & _ & _ & _ & Hin)]; done. }
  destruct (dismiss_batch_known cur ids s1 s2 v2
    (λ seen sx st1,
       (∀ k, k ∈ candidates cur ids →
          st1.1 !! k = if decide (k ∈ seen) then users s !! k else users s1 !! k)
       ∧ (∀ k, users sx !! k
               = if decide (k ∈ seen) then users s !! k else users s1 !! k)) Hrun2)
    as (objs & (_ & Hend) & _).
  - cbn [fst snd]. split.
    + intros k Hk. rewrite decide_False by (by intros ?%elem_of_nil).
      rewrite fetched_lookup. by rewrite decide_True.
    + intros k. by rewrite decide_False by (by intros ?%elem_of_nil).
  - done.
  - intros seen x sx [objs v] sy st2 (Ho & Hu) Hsub Hx Hstep.
    cbn [fst snd] in *.
    assert (∀ k, k ≠ x →
              (if decide (k ∈ seen ++ [x]) then users s !! k else users s1 !! k)
              = (if decide (k ∈ seen) then users s !! k else users s1 !! k)) as Hsame.
    { intros k Hkx. destruct (decide (k ∈ seen)) as [Hin|Hout].
      - rewrite decide_True; [done|]. rewrite elem_of_snoc. by left.
      - rewrite decide_False; [done|]. rewrite elem_of_snoc. by intros [?|?]. }
    pose proof (Ho x Hx) as Hox. pose proof (Hs1 x Hx) as Hs1x.
    assert (x ∈ seen ++ [x]) as Hxin by (rewrite elem_of_snoc; by right).
    destruct (dismiss_step_cases objs v x sx Hsub)
      as [(Hn & Hs)|[(ux & Hxu & Hg & Hs)|(ux & rx & Hxu & Hg & _ & Hs)]];
      rewrite Hs in Hstep; simplify_eq; cbn [fst snd].
    + assert (users s !! x = None) as Hsx.
      { rewrite Hn in Hox. destruct (decide (x ∈ seen)); [done|].
        rewrite Hs1x in Hox. by destruct (users s !! x). }
      assert (users s1 !! x = None) as Hs1x' by (by rewrite Hs1x, Hsx).
      split; intros k; [intros Hk|]; (destruct (decide (k = x)) as [->|Hkx];
        [rewrite decide_True by done|rewrite Hsame by done; by auto]).
      * by rewrite Hn, Hsx.
      * rewrite Hu. rewrite Hsx, Hs1x'. by destruct (decide _).
    + assert (x ∈ seen) as Hseen.
      { destruct (decide (x ∈ seen)) as [|Hout]; [done|exfalso].
        rewrite Hxu, Hs1x in Hox. destruct (users s !! x) as [u0|] eqn:Hu0; [|done].
        simpl in Hox. simplify_eq.
        destruct (get_role_assigned u0 r Hr (Hnone x u0 Hx Hu0)) as (Hg' & _).
        congruence. }
      split; intros k; [intros Hk|]; (destruct (decide (k = x)) as [->|Hkx];
        [rewrite decide_True by done|rewrite Hsame by done; by auto]).
      * rewrite Ho by done. by rewrite decide_True.
      * rewrite Hu. by rewrite decide_True.
    + assert (∃ u0, users s !! x = Some u0 ∧ (x ∉ seen)
                    ∧ setattr ux (role_field rx) false = u0) as (u0 & Hu0 & Hout & Hback).
      { rewrite Hxu in Hox. destruct (decide (x ∈ seen)) as [Hin|Hout].
        - symmetry in Hox. pose proof (Hnone x ux Hx Hox). congruence.
        - rewrite Hs1x in Hox. destruct (users s !! x) as [u0|] eqn:Hu0; [|done].
          simpl in Hox. simplify_eq. exists u0.
          destruct (get_role_assigned u0 r Hr (Hnone x u0 Hx Hu0))
            as (Hg' & Hrf & Hb & _).
          rewrite Hg in Hg'. simplify_eq. rewrite Hrf. done. }
      rewrite Hback.
      split; intros k; [intros Hk|]; (destruct (decide (k = x)) as [->|Hkx];
        [rewrite decide_True by done|rewrite Hsame by done]).
      * by rewrite lookup_insert_eq.
      * rewrite lookup_insert_ne by done. by auto.
      * rewrite saved_users, entry_deleted_users, Hback. by rewrite lookup_insert_eq.
      * rewrite saved_users, entry_deleted_users, lookup_insert_ne by done. by auto.
  - apply map_eq. intros k. rewrite Hend.
    destruct (decide (k ∈ candidates cur ids)); [done|]. by apply Hother.
Qed.

(** * The further properties on the sample shop *)

Example dismiss_tokens_run :
  Dismiss.batch 1 ["x"; "1"; "99"] Sample.shop
  = (add_trace (U_filter_id_in [99]) Sample.shop,
     inr {| Dismiss.dismissed_users := [];
            Dismiss.not_found_ids := ["x"; "99"];
            Dismiss.no_roles_ids := [];
            Dismiss.error_messages := ["You cannot dismiss yourself."];
            Dismiss.valid_ids := [99] |}).
Proof. vm_compute. reflexivity. Qed.

Lemma sample_one_entry_per_user : one_entry_per_user Sample.shop.
Proof. unfold one_entry_per_user. simpl. apply NoDup_singleton. Defined.

Lemma assign_batch_sets_one_flag_witness :
  configured Sample.cashier_handler Sample.cashier_config
  ∧ ∃ s' v,
      Assign.batch Sample.cashier_handler 1 ["2"; "3"; "abc"; "1"; "2"; "99"]
        Sample.shop = (s', inr v)
      ∧ store_owners s' = store_owners Sample.shop
      ∧ so_seq s' = so_seq Sample.shop
      ∧ ∀ k, users s' !! k = users Sample.shop !! k
             ∨ ∃ u, users Sample.shop !! k = Some u
                    ∧ getattr u "is_cashier" = Some false
                    ∧ users s' !! k = Some (setattr u "is_cashier" true)
                    ∧ k ∈ candidates 1 ["2"; "3"; "abc"; "1"; "2"; "99"].
Proof.
  split; [exact sample_configured|]. eexists _, _.
  split; [exact assign_batch_run|].
  exact (assign_batch_sets_one_flag _ _ _ _ _ _ _ sample_configured assign_batch_run).
Defined.

Lemma dismiss_batch_only_clears_witness :
  ∃ s' v,
    Dismiss.batch 1 ["3"; "x"; "1"; "2"] Sample.shop = (s', inr v)
    ∧ sublist (store_owners s') (store_owners Sample.shop)
    ∧ so_seq s' = so_seq Sample.shop
    ∧ (∀ e, e ∈ store_owners Sample.shop →
            so_user e ∉ candidates 1 ["3"; "x"; "1"; "2"] → e ∈ store_owners s')
    ∧ ∀ k, match users Sample.shop !! k, users s' !! k with
           | Some u, Some u' => only_cleared u u'
           | None, None => True
           | _, _ => False
           end.
Proof.
  eexists _, _. split; [exact dismiss_batch_run|].
  exact (dismiss_batch_only_clears _ _ _ _ _ dismiss_batch_run).
Defined.

Lemma missing_user_not_found_witness :
  configured Sample.cashier_handler Sample.cashier_config
  ∧ "99" ∈ ["2"; "99"] ∧ Py.int "99" = Some 99 ∧ 99 ≠ 1
  ∧ users Sample.shop !! 99 = None
  ∧ (∃ s' v, Assign.batch Sample.cashier_handler 1 ["2"; "99"] Sample.shop
             = (s', inr v)
       ∧ users s' !! 99 = None ∧ Py.str 99 ∈ Assign.not_found_ids v)
  ∧ (∃ s' v, Dismiss.batch 1 ["2"; "99"] Sample.shop = (s', inr v)
       ∧ users s' !! 99 = None ∧ Py.str 99 ∈ Dismiss.not_found_ids v).
Proof.
  assert ("99" ∈ ["2"; "99"]) as H1 by by_decide.
  assert (Py.int "99" = Some 99) as H2 by reflexivity.
  assert (99 ≠ 1) as H3 by lia.
  assert (users Sample.shop !! 99 = None) as H4 by reflexivity.
  split_and!; [exact sample_configured|exact H1|exact H2|exact H3|exact H4| |].
  - exact (proj1 (missing_user_not_found Sample.cashier_handler
                    Sample.cashier_config 1 ["2"; "99"] Sample.shop "99" 99
                    sample_configured H1 H2 H3 H4)).
  - exact (proj2 (missing_user_not_found Sample.cashier_handler
                    Sample.cashier_config 1 ["2"; "99"] Sample.shop "99" 99
                    sample_configured H1 H2 H3 H4)).
Defined.

Lemma dismiss_user_without_role_witness :
  unique_usernames (users Sample.shop)
  ∧ "2" ∈ ["3"; "2"] ∧ Py.int "2" = Some 2 ∧ 2 ≠ 1
  ∧ users Sample.shop !! 2 = Some Sample.bob ∧ get_role Sample.bob = None
  ∧ ∃ s' v, Dismiss.batch 1 ["3"; "2"] Sample.shop = (s', inr v)
      ∧ users s' !! 2 = Some Sample.bob
      ∧ Py.str 2 ∈ Dismiss.no_roles_ids v
      ∧ username Sample.bob ∉ Dismiss.dismissed_users v.
Proof.
  assert ("2" ∈ ["3"; "2"]) as H1 by by_decide.
  assert (Py.int "2" = Some 2) as H2 by reflexivity.
  assert (2 ≠ 1) as H3 by lia.
  assert (users Sample.shop !! 2 = Some Sample.bob) as H4 by reflexivity.
  assert (get_role Sample.bob = None) as H5 by reflexivity.
  split_and!;
    [exact sample_unique_usernames|exact H1|exact H2|exact H3|exact H4|exact H5|].
  exact (dismiss_user_without_role 1 ["3"; "2"] Sample.shop "2" 2 Sample.bob
           sample_unique_usernames H1 H2 H3 H4 H5).
Defined.

Lemma assigned_users_no_duplicates_witness :
  configured Sample.cashier_handler Sample.cashier_config
  ∧ unique_usernames (users Sample.shop)
  ∧ ∃ s' v,
      Assign.batch Sample.cashier_handler 1 ["2"; "3"; "abc"; "1"; "2"; "99"]
        Sample.shop = (s', inr v)
      ∧ NoDup (Assign.assigned_users v).
Proof.
  split; [exact sample_configured|]. split; [exact sample_unique_usernames|].
  eexists _, _. split; [exact assign_batch_run|].
  exact (assigned_users_no_duplicates _ _ _ _ _ _ _ sample_configured
           sample_unique_usernames assign_batch_run).
Defined.

Lemma dismiss_batch_messages_witness :
  ∃ s' v,
    Dismiss.batch 1 ["3"; "x"; "1"; "2"] Sample.shop = (s', inr v)
    ∧ Dismiss.error_messages v
      = replicate (self_count 1 ["3"; "x"; "1"; "2"]) Dismiss.self_message
    ∧ unparsed ["3"; "x"; "1"; "2"] `prefix_of` Dismiss.not_found_ids v.
Proof.
  eexists _, _. split; [exact dismiss_batch_run|].
  exact (dismiss_batch_messages _ _ _ _ _ dismiss_batch_run).
Defined.

Lemma assign_endpoints_raise_witness :
  getlist "user_ids" (data (Sample.post ["2"])) ≠ []
  ∧ store_owners Sample.shop ≠ []
  ∧ (∃ s', assign_cashier (Sample.post ["2"]) Sample.shop
           = (s', inl (Py.AttributeError "_build_process_assignment_response_messages"))
         ∧ store_owners s' = store_owners Sample.shop
         ∧ ∀ t k u, t ∈ getlist "user_ids" (data (Sample.post ["2"])) →
             Py.int t = Some k → k ≠ user_id (Sample.post ["2"]) →
             users Sample.shop !! k = Some u →
             ∃ u', users s' !! k = Some u'
                   ∧ getattr u' ("is_" +:+ "cashier") = Some true)
  ∧ (∃ s', assign_store_owner (Sample.post ["2"]) Sample.shop
           = (s', inl (Py.AttributeError "_build_process_assignment_response_messages"))
         ∧ store_owners s' = store_owners Sample.shop
         ∧ ∀ t k u, t ∈ getlist "user_ids" (data (Sample.post ["2"])) →
             Py.int t = Some k → k ≠ user_id (Sample.post ["2"]) →
             users Sample.shop !! k = Some u →
             ∃ u', users s' !! k = Some u' ∧ is_store_owner u' = true).
Proof.
  assert (getlist "user_ids" (data (Sample.post ["2"])) ≠ []) as H by by_decide.
  assert (store_owners Sample.shop ≠ []) as Hs by by_decide.
  destruct (assign_endpoints_raise (Sample.post ["2"]) Sample.shop H) as [Hfive Hown].
  split_and!; [exact H|exact Hs| |exact (Hown Hs)].
  apply (Hfive assign_cashier "cashier").
  do 4 apply list_elem_of_further. apply list_elem_of_here.
Defined.

Lemma one_entry_per_user_kept_witness :
  one_entry_per_user Sample.shop
  ∧ one_entry_per_user (ORM.store_owner_create 3 Sample.shop).1
  ∧ one_entry_per_user (assign_store_owner (Sample.post ["2"]) Sample.shop).1
  ∧ one_entry_per_user
      (process_dismissals {| role_type := None; config := None |} 1 ["3"]
         Sample.shop).1.
Proof.
  destruct (one_entry_per_user_kept Sample.shop sample_one_entry_per_user)
    as (Hc & Ha & Hd).
  split_and!; [exact sample_one_entry_per_user|exact (Hc 3)|exact (Ha _)|exact (Hd _ _ _)].
Defined.

Lemma assignment_messages_keys_witness :
  config Sample.cashier_handler = Some Sample.cashier_config
  ∧ ∃ d, _build_process_assignment_response__messages Sample.cashier_handler
           ["bob"] [] ["3"] ["User eve is already a cashier."] Sample.shop
         = (Sample.shop, inr d)
      ∧ d.*1 = ["message"; "invalid"; "errors"]
      ∧ (["User eve is already a cashier."] ≠ [] →
         dict_get "errors" d = Some (Py.VStrs ["User eve is already a cashier."])).
Proof.
  assert (config Sample.cashier_handler = Some Sample.cashier_config) as H
    by reflexivity.
  split; [exact H|].
  exact (assignment_messages_keys Sample.cashier_handler Sample.cashier_config
           ["bob"] [] ["3"] ["User eve is already a cashier."] Sample.shop H).
Defined.

Lemma process_dismissals_without_role_type_witness :
  let self := {| role_type := None; config := None |} in
  config self = None
  ∧ (∃ s' v, Dismiss.batch 1 ["3"; "x"; "1"; "2"] Sample.shop = (s', inr v)
       ∧ (Dismiss.dismissed_users v ≠ [] ∨ Dismiss.no_roles_ids v ≠ [])
       ∧ process_dismissals self 1 ["3"; "x"; "1"; "2"] Sample.shop
         = (s', inl (Py.AttributeError "config")))
  ∧ (∃ s' v, Dismiss.batch 1 ["x"; "1"; "99"] Sample.shop = (s', inr v)
       ∧ (Dismiss.dismissed_users v = [] ∧ Dismiss.no_roles_ids v = [])
       ∧ ∃ d, process_dismissals self 1 ["x"; "1"; "99"] Sample.shop
              = (s', inr {| Dismiss.r_dismissed_users := [];
                            Dismiss.r_not_found_ids := Dismiss.not_found_ids v;
                            Dismiss.r_no_roles_ids := [];
                            Dismiss.r_error_messages := Dismiss.error_messages v;
                            Dismiss.r_response_data := d |})
           ∧ d.*1 = (if nonempty (Dismiss.not_found_ids v) then ["not_found"] else [])
                    ++ (if nonempty (Dismiss.error_messages v) then ["errors"] else [])).
Proof.
  intros self.
  assert (config self = None) as H by reflexivity.
  split; [exact H|]. split.
  - eexists _, _. split; [exact dismiss_batch_run|].
    assert (["eve"] ≠ [] ∨ ["2"] ≠ []) as Hne by (left; by_decide).
    split; [exact Hne|].
    exact (proj2 (process_dismissals_without_role_type self 1 _ _ _ _ H
                    dismiss_batch_run) Hne).
  - eexists _, _. split; [exact dismiss_tokens_run|].
    assert (@nil string = [] ∧ @nil string = []) as He by (split; reflexivity).
    split; [exact He|].
    exact (proj1 (process_dismissals_without_role_type self 1 _ _ _ _ H
                    dismiss_tokens_run) He).
Defined.

Lemma init_role_types_witness :
  "cashier" ∈ role_keys ∧ "boss" ≠ "" ∧ ("boss" ∉ role_keys)
  ∧ (∃ c, __init__ (Some "cashier")
          = inr {| role_type := Some "cashier"; config := Some c |}
       ∧ field c = "is_" +:+ "cashier"
       ∧ ∀ u, getattr u (field c) = getattr u (role_field "cashier")
              ∧ is_Some (getattr u (field c)))
  ∧ __init__ (Some "boss") = inl (Py.KeyError "boss").
Proof.
  assert ("cashier" ∈ role_keys) as H1 by by_decide.
  assert ("boss" ≠ "") as H2 by by_decide.
  assert ("boss" ∉ role_keys) as H3 by by_decide.
  split_and!; [exact H1|exact H2|exact H3| |].
  - exact (proj1 (init_role_types "cashier") H1).
  - exact (proj1 (proj2 (init_role_types "boss")) H2 H3).
Defined.

Lemma get_queryset_excludes_requester_witness :
  "retrieve" ≠ "list"
  ∧ get_queryset "list" (Sample.get []) (users Sample.shop) !! 1 = None
  ∧ get_queryset "list" (Sample.get []) (users Sample.shop) !! 2 = Some Sample.bob
  ∧ get_queryset "retrieve" (Sample.get []) (users Sample.shop) = users Sample.shop.
Proof.
  assert ("retrieve" ≠ "list") as H by by_decide.
  destruct (get_queryset_excludes_requester "retrieve" (Sample.get [])
              (users Sample.shop)) as [Hl Ho].
  split_and!; [exact H|exact (Hl 1)|exact (Hl 2)|exact (Ho H)].
Defined.

Lemma role_actions_permissions_witness :
  let grants := λ p, match p with IsStoreManager => true | _ => false end in
  "assign_cashier" ∈ role_actions
  ∧ check_permissions grants "assign_cashier" = true
  ∧ (grants IsStoreOwner = true ∨ grants IsStoreManager = true)
  ∧ check_permissions grants "list" = true.
Proof.
  intros grants.
  assert ("assign_cashier" ∈ role_actions) as H1 by by_decide.
  assert (check_permissions grants "assign_cashier" = true) as H2 by reflexivity.
  split; [exact H1|]. split; [exact H2|].
  exact (proj1 (role_actions_permissions grants) "assign_cashier" H1 H2).
Defined.

Lemma every_token_reported_witness :
  let ids := ["2"; "3"; "abc"; "1"; "2"; "99"] in
  configured Sample.cashier_handler Sample.cashier_config
  ∧ ∃ s1 v1 s2 v2,
      Assign.batch Sample.cashier_handler 1 ids Sample.shop = (s1, inr v1)
      ∧ Dismiss.batch 1 ids Sample.shop = (s2, inr v2)
      ∧ (length (Assign.assigned_users v1) + length (Assign.not_found_ids v1)
         + length (Assign.invalid_ids v1) + self_count 1 ids = length ids)%nat
      ∧ (length (Dismiss.dismissed_users v2) + length (Dismiss.not_found_ids v2)
         + length (Dismiss.no_roles_ids v2) + self_count 1 ids = length ids)%nat.
Proof.
  intros ids. split; [exact sample_configured|].
  destruct (dismiss_batch_total 1 ids Sample.shop) as (s2 & v2 & Hd).
  eexists _, _, s2, v2. split; [exact assign_batch_run|]. split; [exact Hd|].
  exact (every_token_reported _ _ _ _ _ _ _ _ _ sample_configured
           assign_batch_run Hd).
Defined.

Lemma assign_batch_idempotent_witness :
  configured Sample.cashier_handler Sample.cashier_config
  ∧ ∃ s1 v1,
      Assign.batch Sample.cashier_handler 1 ["2"; "3"; "abc"; "1"; "2"; "99"]
        Sample.shop = (s1, inr v1)
      ∧ ∃ s2 v2,
          Assign.batch Sample.cashier_handler 1 ["2"; "3"; "abc"; "1"; "2"; "99"] s1
          = (s2, inr v2)
          ∧ users s2 = users s1 ∧ store_owners s2 = store_owners s1
          ∧ Assign.assigned_users v2 = [].
Proof.
  split; [exact sample_configured|]. eexists _, _.
  split; [exact assign_batch_run|].
  exact (assign_batch_idempotent _ _ _ _ _ _ _ sample_configured assign_batch_run).
Defined.

Lemma dismiss_clears_one_role_witness :
  names_once 3 ["3"; "2"; "2"; "1"]
  ∧ "3" ∈ ["3"; "2"; "2"; "1"] ∧ Py.int "3" = Some 3 ∧ 3 ≠ 1
  ∧ users Sample.shop !! 3 = Some Sample.eve
  ∧ get_role Sample.eve = Some "store_owner"
  ∧ ∃ s' v, Dismiss.batch 1 ["3"; "2"; "2"; "1"] Sample.shop = (s', inr v)
      ∧ users s' !! 3 = Some (setattr Sample.eve (role_field "store_owner") false)
      ∧ username Sample.eve ∈ Dismiss.dismissed_users v.
Proof.
  assert (names_once 3 ["3"; "2"; "2"; "1"]) as H0 by reflexivity.
  assert ("3" ∈ ["3"; "2"; "2"; "1"]) as H1 by by_decide.
  assert (Py.int "3" = Some 3) as H2 by reflexivity.
  assert (3 ≠ 1) as H3 by lia.
  assert (users Sample.shop !! 3 = Some Sample.eve) as H4 by reflexivity.
  assert (get_role Sample.eve = Some "store_owner") as H5 by reflexivity.
  split_and!; [exact H0|exact H1|exact H2|exact H3|exact H4|exact H5|].
  exact (dismiss_clears_one_role 1 ["3"; "2"; "2"; "1"] Sample.shop "3" 3 Sample.eve
           "store_owner" H0 H1 H2 H3 H4 H5).
Defined.

Lemma assign_then_dismiss_witness :
  "cashier" ∈ role_keys
  ∧ configured Sample.cashier_handler Sample.cashier_config
  ∧ field Sample.cashier_config = "is_" +:+ "cashier"
  ∧ (∀ k u, k ∈ candidates 1 ["2"; "2"; "99"] →
            users Sample.shop !! k = Some u → get_role u = None)
  ∧ ∃ s1 v1,
      Assign.batch Sample.cashier_handler 1 ["2"; "2"; "99"] Sample.shop
      = (s1, inr v1)
      ∧ ∃ s2 v2, Dismiss.batch 1 ["2"; "2"; "99"] s1 = (s2, inr v2)
          ∧ users s2 = users Sample.shop.
Proof.
  assert ("cashier" ∈ role_keys) as H1 by by_decide.
  assert (field Sample.cashier_config = "is_" +:+ "cashier") as H2 by reflexivity.
  assert (∀ k u, k ∈ candidates 1 ["2"; "2"; "99"] →
            users Sample.shop !! k = Some u → get_role u = None) as H3.
  { intros k u Hk. change (candidates 1 ["2"; "2"; "99"]) with [2; 2; 99] in Hk.
    set_unfold in Hk. destruct_or! Hk; subst; intros Hu; vm_compute in Hu;
      by simplify_eq. }
  destruct (assign_batch_total Sample.cashier_handler Sample.cashier_config 1
              ["2"; "2"; "99"] Sample.shop sample_configured) as (s1 & v1 & Ha).
  split_and!; [exact H1|exact sample_configured|exact H2|exact H3|].
  exists s1, v1. split; [exact Ha|].
  exact (assign_then_dismiss "cashier" Sample.cashier_handler Sample.cashier_config
           1 ["2"; "2"; "99"] Sample.shop s1 v1 H1 sample_configured H2 H3 Ha).
Defined.
